(** * Textbook fee reporter: normalisation, price resolution, extraction

    A shallow embedding of the two Python programs of the repository,

    - [textbook_fee_reporter.py]          (module [Reporter] below), and
    - [TextbookPurchaseFeeCalculator.py]  (module [Calculator] below),

    followed by the properties of the specification that concern them.

    Conventions of the embedding.
    - A Python [str] is the list of its code points ([list Z]).
    - A Python [float] is an IEEE 754 binary64 number ([PrimFloat.float]).
    - A [dict] used only through lookup and item assignment is a [gmap];
      the [defaultdict(float)] whose iteration order is observable is an
      association list in insertion order.
    - An exception is a value of type [exn]; a function that may raise
      returns a [result].
    - A loop that always terminates is a total function (defined with
      Equations, by a measure); a loop that may run for ever takes a
      bound on the number of iterations and returns [None] when the bound
      is reached.
    - What belongs to Python's libraries and not to the programs is a
      parameter: the table of alphanumeric characters behind [\w], the
      conversions of a cell of the sheet ([Cell]) and pandas'
      [str.contains]. Module [Sample] gives an instance of each for the
      examples. *)

From Stdlib Require Import ZArith List Bool Lia Floats Uint63.
From Equations Require Import Equations.
From stdpp Require Import gmap list option.

Open Scope Z_scope.

(* A decimal literal such as 19.995 stands for the nearest float. *)
#[local] Set Warnings "-inexact-float".

(** ** Python primitives *)

Module Py.

(** [str]: the sequence of the code points of the string. *)
Abbreviation pystr := (list Z).

Definition SPACE : Z := 32.          (* ' '  *)
Definition IDEOGRAPHIC_SPACE : Z := 12288. (* U+3000, full-width space *)
Definition LPAREN : Z := 40.         (* '('  *)
Definition RPAREN : Z := 41.         (* ')'  *)
Definition FW_LPAREN : Z := 65288.   (* U+FF08 *)
Definition FW_RPAREN : Z := 65289.   (* U+FF09 *)
Definition UNDERSCORE : Z := 95.     (* '_'  *)

(** [c in s] for a one-character string [c]. *)
Definition contains (c : Z) (s : pystr) : bool := existsb (Z.eqb c) s.

(** [s.find(c)] for a one-character string [c]: the index of the first
    occurrence, or -1. *)
Fixpoint find_from (c : Z) (s : pystr) (i : Z) : Z :=
  match s with
  | [] => -1
  | x :: t => if x =? c then i else find_from c t (i + 1)
  end.

Definition find (s : pystr) (c : Z) : Z := find_from c s 0.

(** Slices [s[:i]] and [s[i:]]; a negative index counts from the end. *)
Definition index_of_slice (s : pystr) (i : Z) : nat :=
  if i <? 0 then Z.to_nat (Z.of_nat (length s) + i) else Z.to_nat i.

Definition slice_to (s : pystr) (i : Z) : pystr := firstn (index_of_slice s i) s.
Definition slice_from (s : pystr) (i : Z) : pystr := skipn (index_of_slice s i) s.

(** [s.replace(c, '')] for a one-character string [c]. *)
Definition remove_char (c : Z) (s : pystr) : pystr :=
  List.filter (fun x => negb (x =? c)) s.

(** [str.isspace] on one character: the white space of the Unicode
    database (bidirectional type WS, B or S, or category Zs). *)
Definition isspace (c : Z) : bool :=
  ((9 <=? c) && (c <=? 13)) || ((28 <=? c) && (c <=? 32))
  || (c =? 133) || (c =? 160) || (c =? 5760)
  || ((8192 <=? c) && (c <=? 8202))
  || (c =? 8232) || (c =? 8233) || (c =? 8239) || (c =? 8287) || (c =? 12288).

Fixpoint lstrip (s : pystr) : pystr :=
  match s with
  | [] => []
  | x :: t => if isspace x then lstrip t else s
  end.

(** [s.strip()]. *)
Definition strip (s : pystr) : pystr := rev (lstrip (rev (lstrip s))).

(** Truth value of a float: false exactly for 0.0 and -0.0. *)
Definition truthy (x : float) : bool := negb (PrimFloat.eqb x 0%float).

(** Truth value of [d.get(k)]: [None] and zero are false. *)
Definition truthy_opt (o : option float) : bool :=
  match o with
  | Some x => truthy x
  | None => false
  end.

(** [a or b]: the left operand when it is true, else the right one. *)
Definition or_ (a b : option float) : option float :=
  if truthy_opt a then a else b.

(** A [defaultdict(float)], in insertion order. *)
Abbreviation odict := (list (pystr * float)).

(** [d[k] += v] on a [defaultdict(float)]: a missing key is first
    inserted, at the end, with 0.0. *)
Fixpoint iadd (d : odict) (k : pystr) (v : float) : odict :=
  match d with
  | [] => [(k, PrimFloat.add 0%float v)]
  | (k', x) :: d' =>
      if bool_decide (k' = k) then (k', PrimFloat.add x v) :: d'
      else (k', x) :: iadd d' k v
  end.

(** [sum(xs)] and the loop [t = 0; for x in xs: t += x]: the left fold
    of the addition, from 0 (the summation of CPython up to 3.11; from 3.12
    on [sum] compensates the rounding errors of a list of floats). *)
Definition sum (xs : list float) : float :=
  fold_left PrimFloat.add xs 0%float.

(** The nearest binary64 number to the quotient of two positive
    integers, ties to even, with the given sign ([strtod] on a decimal
    numeral). *)
Definition nearest_float (sign : bool) (num den : positive) : float :=
  let '(q, e, l) := SFdiv_core_binary prec emax (Zpos num) 0 (Zpos den) 0 in
  SF2Prim (binary_round_aux prec emax sign q e l).

(** The integer nearest to [m * 100 * 2^e], ties to even. *)
Definition hundredths_half_even (m : positive) (e : Z) : Z :=
  match e with
  | Zneg k =>
      let d := 2 ^ Zpos k in
      let q := (Zpos m * 100) / d in
      let r := (Zpos m * 100) mod d in
      match 2 * r ?= d with
      | Lt => q
      | Gt => q + 1
      | Eq => if Z.even q then q else q + 1
      end
  | _ => Zpos m * 100 * 2 ^ e
  end.

(** [round(x, 2)] on a float: the value is rounded to two decimals
    correctly, ties going to the even neighbour, and the decimal result
    is read back as a float; infinities and NaN round to themselves. *)
Definition round2 (x : float) : float :=
  match Prim2SF x with
  | S754_finite s m e =>
      match hundredths_half_even m e with
      | Zpos n => nearest_float s n 100
      | _ => SF2Prim (S754_zero s)
      end
  | _ => x
  end.

End Py.

Import Py.

(** Facts on [find] and slices that the termination of the bracket loop
    of [Reporter.str_format_2] rests on. *)

Lemma find_from_bounds (c : Z) (s : pystr) (i : Z) :
  contains c s = true ->
  i <= find_from c s i < i + Z.of_nat (length s).
Proof.
  revert i. induction s as [|x t IH]; intros i Hc; [discriminate|].
  cbn [find_from length]. cbn in Hc.
  destruct (Z.eqb_spec x c) as [->|Hne]; [lia|].
  destruct (Z.eqb_spec c x) as [->|_]; [congruence|].
  specialize (IH (i + 1) Hc). lia.
Qed.

Lemma find_bounds (c : Z) (s : pystr) :
  contains c s = true -> 0 <= find s c < Z.of_nat (length s).
Proof. intros Hc. apply (find_from_bounds c s 0 Hc). Qed.

Lemma cut_span_shorter (o c : Z) (s : pystr) :
  contains o s && contains c s = true ->
  (find s o <? find s c) = true ->
  (length (slice_to s (find s o) ++ slice_from s (find s c + 1)) < length s)%nat.
Proof.
  intros Hin Hlt. apply andb_true_iff in Hin as [Ho Hc].
  apply Z.ltb_lt in Hlt.
  pose proof (find_bounds o s Ho). pose proof (find_bounds c s Hc).
  unfold slice_to, slice_from, index_of_slice.
  destruct (Z.ltb_spec (find s o) 0); [lia|].
  destruct (Z.ltb_spec (find s c + 1) 0); [lia|].
  rewrite length_app, length_take, length_drop. lia.
Qed.

(** ** Data shared by the two programs *)

(** The exceptions the two programs raise. *)
Inductive exn : Type :=
| ClassNotFound                      (* ValueError("未找到班级 ...") *)
| HeaderNotFound                     (* ValueError("未找到'序号'标题") *)
| MissingColumn (token : pystr)      (* ValueError("缺少必要列：...") *)
| NonContiguousSerial (expected found : Z)
                                     (* ValueError("序号不连续：应为 e 但找到 f") *)
| NoValidData                        (* ValueError("未找到有效数据") *)
| UnmatchedPurchases (lines : list pystr)
                                     (* ValueError(header + "\n".join(lines) ...) *)
| KeyError                           (* df[0] on a frame without columns *)
| IndexError                         (* df.iloc[r, c] out of bounds *)
| ConversionError                    (* int(x) or float(x) raised *)
| Wrapped (cause : exn).             (* except Exception as e: raise ValueError(prefix + str(e)) *)

Inductive result (A : Type) : Type :=
| Return (a : A)
| Raise (e : exn).
Arguments Return {A} a.
Arguments Raise {A} e.

(** [try: ... except Exception as e: raise ValueError(f"...: {str(e)}")]. *)
Definition rewrap {A : Type} (r : result A) : result A :=
  match r with
  | Return a => Return a
  | Raise e => Raise (Wrapped e)
  end.

(** Sequencing of statements that may raise. *)
#[global] Instance result_ret : MRet result := fun A a => Return a.
#[global] Instance result_bind : MBind result :=
  fun A B f r => match r with Return a => f a | Raise e => Raise e end.

(** An entry of [book_data] as [calculate_student_payments] reads it:
    [str(book['教材名称'])] and [book['折扣价']]. *)
Record book : Type := Book { book_title : pystr; book_price : float }.

(** An entry of [student_records]: [student['姓名']] and
    [str(student['教材名称'])]. *)
Record purchase : Type := Purchase { student_name : pystr; purchase_title : pystr }.

(** [price_maps]: the three dictionaries from a title to a price. *)
Record price_maps : Type := PriceMaps {
  raw_name : gmap pystr float;
  fmt1_name : gmap pystr float;
  fmt2_name : gmap pystr float
}.

Definition no_prices : price_maps :=
  {| raw_name := ∅; fmt1_name := ∅; fmt2_name := ∅ |}.

(** One row of the result: [{'姓名': name, '购书费用': fee}]. *)
Abbreviation payments := (list (pystr * float)).

(** The class [\w] of Python's [re] on a [str] pattern: a character
    [c] with [c.isalnum()], or the underscore. [isalnum] is a table of the
    Unicode database; it is a parameter of the development. *)
Definition is_word (isalnum : Z -> bool) (c : Z) : bool :=
  isalnum c || (c =? UNDERSCORE).

(** [re.sub(r'[^\w一-龥]', '', s)]. *)
Definition keep_word_or_cjk (isalnum : Z -> bool) (c : Z) : bool :=
  is_word isalnum c || ((19968 <=? c) && (c <=? 40869)).

Definition sub_non_word (isalnum : Z -> bool) (s : pystr) : pystr :=
  List.filter (keep_word_or_cjk isalnum) s.

(** ** The data frame read from a sheet *)

(** What the programs do with one cell of [pd.read_excel(.., header=None)].
    The conversions are those of Python and pandas on the cell's value; they
    are an interface of the development. *)
Class Cell (cell : Type) : Type := {
  isna : cell -> bool;               (* pd.isna(x); pd.notna(x) is its negation *)
  to_str : cell -> pystr;            (* str(x), as in astype(str) *)
  to_int : cell -> option Z;         (* int(x); None when int raises *)
  to_float : cell -> option float;   (* float(x); None when float raises *)
  eq_str : cell -> pystr -> bool     (* x == s, for a str s *)
}.

Module Pd.
Section Frame.
Context {cell : Type} `{Cell cell}.

(** [Series.str.contains(pat)] on one string; pandas reads [pat] as a
    regular expression. *)
Variable str_contains : pystr -> pystr -> bool.

(** A frame with the default integer labels: its rows, top to bottom. *)
Definition frame : Type := list (list cell).

Definition ncols (df : frame) : nat :=
  match df with
  | [] => 0%nat
  | row :: _ => length row
  end.

(** [df.iloc[r, c]]. *)
Definition iloc (df : frame) (r c : nat) : result cell :=
  match df !! r with
  | Some row =>
      match row !! c with
      | Some x => Return x
      | None => Raise IndexError
      end
  | None => Raise IndexError
  end.

(** [df[0].astype(str).str.contains(pat)]. *)
Definition column0_mask (df : frame) (pat : pystr) : result (list bool) :=
  if (ncols df =? 0)%nat then Raise KeyError
  else Return (map (fun row =>
                      match row !! 0%nat with
                      | Some x => str_contains pat (to_str x)
                      | None => false
                      end) df).

(** [df.iloc[r].astype(str).str.contains(pat)]. *)
Definition row_mask (row : list cell) (pat : pystr) : list bool :=
  map (fun x => str_contains pat (to_str x)) row.

(** [mask.any()]. *)
Definition any (mask : list bool) : bool := existsb id mask.

Fixpoint first_true (mask : list bool) : nat :=
  match mask with
  | [] => 0%nat
  | b :: rest => if b then 0%nat else S (first_true rest)
  end.

(** [mask.idxmax()]: the label of the first [True], and of the first
    entry when there is none. *)
Definition idxmax (mask : list bool) : nat :=
  if any mask then first_true mask else 0%nat.
End Frame.
End Pd.

Definition SERIAL : pystr := [24207; 21495].                 (* "序号" *)
Definition TITLE : pystr := [25945; 26448; 21517; 31216].    (* "教材名称" *)
Definition DISCOUNT_PRICE : pystr := [25240; 25187; 20215].  (* "折扣价" *)

(** An entry of the [book_data] that [process_book_excel] returns; ['教材名称']
    is the raw cell in one program and a string in the other. *)
Record book_info (T : Type) : Type := BookInfo {
  serial : Z;
  title : T;
  discount_price : float
}.
Arguments BookInfo {T} _ _ _.
Arguments serial {T} _.
Arguments title {T} _.
Arguments discount_price {T} _.

(** ** textbook_fee_reporter.py *)

Module Reporter.

(** [str_format_1]: spaces and the four bracket characters removed. *)
Definition str_format_1 (input_str : pystr) : pystr :=
  let no_space := remove_char IDEOGRAPHIC_SPACE (remove_char SPACE input_str) in
  remove_char FW_RPAREN (remove_char FW_LPAREN
    (remove_char RPAREN (remove_char LPAREN no_space))).

(** A value together with the equation that it is this value: the loop
    below needs the outcome of its tests to justify its recursive call. *)
Definition inspect {A : Type} (a : A) : {b : A | a = b} := exist _ a eq_refl.

(** The loop
    [while o in s and c in s:
         start = s.find(o); end = s.find(c)
         if start < end: s = s[:start] + s[end + 1:]
         else: break]
    of [str_format_2]; each round makes [s] shorter. *)
Equations? strip_spans (o c : Z) (s : pystr) : pystr by wf (length s) lt :=
  strip_spans o c s with inspect (contains o s && contains c s) => {
    | exist _ true Hin with inspect (find s o <? find s c) => {
        | exist _ true Hlt =>
            strip_spans o c (slice_to s (find s o) ++ slice_from s (find s c + 1));
        | exist _ false _ => s };
    | exist _ false _ => s }.
Proof. apply cut_span_shorter; assumption. Qed.

Section Normalizer.
Variable isalnum : Z -> bool.

Definition str_format_2 (input_str : pystr) : pystr :=
  let s1 := strip_spans FW_LPAREN FW_RPAREN input_str in
  let s2 := strip_spans LPAREN RPAREN s1 in
  let cleaned_str := sub_non_word isalnum s2 in
  remove_char IDEOGRAPHIC_SPACE (remove_char SPACE cleaned_str).
End Normalizer.

Section Calculation.
Variable isalnum : Z -> bool.

(** The body of [for book in book_data]. *)
Definition add_book (pm : price_maps) (b : book) : price_maps :=
  let raw := strip (book_title b) in
  let fmt1 := str_format_1 raw in
  let fmt2 := str_format_2 isalnum raw in
  {| raw_name := <[raw := book_price b]> (raw_name pm);
     fmt1_name := <[fmt1 := book_price b]> (fmt1_name pm);
     fmt2_name := <[fmt2 := book_price b]> (fmt2_name pm) |}.

Definition build_price_maps (book_data : list book) : price_maps :=
  fold_left add_book book_data no_prices.

(** [matched_price] after the [if / elif / elif] on key membership. *)
Definition matched_price (pm : price_maps) (book_name : pystr) : option float :=
  let fmt1 := str_format_1 book_name in
  let fmt2 := str_format_2 isalnum book_name in
  match raw_name pm !! book_name with
  | Some p => Some p
  | None =>
      match fmt1_name pm !! fmt1 with
      | Some p => Some p
      | None => fmt2_name pm !! fmt2
      end
  end.

(** [f"学生[{name}] 教材[{book_name}]"]. *)
Definition unmatched_line (name book_name : pystr) : pystr :=
  [23398; 29983; 91] ++ name ++ [93; 32; 25945; 26448; 91] ++ book_name ++ [93].

(** The body of [for student in student_records], on the pair
    [(student_totals, unmatched_records)]. *)
Definition scan (pm : price_maps) (st : odict * list pystr) (student : purchase)
  : odict * list pystr :=
  let book_name := strip (purchase_title student) in
  match matched_price pm book_name with
  | Some p => (iadd (fst st) (student_name student) p, snd st)
  | None => (fst st, snd st ++ [unmatched_line (student_name student) book_name])
  end.

Definition calculate_student_payments
    (book_data : list book) (student_records : list purchase) : result payments :=
  rewrap (
    let pm := build_price_maps book_data in
    let '(student_totals, unmatched_records) :=
      fold_left (scan pm) student_records ([], []) in
    match unmatched_records with
    | _ :: _ => Raise (UnmatchedPurchases unmatched_records)
    | [] => Return (map (fun '(name, total) => (name, round2 total)) student_totals)
    end).

(** [total_amount] of [generate_report]. *)
Definition total_amount (student_payments : payments) : float :=
  Py.sum (map snd student_payments).
End Calculation.

Section Extraction.
Context {cell : Type} `{Cell cell}.
Variable str_contains : pystr -> pystr -> bool.

(** The column of the header row whose text contains [token]; the
    program first checks the three masks with [any], in the order
    serial, title, price, and then takes their [idxmax]. *)
Definition require_column (header : list cell) (token : pystr) : result nat :=
  let mask := Pd.row_mask str_contains header token in
  if Pd.any mask then Return (Pd.idxmax mask) else Raise (MissingColumn token).

(** The statements up to [col_indices]: the header row and the columns
    of the serial number, of the title and of the price. *)
Definition locate_table (df : Pd.frame) (target_class : pystr)
  : result (nat * (nat * nat * nat)) :=
  class_mask ← Pd.column0_mask str_contains df target_class;
  if negb (Pd.any class_mask) then Raise ClassNotFound else
  let class_row := Pd.idxmax class_mask in
  x ← Pd.iloc df (class_row + 1) 0;
  if negb (eq_str x SERIAL) then Raise HeaderNotFound else
  let header_row := (class_row + 1)%nat in
  match df !! header_row with
  | None => Raise IndexError
  | Some header =>
      i_serial ← require_column header SERIAL;
      i_title ← require_column header TITLE;
      i_price ← require_column header DISCOUNT_PRICE;
      Return (header_row, (i_serial, i_title, i_price))
  end.

(** The cell [row[c]] of a row of the frame. *)
Definition at_column (row : list cell) (c : nat) : result cell :=
  match row !! c with
  | Some x => Return x
  | None => Raise IndexError
  end.

(** [float(x) if pd.notna(x) else 0.0]. *)
Definition price_of (x : cell) : result float :=
  if isna x then Return 0%float
  else match to_float x with
       | Some p => Return p
       | None => Raise ConversionError
       end.

(** The loop [while current_row < len(df)], on the rows from
    [current_row] on. *)
Fixpoint read_books (cols : nat * nat * nat) (rows : list (list cell))
    (expected_serial : Z) (book_data : list (book_info cell))
  : result (list (book_info cell)) :=
  match rows with
  | [] => Return book_data
  | row :: rest =>
      let '(i_serial, i_title, i_price) := cols in
      serial_value ← at_column row i_serial;
      if isna serial_value then Return book_data else
      match to_int serial_value with
      | None => Raise ConversionError
      | Some serial_number =>
          if negb (serial_number =? expected_serial)
          then Raise (NonContiguousSerial expected_serial serial_number)
          else
            t ← at_column row i_title;
            x ← at_column row i_price;
            p ← price_of x;
            read_books cols rest (expected_serial + 1)
              (book_data ++ [BookInfo serial_number t p])
      end
  end.

Definition process_book_excel (df : Pd.frame) (target_class : pystr)
  : result (list (book_info cell)) :=
  rewrap (
    '(header_row, cols) ← locate_table df target_class;
    book_data ← read_books cols (drop (S header_row) df) 1 [];
    match book_data with
    | [] => Raise NoValidData
    | _ :: _ => Return book_data
    end).
End Extraction.

End Reporter.

(** ** TextbookPurchaseFeeCalculator.py *)

Module Calculator.

Definition str_format_1 (s : pystr) : pystr :=
  remove_char FW_RPAREN (remove_char FW_LPAREN
    (remove_char RPAREN (remove_char LPAREN
      (remove_char IDEOGRAPHIC_SPACE (remove_char SPACE s))))).

(** The loop
    [while o in s and c in s: s = s[:s.find(o)] + s[s.find(c) + 1:]]
    of [str_format_2], run for at most [fuel] rounds. *)
Fixpoint strip_spans (fuel : nat) (o c : Z) (s : pystr) : option pystr :=
  match fuel with
  | O => None
  | S fuel' =>
      if contains o s && contains c s
      then strip_spans fuel' o c (slice_to s (find s o) ++ slice_from s (find s c + 1))
      else Some s
  end.

Section Calculation.
Variable isalnum : Z -> bool.

Definition str_format_2 (fuel : nat) (s : pystr) : option pystr :=
  s1 ← strip_spans fuel FW_LPAREN FW_RPAREN s;
  s2 ← strip_spans fuel LPAREN RPAREN s1;
  Some (remove_char IDEOGRAPHIC_SPACE (remove_char SPACE (sub_non_word isalnum s2))).

(** The body of [for book in book_data]. *)
Definition add_book (fuel : nat) (pm : price_maps) (b : book) : option price_maps :=
  let raw := strip (book_title b) in
  let fmt1 := str_format_1 raw in
  fmt2 ← str_format_2 fuel raw;
  Some {| raw_name := <[raw := book_price b]> (raw_name pm);
          fmt1_name := <[fmt1 := book_price b]> (fmt1_name pm);
          fmt2_name := <[fmt2 := book_price b]> (fmt2_name pm) |}.

Fixpoint build_price_maps (fuel : nat) (book_data : list book) (pm : price_maps)
  : option price_maps :=
  match book_data with
  | [] => Some pm
  | b :: rest => pm' ← add_book fuel pm b; build_price_maps fuel rest pm'
  end.

(** The loop state: [totals], [unmatched] and [flag_greedy]. *)
Record scan_state : Type := ScanState {
  totals : odict;
  unmatched : list pystr;
  flag_greedy : bool
}.

(** [f"{name} - {bname}"]. *)
Definition unmatched_line (name bname : pystr) : pystr :=
  name ++ [32; 45; 32] ++ bname.

(** [price]: the chain of [.get] joined by [or]. *)
Definition price (pm : price_maps) (bname fmt1 fmt2 : pystr) : option float :=
  or_ (or_ (raw_name pm !! bname) (fmt1_name pm !! fmt1)) (fmt2_name pm !! fmt2).

(** The test that sets [flag_greedy]. *)
Definition greedy (pm : price_maps) (bname fmt1 fmt2 : pystr) : bool :=
  truthy_opt (fmt2_name pm !! fmt2)
  && negb (truthy_opt (raw_name pm !! bname))
  && negb (truthy_opt (fmt1_name pm !! fmt1)).

(** The body of [for stu in student_records]. *)
Definition scan (fuel : nat) (pm : price_maps) (st : scan_state) (stu : purchase)
  : option scan_state :=
  let name := student_name stu in
  let bname := strip (purchase_title stu) in
  let fmt1 := str_format_1 bname in
  fmt2 ← str_format_2 fuel bname;
  match price pm bname fmt1 fmt2 with
  | Some p =>
      Some {| totals := iadd (totals st) name p;
              unmatched := unmatched st;
              flag_greedy :=
                if greedy pm bname fmt1 fmt2 then true else flag_greedy st |}
  | None =>
      Some {| totals := totals st;
              unmatched := unmatched st ++ [unmatched_line name bname];
              flag_greedy := flag_greedy st |}
  end.

Fixpoint scan_all (fuel : nat) (pm : price_maps) (st : scan_state)
    (student_records : list purchase) : option scan_state :=
  match student_records with
  | [] => Some st
  | stu :: rest => st' ← scan fuel pm st stu; scan_all fuel pm st' rest
  end.

(** [calculate_student_payments]; [None] when [fuel] rounds do not
    suffice for one of the calls of [str_format_2]. *)
Definition calculate_student_payments (fuel : nat)
    (book_data : list book) (student_records : list purchase)
  : option (result (payments * bool)) :=
  pm ← build_price_maps fuel book_data no_prices;
  st ← scan_all fuel pm
         {| totals := []; unmatched := []; flag_greedy := false |} student_records;
  match unmatched st with
  | _ :: _ => Some (Raise (UnmatchedPurchases (unmatched st)))
  | [] => Some (Return (map (fun '(k, v) => (k, round2 v)) (totals st),
                        flag_greedy st))
  end.

(** [total] of [MainWindow.run_calculation]. *)
Definition total (payments_ : payments) : float :=
  Py.sum (map snd payments_).
End Calculation.

Section Extraction.
Context {cell : Type} `{Cell cell}.
Variable str_contains : pystr -> pystr -> bool.

(** The column of the header row whose text contains [token]; the
    program first checks the three masks with [any], in the order
    serial, title, price, and then takes their [idxmax]. *)
Definition require_column (header : list cell) (token : pystr) : result nat :=
  let mask := Pd.row_mask str_contains header token in
  if Pd.any mask then Return (Pd.idxmax mask) else Raise (MissingColumn token).

(** The statements up to [col_indices]: the header row and the columns
    of the serial number, of the title and of the price. *)
Definition locate_table (df : Pd.frame) (target_class : pystr)
  : result (nat * (nat * nat * nat)) :=
  class_mask ← Pd.column0_mask str_contains df target_class;
  if negb (Pd.any class_mask) then Raise ClassNotFound else
  let class_row := Pd.idxmax class_mask in
  x ← Pd.iloc df (class_row + 1) 0;
  if negb (eq_str x SERIAL) then Raise HeaderNotFound else
  let header_row := (class_row + 1)%nat in
  match df !! header_row with
  | None => Raise IndexError
  | Some header =>
      i_serial ← require_column header SERIAL;
      i_title ← require_column header TITLE;
      i_price ← require_column header DISCOUNT_PRICE;
      Return (header_row, (i_serial, i_title, i_price))
  end.

(** The cell [row[c]] of a row of the frame. *)
Definition at_column (row : list cell) (c : nat) : result cell :=
  match row !! c with
  | Some x => Return x
  | None => Raise IndexError
  end.

(** [float(x) if pd.notna(x) else 0.0]. *)
Definition price_of (x : cell) : result float :=
  if isna x then Return 0%float
  else match to_float x with
       | Some p => Return p
       | None => Raise ConversionError
       end.

(** The loop [while current_row < len(df)], on the rows from
    [current_row] on. *)
Fixpoint read_books (cols : nat * nat * nat) (rows : list (list cell))
    (expected_serial : Z) (book_data : list (book_info pystr))
  : result (list (book_info pystr)) :=
  match rows with
  | [] => Return book_data
  | row :: rest =>
      let '(i_serial, i_title, i_price) := cols in
      serial_value ← at_column row i_serial;
      if isna serial_value then Return book_data else
      match to_int serial_value with
      | None => Raise ConversionError
      | Some serial_number =>
          if negb (serial_number =? expected_serial)
          then Raise (NonContiguousSerial expected_serial serial_number)
          else
            t ← at_column row i_title;
            x ← at_column row i_price;
            p ← price_of x;
            read_books cols rest (expected_serial + 1)
              (book_data ++ [BookInfo serial_number (strip (to_str t)) p])
      end
  end.

Definition process_book_excel (df : Pd.frame) (target_class : pystr)
  : result (list (book_info pystr)) :=
  (
    '(header_row, cols) ← locate_table df target_class;
    book_data ← read_books cols (drop (S header_row) df) 1 [];
    match book_data with
    | [] => Raise NoValidData
    | _ :: _ => Return book_data
    end).
End Extraction.

End Calculator.

(** ** A sheet of blanks, whole numbers and labels

    A small instance of the cell interface and of the two tables, for the
    examples: a cell is blank, holds a whole number, or holds a label, a
    text that is not a numeral. *)

Module Sample.

Inductive value : Type :=
| Blank
| Whole (n : Z)
| Label (s : pystr).

(** The decimal digits of a natural number, most significant first. *)
Fixpoint digits (fuel : nat) (n : Z) (acc : pystr) : pystr :=
  match fuel with
  | O => acc
  | S fuel' =>
      let acc' := (48 + n mod 10) :: acc in
      if n <? 10 then acc' else digits fuel' (n / 10) acc'
  end.

Definition str_of_int (n : Z) : pystr :=
  if n <? 0 then 45 :: digits (S (Z.to_nat (Z.log2 (- n)))) (- n) []
  else digits (S (Z.to_nat (Z.log2 n))) n [].

Definition float_of_int (n : Z) : float :=
  if n <? 0 then PrimFloat.opp (PrimFloat.of_uint63 (Uint63.of_Z (- n)))
  else PrimFloat.of_uint63 (Uint63.of_Z n).

#[global] Instance value_cell : Cell value := {|
  isna x := match x with Blank => true | _ => false end;
  to_str x :=
    match x with
    | Blank => [110; 97; 110]
    | Whole n => str_of_int n
    | Label s => s
    end;
  to_int x := match x with Whole n => Some n | _ => None end;
  to_float x := match x with Whole n => Some (float_of_int n) | _ => None end;
  eq_str x s := match x with Label t => bool_decide (t = s) | _ => false end
|}.

Fixpoint starts_with (pat s : pystr) : bool :=
  match pat, s with
  | [], _ => true
  | _ :: _, [] => false
  | a :: pat', b :: s' => (a =? b) && starts_with pat' s'
  end.

(** [str.contains] for a pattern without special characters: [pat] occurs
    in [s]. *)
Fixpoint occurs_in (pat s : pystr) : bool :=
  starts_with pat s
  || match s with
     | [] => false
     | _ :: s' => occurs_in pat s'
     end.

(** [isalnum] on the ASCII letters and digits and on the CJK unified
    ideographs; false elsewhere. *)
Definition isalnum (c : Z) : bool :=
  ((48 <=? c) && (c <=? 57)) || ((65 <=? c) && (c <=? 90))
  || ((97 <=? c) && (c <=? 122)) || ((19968 <=? c) && (c <=? 40959)).

End Sample.

(** * Properties *)

(** ** Characters removed from a string *)

Lemma filter_twice {A : Type} (f g : A -> bool) (l : list A) :
  List.filter f (List.filter g l) = List.filter (fun x => g x && f x) l.
Proof.
  induction l as [|x l IH]; [reflexivity|].
  cbn. destruct (g x); cbn; [destruct (f x)|]; now rewrite IH.
Qed.

Lemma filter_all {A : Type} (f : A -> bool) (l : list A) :
  List.Forall (fun x => f x = true) l -> List.filter f l = l.
Proof.
  induction 1 as [|x l Hx _ IH]; [reflexivity|].
  cbn. now rewrite Hx, IH.
Qed.

Lemma filter_kept {A : Type} (f : A -> bool) (l : list A) :
  List.Forall (fun x => f x = true) (List.filter f l).
Proof.
  induction l as [|x l IH]; cbn; [constructor|].
  destruct (f x) eqn:E; [constructor|]; assumption.
Qed.

Lemma filter_idem {A : Type} (f : A -> bool) (l : list A) :
  List.filter f (List.filter f l) = List.filter f l.
Proof. apply filter_all, filter_kept. Qed.

Lemma contains_false_iff (c : Z) (s : pystr) :
  contains c s = false <-> List.Forall (fun x => x <> c) s.
Proof.
  induction s as [|x s IH]; cbn.
  - split; [constructor|reflexivity].
  - rewrite orb_false_iff, IH. split.
    + intros [Hx Hs]. constructor; [|exact Hs].
      apply Z.eqb_neq in Hx. congruence.
    + intros H. inversion H; subst. split; [|assumption].
      apply Z.eqb_neq. congruence.
Qed.

(** ** Tier 1 *)

(** The two programs have the same [str_format_1]. *)
Lemma str_format_1_same (s : pystr) :
  Calculator.str_format_1 s = Reporter.str_format_1 s.
Proof. reflexivity. Qed.

(** [str_format_1] keeps the characters that are none of the six it
    removes. *)
Definition tier1_keeps (x : Z) : bool :=
  negb (x =? SPACE) && negb (x =? IDEOGRAPHIC_SPACE)
  && negb (x =? LPAREN) && negb (x =? RPAREN)
  && negb (x =? FW_LPAREN) && negb (x =? FW_RPAREN).

Lemma str_format_1_filter (s : pystr) :
  Reporter.str_format_1 s = List.filter tier1_keeps s.
Proof.
  unfold Reporter.str_format_1, remove_char.
  rewrite !filter_twice. apply List.filter_ext. intros x.
  unfold tier1_keeps. now rewrite !andb_assoc.
Qed.

(** X1. Tier 1 is idempotent, in both programs. *)
Lemma str_format_1_idempotent (s : pystr) :
  Reporter.str_format_1 (Reporter.str_format_1 s) = Reporter.str_format_1 s
  /\ Calculator.str_format_1 (Calculator.str_format_1 s) = Calculator.str_format_1 s.
Proof.
  assert (H : Reporter.str_format_1 (Reporter.str_format_1 s)
              = Reporter.str_format_1 s)
    by (rewrite !str_format_1_filter; apply filter_idem).
  split; exact H.
Qed.

(** ** Tier 2: the bracket loops *)

(** One round of the loop of [Reporter.str_format_2]. *)
Lemma reporter_strip_spans_unfold (o c : Z) (s : pystr) :
  Reporter.strip_spans o c s =
  if contains o s && contains c s then
    if find s o <? find s c
    then Reporter.strip_spans o c (slice_to s (find s o) ++ slice_from s (find s c + 1))
    else s
  else s.
Proof.
  funelim (Reporter.strip_spans o c s);
    try match goal with
        | E : (contains _ _ && contains _ _) = _ |- _ => rewrite E
        end;
    try match goal with
        | E : (_ <? _) = _ |- _ => rewrite E
        end;
    reflexivity.
Qed.

Lemma reporter_strip_spans_absent (o c : Z) (s : pystr) :
  contains o s && contains c s = false -> Reporter.strip_spans o c s = s.
Proof. intros H. now rewrite reporter_strip_spans_unfold, H. Qed.

(** A closing bracket before the first opening one stops the loop: the
    string is left as it is. *)
Lemma reporter_strip_spans_unbalanced (o c : Z) (s : pystr) :
  find s c <= find s o -> Reporter.strip_spans o c s = s.
Proof.
  intros H. rewrite reporter_strip_spans_unfold.
  destruct (contains o s && contains c s); [|reflexivity].
  destruct (Z.ltb_spec (find s o) (find s c)); [lia|reflexivity].
Qed.

(** The first occurrence of a character splits the string. *)
Lemma contains_split (c : Z) (s : pystr) :
  contains c s = true ->
  exists p q, s = p ++ c :: q /\ contains c p = false.
Proof.
  induction s as [|x s IH]; [discriminate|].
  cbn. destruct (Z.eqb_spec c x) as [->|Hne]; cbn.
  - intros _. exists [], s. split; reflexivity.
  - intros H. destruct (IH H) as (p & q & -> & Hp).
    exists (x :: p), q. split; [reflexivity|].
    cbn. destruct (Z.eqb_spec c x); [contradiction|exact Hp].
Qed.

Lemma find_from_split (c : Z) (p q : pystr) (i : Z) :
  contains c p = false ->
  find_from c (p ++ c :: q) i = i + Z.of_nat (length p).
Proof.
  revert i. induction p as [|x p IH]; intros i Hp; cbn.
  - rewrite Z.eqb_refl. lia.
  - cbn in Hp. apply orb_false_iff in Hp as [Hx Hp].
    rewrite Z.eqb_sym, Hx, (IH _ Hp). lia.
Qed.

Lemma find_split (c : Z) (p q : pystr) :
  contains c p = false -> find (p ++ c :: q) c = Z.of_nat (length p).
Proof. intros Hp. unfold find. now rewrite find_from_split. Qed.

Lemma contains_app (c : Z) (s t : pystr) :
  contains c (s ++ t) = contains c s || contains c t.
Proof. apply existsb_app. Qed.

Lemma contains_here (c : Z) (p q : pystr) : contains c (p ++ c :: q) = true.
Proof. rewrite contains_app. cbn. rewrite Z.eqb_refl. apply orb_true_r. Qed.

(** The strings on which the test [start < end] of the reporter would
    fail: the first closing bracket comes before the first opening one. *)
Definition crossed (o c : Z) (s : pystr) : Prop :=
  exists p m t,
    s = p ++ c :: m ++ o :: t
    /\ contains c p = false /\ contains o p = false /\ contains o m = false.

Lemma crossed_find (o c : Z) (p m t : pystr) :
  o <> c ->
  contains c p = false -> contains o p = false -> contains o m = false ->
  let s := p ++ c :: m ++ o :: t in
  find s c = Z.of_nat (length p)
  /\ find s o = Z.of_nat (length p + 1 + length m).
Proof.
  intros Hoc Hcp Hop Hom s. split.
  - now apply find_split.
  - subst s.
    replace (p ++ c :: m ++ o :: t) with ((p ++ c :: m) ++ o :: t)
      by now rewrite <- app_assoc.
    rewrite find_split.
    + rewrite length_app. cbn [length]. f_equal. lia.
    + rewrite contains_app, Hop. cbn.
      destruct (Z.eqb_spec o c); [contradiction|exact Hom].
Qed.

Lemma crossed_present (o c : Z) (s : pystr) :
  crossed o c s -> contains o s && contains c s = true.
Proof.
  intros (p & m & t & -> & _). apply andb_true_iff. split.
  - replace (p ++ c :: m ++ o :: t) with ((p ++ c :: m) ++ o :: t)
      by now rewrite <- app_assoc.
    apply contains_here.
  - apply contains_here.
Qed.

(** A round of the loop of [Calculator.str_format_2] on a crossed string
    gives a crossed string again: the text between the two brackets is
    doubled, and both brackets stay. *)
Lemma crossed_round (o c : Z) (s : pystr) :
  o <> c ->
  crossed o c s ->
  crossed o c (slice_to s (find s o) ++ slice_from s (find s c + 1)).
Proof.
  intros Hoc (p & m & t & -> & Hcp & Hop & Hom).
  destruct (crossed_find o c p m t Hoc Hcp Hop Hom) as [Hc Ho].
  cbv zeta in Hc, Ho. rewrite Hc, Ho.
  unfold slice_to, slice_from, index_of_slice.
  destruct (Z.ltb_spec (Z.of_nat (length p + 1 + length m)) 0); [lia|].
  destruct (Z.ltb_spec (Z.of_nat (length p) + 1) 0); [lia|].
  exists p, (m ++ m), t. repeat split; try assumption.
  - replace (Z.to_nat (Z.of_nat (length p + 1 + length m)))
      with (length (p ++ c :: m)) by (rewrite length_app; cbn [length]; lia).
    replace (Z.to_nat (Z.of_nat (length p) + 1))
      with (length (p ++ [c])) by (rewrite length_app; cbn [length]; lia).
    replace (p ++ c :: m ++ o :: t) with ((p ++ c :: m) ++ o :: t) at 1
      by now rewrite <- app_assoc.
    rewrite take_app_length.
    replace (p ++ c :: m ++ o :: t) with ((p ++ [c]) ++ m ++ o :: t)
      by now rewrite <- app_assoc.
    rewrite drop_app_length.
    now rewrite <- !app_assoc.
  - now rewrite contains_app, Hom.
Qed.

(** On a crossed string the loop of the calculator never ends. *)
Lemma calculator_strip_spans_crossed (o c : Z) (s : pystr) (fuel : nat) :
  o <> c -> crossed o c s -> Calculator.strip_spans fuel o c s = None.
Proof.
  intros Hoc. revert s. induction fuel as [|fuel IH]; intros s Hs; [reflexivity|].
  cbn. rewrite (crossed_present o c s Hs).
  apply IH. now apply crossed_round.
Qed.

(** Two characters that both occur, the second first: a crossed string. *)
Lemma crossed_intro (o c : Z) (s : pystr) :
  contains o s && contains c s = true ->
  find s c < find s o ->
  crossed o c s.
Proof.
  intros Hin Hlt. apply andb_true_iff in Hin as [Ho Hc].
  destruct (contains_split c s Hc) as (p & q & -> & Hcp).
  rewrite (find_split c p q Hcp) in Hlt.
  assert (Hop : contains o p = false).
  { destruct (contains o p) eqn:E; [|reflexivity].
    destruct (contains_split o p E) as (p1 & p2 & -> & Hp1).
    rewrite <- app_assoc in Hlt. cbn in Hlt.
    rewrite (find_split o p1 _ Hp1), length_app in Hlt. cbn in Hlt. lia. }
  assert (Hoc : o <> c).
  { intros ->. rewrite (find_split c p q Hcp) in Hlt. lia. }
  rewrite contains_app, Hop in Ho. cbn in Ho.
  destruct (Z.eqb_spec o c); [contradiction|].
  destruct (contains_split o q Ho) as (m & t & -> & Hom).
  exists p, m, t. repeat split; assumption.
Qed.

Lemma find_is_there (c : Z) (s : pystr) :
  contains c s = true -> s !! Z.to_nat (find s c) = Some c.
Proof.
  intros H. destruct (contains_split c s H) as (p & q & -> & Hp).
  rewrite (find_split c p q Hp), Nat2Z.id. apply list_lookup_middle. reflexivity.
Qed.

Lemma find_distinct (o c : Z) (s : pystr) :
  o <> c -> contains o s && contains c s = true -> find s o <> find s c.
Proof.
  intros Hoc Hin E. apply andb_true_iff in Hin as [Ho Hc].
  pose proof (find_is_there o s Ho) as H1.
  pose proof (find_is_there c s Hc) as H2.
  rewrite E in H1. congruence.
Qed.

(** When the loop of the calculator ends, it ends on the string the loop
    of the reporter computes. *)
Lemma calculator_strip_spans_sound (o c : Z) (fuel : nat) (s r : pystr) :
  o <> c ->
  Calculator.strip_spans fuel o c s = Some r -> r = Reporter.strip_spans o c s.
Proof.
  intros Hoc. revert s. induction fuel as [|fuel IH]; intros s H; [discriminate|].
  cbn in H. rewrite reporter_strip_spans_unfold.
  destruct (contains o s && contains c s) eqn:Hin; [|congruence].
  destruct (Z.ltb_spec (find s o) (find s c)) as [Hlt|Hge]; [now apply IH|].
  pose proof (find_distinct o c s Hoc Hin).
  rewrite calculator_strip_spans_crossed in H; [discriminate|assumption|].
  apply crossed_round; [assumption|]. apply crossed_intro; [assumption|lia].
Qed.

(** The loop of the calculator either ends within [length s + 1] rounds, on
    the string of the reporter, or never ends. *)
Lemma calculator_strip_spans_ends_or_not (o c : Z) (s : pystr) :
  o <> c ->
  (forall fuel, (length s < fuel)%nat ->
     Calculator.strip_spans fuel o c s = Some (Reporter.strip_spans o c s))
  \/ (forall fuel, Calculator.strip_spans fuel o c s = None).
Proof.
  intros Hoc. remember (length s) as n eqn:Hn. revert s Hn.
  induction n as [n IH] using lt_wf_ind. intros s Hn.
  destruct (contains o s && contains c s) eqn:Hin.
  - destruct (Z.ltb_spec (find s o) (find s c)) as [Hlt|Hge].
    + pose proof (cut_span_shorter o c s Hin (proj2 (Z.ltb_lt _ _) Hlt)) as Hshort.
      set (s' := slice_to s (find s o) ++ slice_from s (find s c + 1)) in *.
      destruct (IH (length s') ltac:(lia) s' eq_refl) as [Hends|Hnever].
      * left. intros [|fuel] Hfuel; [lia|].
        cbn. rewrite Hin. fold s'. rewrite Hends by lia.
        rewrite (reporter_strip_spans_unfold o c s), Hin.
        apply Z.ltb_lt in Hlt. now rewrite Hlt.
      * right. intros [|fuel]; [reflexivity|].
        cbn. rewrite Hin. apply Hnever.
    + right. intros fuel. apply calculator_strip_spans_crossed; [assumption|].
      pose proof (find_distinct o c s Hoc Hin).
      apply crossed_intro; [assumption|lia].
  - left. intros [|fuel] Hfuel; [lia|].
    cbn. rewrite Hin. now rewrite reporter_strip_spans_absent.
Qed.

(** ** Tier 2 *)

Section Tier2.
Variable isalnum : Z -> bool.

(** In the Unicode database no bracket is alphanumeric. *)
Definition brackets_not_alnum : Prop :=
  isalnum LPAREN = false /\ isalnum RPAREN = false
  /\ isalnum FW_LPAREN = false /\ isalnum FW_RPAREN = false.

(** Nor is a white space character. *)
Definition spaces_not_alnum : Prop :=
  forall c, isspace c = true -> isalnum c = false.

(** What [Reporter.str_format_2] leaves in a string. *)
Definition tier2_keeps (x : Z) : bool :=
  keep_word_or_cjk isalnum x && negb (x =? SPACE) && negb (x =? IDEOGRAPHIC_SPACE).

Lemma tier2_tail_filter (s : pystr) :
  remove_char IDEOGRAPHIC_SPACE (remove_char SPACE (sub_non_word isalnum s))
  = List.filter tier2_keeps s.
Proof.
  unfold remove_char, sub_non_word. rewrite !filter_twice.
  apply List.filter_ext. intros x. unfold tier2_keeps. now rewrite andb_assoc.
Qed.

Lemma tier2_keeps_no_bracket (x b : Z) :
  isalnum b = false ->
  b = LPAREN \/ b = RPAREN \/ b = FW_LPAREN \/ b = FW_RPAREN ->
  tier2_keeps x = true -> x <> b.
Proof.
  intros Hb Hcase Hx ->.
  unfold tier2_keeps, keep_word_or_cjk, is_word in Hx. rewrite Hb in Hx.
  destruct Hcase as [-> | [-> | [-> | ->]]]; discriminate Hx.
Qed.

Lemma tier2_output_no_bracket (s : pystr) (b : Z) :
  isalnum b = false ->
  b = LPAREN \/ b = RPAREN \/ b = FW_LPAREN \/ b = FW_RPAREN ->
  contains b (List.filter tier2_keeps s) = false.
Proof.
  intros Hb Hcase. apply contains_false_iff.
  eapply List.Forall_impl; [|apply filter_kept].
  intros x Hx. now apply (tier2_keeps_no_bracket x b).
Qed.

(** X2. Tier 2 of the reporter is idempotent. *)
Lemma reporter_str_format_2_idempotent (s : pystr) :
  brackets_not_alnum ->
  Reporter.str_format_2 isalnum (Reporter.str_format_2 isalnum s)
  = Reporter.str_format_2 isalnum s.
Proof.
  intros (Hl & Hr & Hfl & Hfr).
  unfold Reporter.str_format_2 at 2. cbv zeta. rewrite tier2_tail_filter.
  set (out := List.filter tier2_keeps _).
  unfold Reporter.str_format_2. cbv zeta.
  rewrite (reporter_strip_spans_absent FW_LPAREN FW_RPAREN out).
  2:{ unfold out. rewrite tier2_output_no_bracket; auto. }
  rewrite (reporter_strip_spans_absent LPAREN RPAREN out).
  2:{ unfold out. rewrite tier2_output_no_bracket; auto. }
  rewrite !tier2_tail_filter. unfold out. apply filter_idem.
Qed.

(** X3. The reporter's Tier 2 maps a string of white space, and the empty
    string, to the empty string. *)
Lemma reporter_str_format_2_blank (s : pystr) :
  spaces_not_alnum ->
  List.Forall (fun c => isspace c = true) s ->
  Reporter.str_format_2 isalnum s = [].
Proof.
  intros Hsp Hs. unfold Reporter.str_format_2. cbv zeta.
  assert (Hno : forall b, isspace b = false -> contains b s = false).
  { intros b Hb. apply contains_false_iff.
    eapply List.Forall_impl; [|exact Hs]. cbn. intros x Hx ->. congruence. }
  rewrite (reporter_strip_spans_absent FW_LPAREN FW_RPAREN s)
    by (rewrite (Hno FW_LPAREN); reflexivity).
  rewrite (reporter_strip_spans_absent LPAREN RPAREN s)
    by (rewrite (Hno LPAREN); reflexivity).
  rewrite tier2_tail_filter. clear Hno.
  induction Hs as [|x s Hx _ IH]; [reflexivity|].
  cbn. replace (tier2_keeps x) with false; [exact IH|].
  symmetry. unfold tier2_keeps, keep_word_or_cjk, is_word.
  rewrite (Hsp x Hx). unfold isspace in Hx.
  unfold UNDERSCORE, SPACE, IDEOGRAPHIC_SPACE. cbn [orb].
  destruct (Z.eqb_spec x 95); [subst; discriminate Hx|].
  destruct (Z.leb_spec 19968 x); [|reflexivity].
  destruct (Z.leb_spec x 40869); [|reflexivity].
  exfalso. revert Hx.
  repeat match goal with
         | |- context [?a <=? ?b] => destruct (Z.leb_spec a b); try lia
         | |- context [?a =? ?b] => destruct (Z.eqb_spec a b); try lia
         end; cbn; discriminate.
Qed.

(** Where the calculator's Tier 2 returns, it returns what the reporter's
    does. *)
Lemma calculator_str_format_2_sound (fuel : nat) (s r : pystr) :
  Calculator.str_format_2 isalnum fuel s = Some r ->
  r = Reporter.str_format_2 isalnum s.
Proof.
  unfold Calculator.str_format_2, Reporter.str_format_2. cbv zeta.
  destruct (Calculator.strip_spans fuel FW_LPAREN FW_RPAREN s) as [s1|] eqn:E1;
    [|discriminate].
  cbn. destruct (Calculator.strip_spans fuel LPAREN RPAREN s1) as [s2|] eqn:E2;
    [|discriminate].
  cbn. intros [= <-].
  apply calculator_strip_spans_sound in E1; [|discriminate].
  apply calculator_strip_spans_sound in E2; [|discriminate].
  now subst.
Qed.

(** Hence the calculator's Tier 2 is idempotent where it returns. *)
Lemma calculator_str_format_2_idempotent_where_defined (fuel : nat) (s r : pystr) :
  brackets_not_alnum ->
  Calculator.str_format_2 isalnum fuel s = Some r ->
  Calculator.str_format_2 isalnum (S fuel) r = Some r.
Proof.
  intros (Hl & Hr & Hfl & Hfr) H.
  apply calculator_str_format_2_sound in H. subst r.
  unfold Reporter.str_format_2. cbv zeta. rewrite tier2_tail_filter.
  set (out := List.filter tier2_keeps _).
  unfold Calculator.str_format_2. cbn [Calculator.strip_spans].
  replace (contains FW_LPAREN out) with false
    by (unfold out; rewrite tier2_output_no_bracket; auto).
  cbn. replace (contains LPAREN out) with false
    by (unfold out; rewrite tier2_output_no_bracket; auto).
  cbn. rewrite tier2_tail_filter. unfold out. now rewrite filter_idem.
Qed.

End Tier2.

(** The examples of the specification: "高等数学 (上册)" loses its space
    and its brackets at Tier 1, "高等数学（第6版）" its bracketed part at
    Tier 2. *)
Example tier1_keeps_bracket_content :
  Reporter.str_format_1
    [39640; 31561; 25968; 23398; 32; 40; 19978; 20876; 41]
  = [39640; 31561; 25968; 23398; 19978; 20876].
Proof. reflexivity. Qed.

Example tier2_drops_bracket_content :
  Reporter.str_format_2 Sample.isalnum
    [39640; 31561; 25968; 23398; 65288; 31532; 54; 29256; 65289]
  = [39640; 31561; 25968; 23398]
  /\ Calculator.str_format_2 Sample.isalnum 2
       [39640; 31561; 25968; 23398; 65288; 31532; 54; 29256; 65289]
     = Some [39640; 31561; 25968; 23398].
Proof. split; vm_compute; reflexivity. Qed.

Lemma crossed_adjacent (o c : Z) : crossed o c [c; o].
Proof. exists [], [], []. repeat split; reflexivity. Qed.

(** C5 (code side). Tier 2 of the calculator does not terminate on every
    input: on the two-character string ")(" its loop for the ASCII
    brackets rewrites the string to itself for ever, so no number of rounds
    gives a result. The reporter's loop has the test [start < end] and
    stops there ([reporter_strip_spans_unbalanced]). *)
Theorem calculator_str_format_2_hangs (isalnum : Z -> bool) (fuel : nat) :
  Calculator.str_format_2 isalnum fuel [RPAREN; LPAREN] = None.
Proof.
  unfold Calculator.str_format_2. destruct fuel as [|fuel]; [reflexivity|].
  cbn [Calculator.strip_spans]. cbn [contains existsb]. cbn.
  rewrite calculator_strip_spans_crossed; [reflexivity|discriminate|].
  apply crossed_adjacent.
Qed.

(** C6 (code side). For the calculator the two sides of
    [str_format_2(str_format_2(s)) = str_format_2(s)] have no value at the
    string of a full-width closing bracket followed by a full-width opening
    one: neither computation returns, whatever the number of rounds. *)
Theorem calculator_str_format_2_no_fixpoint (isalnum : Z -> bool) (fuel : nat) :
  let s := [FW_RPAREN; FW_LPAREN] in
  Calculator.str_format_2 isalnum fuel s = None
  /\ (Calculator.str_format_2 isalnum fuel s
        ≫= Calculator.str_format_2 isalnum fuel) = None.
Proof.
  cbv zeta.
  assert (H : Calculator.str_format_2 isalnum fuel [FW_RPAREN; FW_LPAREN] = None).
  { unfold Calculator.str_format_2.
    rewrite calculator_strip_spans_crossed; [reflexivity|discriminate|].
    apply crossed_adjacent. }
  split; [exact H|]. now rewrite H.
Qed.

(** ** Totals per student *)

(** The purchases that got a price, in the order of the records: the name
    of the student and the price. *)
Abbreviation bought := (list (pystr * float)).

(** The dictionary after [d[name] += price] for each of them. *)
Definition tally (d : odict) (b : bought) : odict :=
  fold_left (fun d np => iadd d (fst np) (snd np)) b d.

(** The names in the order in which they first appear. *)
Definition first_seen (names : list pystr) : list pystr :=
  fold_left (fun acc n => if bool_decide (n ∈ acc) then acc else acc ++ [n]) names [].

(** The prices of one student, added from 0.0 in the order of the
    records. *)
Definition spent (name : pystr) (b : bought) : float :=
  fold_left PrimFloat.add
    (map snd (List.filter (fun np => bool_decide (fst np = name)) b)) 0%float.

Lemma first_seen_snoc (names : list pystr) (n : pystr) :
  first_seen (names ++ [n]) =
  if bool_decide (n ∈ first_seen names) then first_seen names
  else first_seen names ++ [n].
Proof. unfold first_seen. now rewrite fold_left_app. Qed.

Lemma first_seen_elem (names : list pystr) (n : pystr) :
  n ∈ first_seen names <-> n ∈ names.
Proof.
  induction names as [|m names IH] using rev_ind.
  - reflexivity.
  - rewrite first_seen_snoc. case_bool_decide as Hm.
    + rewrite IH, elem_of_app, list_elem_of_singleton.
      split; [tauto|]. intros [H| ->]; [exact H|]. now apply IH.
    + rewrite !elem_of_app, IH. reflexivity.
Qed.

Lemma first_seen_NoDup (names : list pystr) : NoDup (first_seen names).
Proof.
  induction names as [|m names IH] using rev_ind.
  - constructor.
  - rewrite first_seen_snoc. case_bool_decide as Hm; [exact IH|].
    apply (proj2 (list.NoDup_app _ _)). split; [exact IH|]. split.
    + intros x Hx Hx'. apply list_elem_of_singleton in Hx'. now subst.
    + apply list.NoDup_singleton.
Qed.

Lemma spent_snoc (m n : pystr) (p : float) (b : bought) :
  spent m (b ++ [(n, p)]) =
  if bool_decide (n = m) then PrimFloat.add (spent m b) p else spent m b.
Proof.
  unfold spent. rewrite List.filter_app, map_app, fold_left_app. cbn.
  case_bool_decide; reflexivity.
Qed.

Lemma spent_nothing (n : pystr) (b : bought) :
  n ∉ map fst b -> spent n b = 0%float.
Proof.
  intros Hn. unfold spent.
  replace (List.filter _ b) with (@nil (pystr * float)); [reflexivity|].
  symmetry. induction b as [|[m p] b IH]; [reflexivity|].
  cbn in *. case_bool_decide as Hm.
  - subst. exfalso. apply Hn. left.
  - apply IH. intros H. apply Hn. now right.
Qed.

Lemma iadd_known (f : pystr -> float) (ns : list pystr) (n : pystr) (p : float) :
  NoDup ns -> n ∈ ns ->
  iadd (map (fun m => (m, f m)) ns) n p =
  map (fun m => (m, if bool_decide (n = m) then PrimFloat.add (f m) p else f m)) ns.
Proof.
  induction 1 as [|a ns Ha Hns IH]; intros Hn; [now apply elem_of_nil in Hn|].
  cbn. destruct (decide (a = n)) as [->|Hne].
  - rewrite !bool_decide_eq_true_2 by reflexivity. f_equal.
    apply map_ext_in. intros m Hm. apply list_elem_of_In in Hm.
    rewrite bool_decide_eq_false_2; [reflexivity|]. now intros <-.
  - rewrite (bool_decide_eq_false_2 (a = n)) by assumption.
    rewrite (bool_decide_eq_false_2 (n = a)) by congruence.
    f_equal. apply IH. apply elem_of_cons in Hn as [->|Hn]; [contradiction|exact Hn].
Qed.

Lemma iadd_new (f : pystr -> float) (ns : list pystr) (n : pystr) (p : float) :
  n ∉ ns ->
  iadd (map (fun m => (m, f m)) ns) n p =
  map (fun m => (m, f m)) ns ++ [(n, PrimFloat.add 0%float p)].
Proof.
  induction ns as [|a ns IH]; intros Hn; [reflexivity|].
  cbn. rewrite bool_decide_eq_false_2.
  - f_equal. apply IH. intros H. apply Hn. now right.
  - intros ->. apply Hn. left.
Qed.

(** The dictionary holds one entry per student, in the order of first
    appearance, with the sum of the student's prices. *)
Lemma tally_spec (b : bought) :
  tally [] b = map (fun n => (n, spent n b)) (first_seen (map fst b)).
Proof.
  induction b as [|[n p] b IH] using rev_ind; [reflexivity|].
  unfold tally in *. rewrite fold_left_app, IH. cbn [fold_left fst snd].
  rewrite map_app. cbn [map fst]. rewrite first_seen_snoc.
  case_bool_decide as Hn.
  - rewrite iadd_known by (try apply first_seen_NoDup; assumption).
    apply map_ext. intros m. now rewrite spent_snoc.
  - rewrite iadd_new by assumption. rewrite map_app. cbn [map]. f_equal.
    + apply map_ext_in. intros m Hm. apply list_elem_of_In in Hm.
      rewrite spent_snoc, bool_decide_eq_false_2; [reflexivity|].
      intros <-. contradiction.
    + rewrite spent_snoc, bool_decide_eq_true_2 by reflexivity.
      rewrite spent_nothing; [reflexivity|]. now rewrite <- first_seen_elem.
Qed.

Lemma zip_names (students : list purchase) (prices : list float) :
  length students = length prices ->
  map fst (zip (map student_name students) prices) = map student_name students.
Proof.
  revert prices. induction students as [|stu students IH]; intros [|p prices] Hlen;
    try discriminate; [reflexivity|].
  cbn. f_equal. apply IH. now injection Hlen.
Qed.

(** ** Price resolution in the reporter *)

Section ReporterFacts.
Variable isalnum : Z -> bool.

(** The price the reporter finds for a record, if any. *)
Definition reporter_price (pm : price_maps) (stu : purchase) : option float :=
  Reporter.matched_price isalnum pm (strip (purchase_title stu)).

Definition reporter_bought (pm : price_maps) (students : list purchase) : bought :=
  omap (fun stu => p ← reporter_price pm stu; Some (student_name stu, p)) students.

Definition reporter_missing (pm : price_maps) (students : list purchase) : list pystr :=
  omap (fun stu =>
          match reporter_price pm stu with
          | Some _ => None
          | None => Some (Reporter.unmatched_line (student_name stu)
                            (strip (purchase_title stu)))
          end) students.

(** The three lookups are tried in the order raw, Tier 1, Tier 2, and the
    first key that is present gives the price. *)
Lemma reporter_priority (pm : price_maps) (book_name : pystr) :
  (forall p, raw_name pm !! book_name = Some p ->
     Reporter.matched_price isalnum pm book_name = Some p)
  /\ (forall p, raw_name pm !! book_name = None ->
        fmt1_name pm !! Reporter.str_format_1 book_name = Some p ->
        Reporter.matched_price isalnum pm book_name = Some p)
  /\ (raw_name pm !! book_name = None ->
      fmt1_name pm !! Reporter.str_format_1 book_name = None ->
      Reporter.matched_price isalnum pm book_name
      = fmt2_name pm !! Reporter.str_format_2 isalnum book_name).
Proof.
  unfold Reporter.matched_price. cbv zeta.
  repeat split; intros; repeat match goal with H : _ !! _ = _ |- _ => rewrite H end;
    reflexivity.
Qed.

(** A record whose title is a key of the raw map gets the price stored
    there, zero or not: the price goes to the student's total and the
    record is not listed as unmatched. *)
Lemma reporter_raw_match_counts (pm : price_maps) (stu : purchase) (p : float)
    (student_totals : odict) (unmatched_records : list pystr) :
  raw_name pm !! strip (purchase_title stu) = Some p ->
  Reporter.scan isalnum pm (student_totals, unmatched_records) stu
  = (iadd student_totals (student_name stu) p, unmatched_records).
Proof.
  intros H. unfold Reporter.scan, Reporter.matched_price. cbv zeta.
  now rewrite H.
Qed.

Lemma reporter_scan_fold (pm : price_maps) (students : list purchase)
    (t : odict) (u : list pystr) :
  fold_left (Reporter.scan isalnum pm) students (t, u)
  = (tally t (reporter_bought pm students), u ++ reporter_missing pm students).
Proof.
  revert t u. induction students as [|stu students IH]; intros t u.
  - cbn. now rewrite app_nil_r.
  - cbn [fold_left]. unfold Reporter.scan at 2. cbv zeta.
    fold (reporter_price pm stu).
    unfold reporter_bought, reporter_missing. cbn [omap list_omap].
    fold (reporter_bought pm students). fold (reporter_missing pm students).
    destruct (reporter_price pm stu) as [p|];
      cbn [fst snd mbind option_bind]; rewrite IH.
    + reflexivity.
    + now rewrite <- app_assoc.
Qed.

(** What [calculate_student_payments] of the reporter returns. *)
Lemma reporter_calculate_spec (books : list book) (students : list purchase) :
  let pm := Reporter.build_price_maps isalnum books in
  Reporter.calculate_student_payments isalnum books students =
  match reporter_missing pm students with
  | [] =>
      let b := reporter_bought pm students in
      Return (map (fun n => (n, round2 (spent n b))) (first_seen (map fst b)))
  | lines => Raise (Wrapped (UnmatchedPurchases lines))
  end.
Proof.
  cbv zeta. unfold Reporter.calculate_student_payments.
  rewrite reporter_scan_fold. cbn [app].
  destruct (reporter_missing _ students); [|reflexivity].
  cbn [rewrap]. rewrite tally_spec, map_map. reflexivity.
Qed.

(** X13. When every record gets a price, the reporter returns one row per
    student, in the order of first appearance, with the rounded sum of the
    student's prices; the total of the report is the sum of the rounded
    fees. *)
Theorem reporter_fee_is_rounded_sum (books : list book) (students : list purchase)
    (prices : list float) :
  let pm := Reporter.build_price_maps isalnum books in
  Forall2 (fun stu p => reporter_price pm stu = Some p) students prices ->
  let paid := zip (map student_name students) prices in
  let fees :=
    map (fun n => (n, round2 (spent n paid))) (first_seen (map student_name students)) in
  Reporter.calculate_student_payments isalnum books students = Return fees
  /\ Reporter.total_amount fees
     = fold_left PrimFloat.add
         (map (fun n => round2 (spent n paid)) (first_seen (map student_name students)))
         0%float.
Proof.
  intros pm Hprices paid fees.
  assert (Hb : reporter_bought pm students = paid
               /\ reporter_missing pm students = []).
  { subst paid. clear fees.
    induction Hprices as [|stu p students prices Hp _ [IHb IHm]]; [split; reflexivity|].
    unfold reporter_bought, reporter_missing. cbn [omap list_omap].
    fold (reporter_bought pm students).
    fold (reporter_missing pm students).
    rewrite Hp. cbn [mbind option_bind map zip zip_with]. now rewrite IHb, IHm. }
  destruct Hb as [Hb Hm]. split.
  - rewrite reporter_calculate_spec. cbv zeta. fold pm. rewrite Hm, Hb.
    unfold fees, paid.
    now rewrite zip_names by (eapply Forall2_length; eassumption).
  - unfold Reporter.total_amount, Py.sum, fees. now rewrite map_map.
Qed.

Lemma reporter_missing_elem (pm : price_maps) (students : list purchase)
    (stu : purchase) :
  stu ∈ students -> reporter_price pm stu = None ->
  Reporter.unmatched_line (student_name stu) (strip (purchase_title stu))
  ∈ reporter_missing pm students.
Proof.
  intros Hin Hp. unfold reporter_missing. apply list_elem_of_omap.
  exists stu. split; [exact Hin|]. now rewrite Hp.
Qed.

(** X12. One record without a price at any tier makes the reporter raise a
    single error; the error carries a line for each such record of the
    whole list, and no totals are returned. *)
Lemma reporter_unmatched_aggregated (books : list book) (students : list purchase)
    (stu : purchase) :
  let pm := Reporter.build_price_maps isalnum books in
  stu ∈ students -> reporter_price pm stu = None ->
  exists lines,
    Reporter.calculate_student_payments isalnum books students
    = Raise (Wrapped (UnmatchedPurchases lines))
    /\ lines = reporter_missing pm students
    /\ forall stu', stu' ∈ students -> reporter_price pm stu' = None ->
         Reporter.unmatched_line (student_name stu') (strip (purchase_title stu'))
         ∈ lines.
Proof.
  cbv zeta. intros Hin Hp.
  exists (reporter_missing (Reporter.build_price_maps isalnum books) students).
  pose proof (reporter_missing_elem _ _ _ Hin Hp) as Hne.
  rewrite reporter_calculate_spec. cbv zeta.
  destruct (reporter_missing _ students) eqn:E.
  - now apply elem_of_nil in Hne.
  - repeat split. intros stu' Hin' Hp'. rewrite <- E.
    now apply reporter_missing_elem.
Qed.

End ReporterFacts.

(** ** Price resolution in the calculator *)

Section CalculatorFacts.
Variable isalnum : Z -> bool.

(** What the chain of [or] gives for a record: [None] when Tier 2 does not
    return within [fuel] rounds, else the value of [price]. *)
Definition calculator_price (fuel : nat) (pm : price_maps) (stu : purchase)
  : option (option float) :=
  let bname := strip (purchase_title stu) in
  fmt2 ← Calculator.str_format_2 isalnum fuel bname;
  Some (Calculator.price pm bname (Calculator.str_format_1 bname) fmt2).

Lemma calculator_scan_priced (fuel : nat) (pm : price_maps)
    (st : Calculator.scan_state) (stu : purchase) (p : float) :
  calculator_price fuel pm stu = Some (Some p) ->
  exists fl,
    Calculator.scan isalnum fuel pm st stu
    = Some {| Calculator.totals := iadd (Calculator.totals st) (student_name stu) p;
              Calculator.unmatched := Calculator.unmatched st;
              Calculator.flag_greedy := fl |}.
Proof.
  unfold calculator_price, Calculator.scan. cbv zeta.
  destruct (Calculator.str_format_2 isalnum fuel _) as [fmt2|]; [|discriminate].
  cbn [mbind option_bind]. intros [= ->]. eexists. reflexivity.
Qed.

Lemma calculator_scan_all_priced (fuel : nat) (pm : price_maps)
    (students : list purchase) (prices : list float) :
  Forall2 (fun stu p => calculator_price fuel pm stu = Some (Some p)) students prices ->
  forall st, exists fl,
    Calculator.scan_all isalnum fuel pm st students
    = Some {| Calculator.totals :=
                tally (Calculator.totals st) (zip (map student_name students) prices);
              Calculator.unmatched := Calculator.unmatched st;
              Calculator.flag_greedy := fl |}.
Proof.
  induction 1 as [|stu p students prices Hp _ IH]; intros st.
  - exists (Calculator.flag_greedy st). now destruct st.
  - destruct (calculator_scan_priced fuel pm st stu p Hp) as [fl Hscan].
    cbn [Calculator.scan_all]. rewrite Hscan. cbn [mbind option_bind].
    destruct (IH {| Calculator.totals := iadd (Calculator.totals st) (student_name stu) p;
                    Calculator.unmatched := Calculator.unmatched st;
                    Calculator.flag_greedy := fl |}) as [fl' ->].
    exists fl'. reflexivity.
Qed.

(** A record whose title Tier 2 does not return on stops the whole
    calculation of the calculator. *)
Lemma calculator_scan_all_hangs (fuel : nat) (pm : price_maps)
    (students : list purchase) (stu : purchase) :
  stu ∈ students ->
  Calculator.str_format_2 isalnum fuel (strip (purchase_title stu)) = None ->
  forall st, Calculator.scan_all isalnum fuel pm st students = None.
Proof.
  intros Hin Hnone. induction students as [|x students IH]; intros st.
  - now apply elem_of_nil in Hin.
  - cbn [Calculator.scan_all].
    destruct (Calculator.scan isalnum fuel pm st x) as [st'|] eqn:E; [|reflexivity].
    cbn [mbind option_bind]. apply elem_of_cons in Hin as [->|Hin].
    + unfold Calculator.scan in E. cbv zeta in E. rewrite Hnone in E. discriminate.
    + now apply IH.
Qed.

Lemma calculator_hangs_on_title (fuel : nat) (books : list book)
    (students : list purchase) (stu : purchase) :
  stu ∈ students ->
  Calculator.str_format_2 isalnum fuel (strip (purchase_title stu)) = None ->
  Calculator.calculate_student_payments isalnum fuel books students = None.
Proof.
  intros Hin Hnone. unfold Calculator.calculate_student_payments.
  destruct (Calculator.build_price_maps isalnum fuel books no_prices) as [pm|];
    [|reflexivity].
  cbn [mbind option_bind].
  now rewrite (calculator_scan_all_hangs fuel pm students stu Hin Hnone).
Qed.

End CalculatorFacts.

(** Tier 2 of the calculator does not return on a title whose ASCII
    brackets are crossed, as in "A)(B". *)
Lemma calculator_str_format_2_crossed (isalnum : Z -> bool) (fuel : nat) (s : pystr) :
  contains FW_LPAREN s && contains FW_RPAREN s = false ->
  crossed LPAREN RPAREN s ->
  Calculator.str_format_2 isalnum fuel s = None.
Proof.
  intros Hfw Hx. unfold Calculator.str_format_2.
  destruct fuel as [|fuel]; [reflexivity|].
  assert (E : Calculator.strip_spans (S fuel) FW_LPAREN FW_RPAREN s = Some s)
    by (cbn; now rewrite Hfw).
  rewrite E. cbn [mbind option_bind].
  rewrite calculator_strip_spans_crossed; [reflexivity|discriminate|exact Hx].
Qed.

(** ** The statements on price resolution, at the inputs where the
    calculator departs from them

    In the examples the student is "s" and the titles are short ASCII
    strings; [Sample.isalnum] is the table of alphanumeric characters. *)

(** C1 (code side). A zero price found under the raw title is treated as
    absent by the calculator. Books "A B" at 0.0 and "AB" at 5.0; the student
    buys "A B". The raw map has the key "A B" with price 0.0, yet the
    calculator goes on to Tier 1, where "AB" gives 5.0, and charges 5.0. The
    reporter, which tests key membership, charges 0.0. *)
Theorem calculator_zero_raw_price_passed_on :
  let books := [Book [65; 32; 66] 0%float; Book [65; 66] 5%float] in
  let students := [Purchase [115] [65; 32; 66]] in
  (exists pm,
     Calculator.build_price_maps Sample.isalnum 1 books no_prices = Some pm
     /\ raw_name pm !! [65; 32; 66] = Some 0%float)
  /\ Calculator.calculate_student_payments Sample.isalnum 1 books students
     = Some (Return ([([115], 5%float)], false))
  /\ Reporter.calculate_student_payments Sample.isalnum books students
     = Return [([115], 0%float)].
Proof.
  cbv zeta. split; [|split].
  - eexists. split; [reflexivity|]. vm_compute. reflexivity.
  - vm_compute. reflexivity.
  - vm_compute. reflexivity.
Qed.

(** C2 (code side). One book "A" at 1.0; the student buys "A)(B", which
    no tier resolves. The reporter raises the aggregated error with the line
    of this record. The calculator never gets there: its Tier 2 does not
    return on "A)(B", whatever the number of rounds, so no error is raised
    and nothing is returned. *)
Theorem calculator_unmatched_title_hangs (fuel : nat) :
  let books := [Book [65] 1%float] in
  let students := [Purchase [115] [65; 41; 40; 66]] in
  Calculator.calculate_student_payments Sample.isalnum fuel books students = None
  /\ Reporter.calculate_student_payments Sample.isalnum books students
     = Raise (Wrapped (UnmatchedPurchases
                         [Reporter.unmatched_line [115] [65; 41; 40; 66]])).
Proof.
  cbv zeta. split; [|vm_compute; reflexivity].
  apply (calculator_hangs_on_title _ _ _ _ (Purchase [115] [65; 41; 40; 66])).
  - apply list_elem_of_singleton. reflexivity.
  - change (strip (purchase_title (Purchase [115] [65; 41; 40; 66])))
      with [65; 41; 40; 66].
    apply calculator_str_format_2_crossed; [reflexivity|].
    exists [65], [], [66]. repeat split; reflexivity.
Qed.

(** C3 (code side). The first lookup that succeeds is not always the one
    the calculator charges. Books "A B" at 0.0 and "A-B" at 7.0; the
    student buys "AB". The raw lookup fails, the Tier-1 lookup of "AB"
    succeeds with 0.0, and the calculator charges the 7.0 of Tier 2 (and
    sets the flag). The reporter charges 0.0. *)
Theorem calculator_charges_later_tier :
  let books := [Book [65; 32; 66] 0%float; Book [65; 45; 66] 7%float] in
  let students := [Purchase [115] [65; 66]] in
  (exists pm,
     Calculator.build_price_maps Sample.isalnum 1 books no_prices = Some pm
     /\ raw_name pm !! [65; 66] = None
     /\ fmt1_name pm !! Calculator.str_format_1 [65; 66] = Some 0%float
     /\ fmt2_name pm !! [65; 66] = Some 7%float)
  /\ Calculator.calculate_student_payments Sample.isalnum 1 books students
     = Some (Return ([([115], 7%float)], true))
  /\ Reporter.calculate_student_payments Sample.isalnum books students
     = Return [([115], 0%float)].
Proof.
  cbv zeta. split; [|split].
  - eexists. split; [reflexivity|]. repeat split; vm_compute; reflexivity.
  - vm_compute. reflexivity.
  - vm_compute. reflexivity.
Qed.

(** C4 (code side). The flag of the calculator is not "some record was
    resolved at Tier 2 only".
    - One book "X(1)" at 0.0; the student buys "X(2)": only the Tier-2
      lookup succeeds, and the flag stays false.
    - Books "A B" at 0.0 and "A,B" at 5.0; the student buys "A B": the raw
      lookup succeeds, and the flag is set. *)
Theorem calculator_flag_follows_truth_values :
  (let books := [Book [88; 40; 49; 41] 0%float] in
   let students := [Purchase [115] [88; 40; 50; 41]] in
   (exists pm,
      Calculator.build_price_maps Sample.isalnum 2 books no_prices = Some pm
      /\ raw_name pm !! [88; 40; 50; 41] = None
      /\ fmt1_name pm !! Calculator.str_format_1 [88; 40; 50; 41] = None
      /\ (Calculator.str_format_2 Sample.isalnum 2 [88; 40; 50; 41]
            ≫= fun fmt2 => fmt2_name pm !! fmt2) = Some 0%float)
   /\ Calculator.calculate_student_payments Sample.isalnum 2 books students
      = Some (Return ([([115], 0%float)], false)))
  /\ (let books := [Book [65; 32; 66] 0%float; Book [65; 44; 66] 5%float] in
      let students := [Purchase [115] [65; 32; 66]] in
      (exists pm,
         Calculator.build_price_maps Sample.isalnum 2 books no_prices = Some pm
         /\ raw_name pm !! [65; 32; 66] = Some 0%float)
      /\ Calculator.calculate_student_payments Sample.isalnum 2 books students
         = Some (Return ([([115], 5%float)], true))).
Proof.
  cbv zeta. split; split.
  - eexists. split; [reflexivity|]. repeat split; vm_compute; reflexivity.
  - vm_compute. reflexivity.
  - eexists. split; [reflexivity|]. vm_compute. reflexivity.
  - vm_compute. reflexivity.
Qed.

(** C9 (code side). The two programs succeed and return different totals.
    Books "AB" at 0.0 and "A B" at 3.5; the student buys "AB". The reporter
    finds the key "AB" in the raw map and charges 0.0; the calculator skips
    the zero and charges the 3.5 that Tier 1 holds for "AB". *)
Theorem programs_disagree_on_zero_price :
  let books := [Book [65; 66] 0%float; Book [65; 32; 66] 3.5%float] in
  let students := [Purchase [115] [65; 66]] in
  Reporter.calculate_student_payments Sample.isalnum books students
  = Return [([115], 0%float)]
  /\ Calculator.calculate_student_payments Sample.isalnum 1 books students
     = Some (Return ([([115], 3.5%float)], false)).
Proof. cbv zeta. split; vm_compute; reflexivity. Qed.

(** ** Rounding of the totals *)

(** The integer nearest to [m * 100 * 2^e], a tie going up. *)
Definition hundredths_half_up (m : positive) (e : Z) : Z :=
  match e with
  | Zneg k =>
      let d := 2 ^ Zpos k in
      (2 * (Zpos m * 100) + d) / (2 * d)
  | _ => Zpos m * 100 * 2 ^ e
  end.

(** Rounding to two decimals as the specification words it, "standard
    half-up": the nearest multiple of 0.01 in magnitude, a tie going up;
    the decimal result is read back as a float as in [round2]. *)
Definition round_half_up_2 (x : float) : float :=
  match Prim2SF x with
  | S754_finite s m e =>
      match hundredths_half_up m e with
      | Zpos n => nearest_float s n 100
      | _ => SF2Prim (S754_zero s)
      end
  | _ => x
  end.

(** C8, as amended. When every record of the batch gets a price, the
    calculator returns one row per student, in the order of first
    appearance; the fee of a student is the sum of the student's prices,
    added in the order of the records from 0.0 and only then rounded, by
    Python's [round(total, 2)] (the nearest two-decimal value of the float,
    ties to even); the grand total of [run_calculation] is the sum of these
    rounded fees. *)
Theorem calculator_fee_is_rounded_sum (isalnum : Z -> bool) (fuel : nat)
    (books : list book) (students : list purchase)
    (pm : price_maps) (prices : list float) :
  Calculator.build_price_maps isalnum fuel books no_prices = Some pm ->
  Forall2 (fun stu p => calculator_price isalnum fuel pm stu = Some (Some p))
    students prices ->
  let paid := zip (map student_name students) prices in
  let fees :=
    map (fun n => (n, round2 (spent n paid))) (first_seen (map student_name students)) in
  (exists flag,
     Calculator.calculate_student_payments isalnum fuel books students
     = Some (Return (fees, flag)))
  /\ Calculator.total fees
     = fold_left PrimFloat.add
         (map (fun n => round2 (spent n paid)) (first_seen (map student_name students)))
         0%float.
Proof.
  intros Hpm Hprices paid fees. split.
  - unfold Calculator.calculate_student_payments. rewrite Hpm.
    cbn [mbind option_bind].
    destruct (calculator_scan_all_priced isalnum fuel pm students prices Hprices
                {| Calculator.totals := []; Calculator.unmatched := [];
                   Calculator.flag_greedy := false |}) as [fl ->].
    cbn [mbind option_bind Calculator.unmatched Calculator.totals
         Calculator.flag_greedy].
    exists fl. do 3 f_equal.
    rewrite tally_spec, map_map.
    rewrite zip_names by (eapply Forall2_length; eassumption).
    reflexivity.
  - unfold Calculator.total, Py.sum, fees. now rewrite map_map.
Qed.

(** One book at 19.995 bought twice by one student: the fee is 39.99. *)
Lemma calculator_fee_is_rounded_sum_witness :
  let books := [Book [65] 19.995%float] in
  let students := [Purchase [115] [65]; Purchase [115] [65]] in
  let fees := [([115], 39.99%float)] in
  (exists flag,
     Calculator.calculate_student_payments Sample.isalnum 1 books students
     = Some (Return (fees, flag)))
  /\ Calculator.total fees = fold_left PrimFloat.add [39.99%float] 0%float.
Proof.
  apply (calculator_fee_is_rounded_sum Sample.isalnum 1
           [Book [65] 19.995%float]
           [Purchase [115] [65]; Purchase [115] [65]]
           (PriceMaps {[ [65] := 19.995%float ]} {[ [65] := 19.995%float ]}
                      {[ [65] := 19.995%float ]})
           [19.995%float; 19.995%float]).
  - vm_compute. reflexivity.
  - repeat constructor.
Defined.

(** Rounding each of the two purchases first would give 20.0 + 20.0. *)
Example rounding_per_purchase_differs :
  round2 (PrimFloat.add (PrimFloat.add 0 19.995) 19.995) = 39.99%float
  /\ PrimFloat.add (round2 19.995) (round2 19.995) = 40%float.
Proof. split; vm_compute; reflexivity. Qed.

(** C8, as stated, fails: the rounding is not half-up. One book at 0.125,
    bought once: the student's sum is 0.125, half-up rounding gives 0.13, and
    the calculator returns 0.12. *)
Lemma fee_of_an_eighth_is_not_half_up :
  let books := [Book [65] 0.125%float] in
  let students := [Purchase [115] [65]] in
  Calculator.calculate_student_payments Sample.isalnum 1 books students
  = Some (Return ([([115], 0.12%float)], false))
  /\ spent [115] [([115], 0.125%float)] = 0.125%float
  /\ round_half_up_2 0.125 = 0.13%float
  /\ 0.12%float <> 0.13%float.
Proof.
  cbv zeta. repeat split; try (vm_compute; reflexivity).
  intros H. apply (f_equal Prim2SF) in H. vm_compute in H. discriminate H.
Qed.

(** ** Extraction of the book list *)

Section ExtractionFacts.
Context {cell : Type} `{Cell cell}.
Variable str_contains : pystr -> pystr -> bool.

(** The two programs locate the table in the same way. *)
Lemma locate_table_same (df : Pd.frame) (target_class : pystr) :
  Calculator.locate_table str_contains df target_class
  = Reporter.locate_table str_contains df target_class.
Proof. reflexivity. Qed.

(** The anchor row: the first row whose first cell contains the target
    class. *)
Definition anchor_row (df : Pd.frame) (target_class : pystr) : option nat :=
  match Pd.column0_mask str_contains df target_class with
  | Return mask => if Pd.any mask then Some (Pd.idxmax mask) else None
  | Raise _ => None
  end.

Section Records.
Context {T : Type}.
Variable conv : cell -> T.
Variables i_serial i_title i_price : nat.

(** The row holds the record [b] with serial number [e]. *)
Definition holds_record (e : Z) (row : list cell) (b : book_info T) : Prop :=
  exists sv t x p,
    row !! i_serial = Some sv /\ isna sv = false /\ to_int sv = Some e
    /\ row !! i_title = Some t /\ row !! i_price = Some x
    /\ (if isna x then Some 0%float else to_float x) = Some p
    /\ b = BookInfo e (conv t) p.

(** The rows hold the records [bs], numbered from [e] on without a gap. *)
Inductive listed : Z -> list (list cell) -> list (book_info T) -> Prop :=
| listed_nil (e : Z) : listed e [] []
| listed_cons (e : Z) (row : list cell) (rows : list (list cell))
    (b : book_info T) (bs : list (book_info T)) :
    holds_record e row b -> listed (e + 1) rows bs ->
    listed e (row :: rows) (b :: bs).

(** What follows the records: the end of the sheet or a row with an empty
    serial cell ([None]), or a row whose serial number [k] is not the
    expected one ([Some k]). *)
Inductive followed_by (expected : Z) : list (list cell) -> option Z -> Prop :=
| followed_by_end : followed_by expected [] None
| followed_by_blank (row : list cell) (rest : list (list cell)) (sv : cell) :
    row !! i_serial = Some sv -> isna sv = true ->
    followed_by expected (row :: rest) None
| followed_by_gap (row : list cell) (rest : list (list cell)) (sv : cell) (k : Z) :
    row !! i_serial = Some sv -> isna sv = false -> to_int sv = Some k ->
    k <> expected ->
    followed_by expected (row :: rest) (Some k).

Lemma listed_length (e : Z) (rows : list (list cell)) (bs : list (book_info T)) :
  listed e rows bs -> length bs = length rows.
Proof. induction 1; cbn; congruence. Qed.

Lemma listed_serials (e : Z) (rows : list (list cell)) (bs : list (book_info T)) :
  listed e rows bs ->
  map serial bs = map (fun i => e + Z.of_nat i) (seq 0 (length rows)).
Proof.
  induction 1 as [|e row rows b bs (sv & t & x & p & _ & _ & _ & _ & _ & _ & ->) _ IH].
  - reflexivity.
  - cbn [map length seq serial]. f_equal; [lia|].
    rewrite IH, <- seq_shift, map_map. apply map_ext. intros i. lia.
Qed.

End Records.

(** The result of [process_book_excel] once the loop has read the records
    [bs] and met [stop]. *)
Definition extraction_outcome {T : Type} (expected : Z) (stop : option Z)
    (bs : list (book_info T)) : result (list (book_info T)) :=
  match stop with
  | Some k => Raise (NonContiguousSerial expected k)
  | None =>
      match bs with
      | [] => Raise NoValidData
      | _ :: _ => Return bs
      end
  end.

Ltac read_one_record :=
  match goal with
  | Hrow : holds_record _ _ _ _ _ _ _ |- _ =>
      let sv := fresh "sv" in
      let t := fresh "t" in
      let x := fresh "x" in
      let p := fresh "p" in
      let Hsv := fresh "Hsv" in
      let Hna := fresh "Hna" in
      let Hint := fresh "Hint" in
      let Ht := fresh "Ht" in
      let Hx := fresh "Hx" in
      let Hp := fresh "Hp" in
      destruct Hrow as (sv & t & x & p & Hsv & Hna & Hint & Ht & Hx & Hp & ->);
      cbn [Reporter.read_books Calculator.read_books];
      unfold Reporter.at_column, Calculator.at_column,
        Reporter.price_of, Calculator.price_of;
      rewrite Hsv; cbn [mbind result_bind]; rewrite Hna, Hint, Z.eqb_refl;
      cbn [negb]; rewrite Ht, Hx; cbn [mbind result_bind];
      destruct (isna x); [injection Hp as <-|rewrite Hp]; cbn [mbind result_bind]
  end.

Lemma reporter_read_books_listed (i_serial i_title i_price : nat) (e : Z)
    (rows rest : list (list cell)) (bs acc : list (book_info cell)) :
  listed (fun t => t) i_serial i_title i_price e rows bs ->
  Reporter.read_books (i_serial, i_title, i_price) (rows ++ rest) e acc
  = Reporter.read_books (i_serial, i_title, i_price) rest
      (e + Z.of_nat (length rows)) (acc ++ bs).
Proof.
  intros Hl. revert acc. induction Hl as [e|e row rows b bs Hrow _ IH]; intros acc.
  - cbn. now rewrite Z.add_0_r, app_nil_r.
  - cbn [app]. read_one_record; rewrite IH, <- app_assoc; cbn [app length];
      f_equal; lia.
Qed.

Lemma calculator_read_books_listed (i_serial i_title i_price : nat) (e : Z)
    (rows rest : list (list cell)) (bs acc : list (book_info pystr)) :
  listed (fun t => strip (to_str t)) i_serial i_title i_price e rows bs ->
  Calculator.read_books (i_serial, i_title, i_price) (rows ++ rest) e acc
  = Calculator.read_books (i_serial, i_title, i_price) rest
      (e + Z.of_nat (length rows)) (acc ++ bs).
Proof.
  intros Hl. revert acc. induction Hl as [e|e row rows b bs Hrow _ IH]; intros acc.
  - cbn. now rewrite Z.add_0_r, app_nil_r.
  - cbn [app]. read_one_record; rewrite IH, <- app_assoc; cbn [app length];
      f_equal; lia.
Qed.

Ltac read_the_stop :=
  cbn [Reporter.read_books Calculator.read_books];
  unfold Reporter.at_column, Calculator.at_column;
  match goal with
  | Hsv : _ !! _ = Some _ |- _ => rewrite Hsv
  end;
  cbn [mbind result_bind];
  repeat match goal with
         | E : isna _ = _ |- _ => rewrite E
         | E : to_int _ = _ |- _ => rewrite E
         end.

Lemma reporter_read_books_stop (i_serial i_title i_price : nat) (e : Z)
    (rest : list (list cell)) (stop : option Z) (acc : list (book_info cell)) :
  followed_by i_serial e rest stop ->
  Reporter.read_books (i_serial, i_title, i_price) rest e acc
  = match stop with
    | Some k => Raise (NonContiguousSerial e k)
    | None => Return acc
    end.
Proof.
  destruct 1 as [|row rest sv Hsv Hna|row rest sv k Hsv Hna Hint Hk];
    [reflexivity|read_the_stop; reflexivity|read_the_stop].
  apply Z.eqb_neq in Hk. now rewrite Hk.
Qed.

Lemma calculator_read_books_stop (i_serial i_title i_price : nat) (e : Z)
    (rest : list (list cell)) (stop : option Z) (acc : list (book_info pystr)) :
  followed_by i_serial e rest stop ->
  Calculator.read_books (i_serial, i_title, i_price) rest e acc
  = match stop with
    | Some k => Raise (NonContiguousSerial e k)
    | None => Return acc
    end.
Proof.
  destruct 1 as [|row rest sv Hsv Hna|row rest sv k Hsv Hna Hint Hk];
    [reflexivity|read_the_stop; reflexivity|read_the_stop].
  apply Z.eqb_neq in Hk. now rewrite Hk.
Qed.

(** The records of the calculator are those of the reporter with the title
    turned into a trimmed string. *)
Definition retitle (b : book_info cell) : book_info pystr :=
  BookInfo (serial b) (strip (to_str (title b))) (discount_price b).

Lemma listed_retitle (i_serial i_title i_price : nat) (e : Z)
    (rows : list (list cell)) (bs : list (book_info cell)) :
  listed (fun t => t) i_serial i_title i_price e rows bs ->
  listed (fun t => strip (to_str t)) i_serial i_title i_price e rows (map retitle bs).
Proof.
  induction 1 as [|e row rows b bs (sv & t & x & p & Hrow) _ IH]; cbn [map];
    constructor; [|exact IH].
  exists sv, t, x, p.
  destruct Hrow as (? & ? & ? & ? & ? & ? & ->). repeat split; assumption.
Qed.

(** C7. Once the header row and the three columns are located, the loop
    reads the rows below the header. If these rows are [rows ++ rest], where
    [rows] hold records numbered 1, 2, ... without a gap and [rest] is empty
    or starts with a row that is not the next record, then:
    - the records read are as many as [rows], with the serial numbers
      1 .. N in this order;
    - when [rest] is empty or starts with an empty serial cell, the
      extraction ends there without an error and returns the records, unless
      there is none, which is the error "no valid data";
    - when [rest] starts with a serial number [k] other than N + 1, the
      error names N + 1 and [k].
    The reporter wraps its errors; the calculator returns the same records
    with the titles as trimmed strings. *)
Theorem book_extraction_contract (df : Pd.frame) (target_class : pystr)
    (header_row i_serial i_title i_price : nat)
    (rows rest : list (list cell)) (bs : list (book_info cell)) (stop : option Z) :
  Reporter.locate_table str_contains df target_class
  = Return (header_row, (i_serial, i_title, i_price)) ->
  drop (S header_row) df = rows ++ rest ->
  listed (fun t => t) i_serial i_title i_price 1 rows bs ->
  followed_by i_serial (1 + Z.of_nat (length rows)) rest stop ->
  length bs = length rows
  /\ map serial bs = map Z.of_nat (seq 1 (length rows))
  /\ Reporter.process_book_excel str_contains df target_class
     = rewrap (extraction_outcome (1 + Z.of_nat (length rows)) stop bs)
  /\ Calculator.process_book_excel str_contains df target_class
     = extraction_outcome (1 + Z.of_nat (length rows)) stop (map retitle bs).
Proof.
  intros Hloc Hdrop Hlisted Hstop. split; [|split; [|split]].
  - eapply listed_length, Hlisted.
  - rewrite (listed_serials _ _ _ _ _ _ _ Hlisted), <- seq_shift, map_map.
    apply map_ext. intros i. lia.
  - unfold Reporter.process_book_excel. rewrite Hloc. cbn [mbind result_bind].
    rewrite Hdrop, (reporter_read_books_listed _ _ _ _ _ _ _ _ Hlisted).
    rewrite (reporter_read_books_stop _ _ _ _ _ _ _ Hstop).
    destruct stop; [reflexivity|]. cbn. now destruct bs.
  - unfold Calculator.process_book_excel. rewrite locate_table_same, Hloc.
    cbn [mbind result_bind].
    rewrite Hdrop,
      (calculator_read_books_listed _ _ _ _ _ _ _ _ (listed_retitle _ _ _ _ _ _ Hlisted)).
    rewrite (calculator_read_books_stop _ _ _ _ _ _ _ Hstop).
    destruct stop; [reflexivity|]. cbn. now destruct bs.
Qed.

(** C10. When the anchor row is the last row of the frame, the header check
    [df.iloc[class_row + 1, 0]] is out of bounds: the calculator fails with
    the index error, and the reporter with the error that wraps it; neither
    returns, and neither raises the header-not-found error. *)
Theorem header_check_past_last_row (df : Pd.frame) (target_class : pystr)
    (class_row : nat) :
  anchor_row df target_class = Some class_row ->
  S class_row = length df ->
  Reporter.process_book_excel str_contains df target_class = Raise (Wrapped IndexError)
  /\ Calculator.process_book_excel str_contains df target_class = Raise IndexError.
Proof.
  unfold anchor_row. intros Hanchor Hlast.
  destruct (Pd.column0_mask str_contains df target_class) as [mask|] eqn:Hmask;
    [|discriminate].
  destruct (Pd.any mask) eqn:Hany; [|discriminate].
  injection Hanchor as <-.
  assert (Hloc : Reporter.locate_table str_contains df target_class = Raise IndexError).
  { unfold Reporter.locate_table. rewrite Hmask. cbn [mbind result_bind].
    rewrite Hany. cbn [negb]. unfold Pd.iloc.
    rewrite (lookup_ge_None_2 df) by lia. reflexivity. }
  split.
  - unfold Reporter.process_book_excel. now rewrite Hloc.
  - unfold Calculator.process_book_excel. now rewrite locate_table_same, Hloc.
Qed.

End ExtractionFacts.

(** ** A sheet of the bookseller *)

Definition CLASS_241 : pystr := [30005; 27668; 50; 52; 49].          (* "电气241" *)
Definition CALCULUS : pystr := [39640; 31561; 25968; 23398].         (* "高等数学" *)
Definition ALGEBRA : pystr := [32447; 24615; 20195; 25968].          (* "线性代数" *)
Definition PHYSICS : pystr := [22823; 23398; 29289; 29702].          (* "大学物理" *)
Definition SUBTOTAL : pystr := [21512; 35745].                       (* "合计" *)

Definition title_row : list Sample.value :=
  [Sample.Label (CLASS_241 ++ [29677]); Sample.Blank; Sample.Blank]. (* "电气241班" *)
Definition header_cells : list Sample.value :=
  [Sample.Label SERIAL; Sample.Label TITLE; Sample.Label DISCOUNT_PRICE].
Definition calculus_row : list Sample.value :=
  [Sample.Whole 1; Sample.Label CALCULUS; Sample.Whole 45].
Definition algebra_row : list Sample.value :=
  [Sample.Whole 2; Sample.Label ALGEBRA; Sample.Blank].
Definition subtotal_row : list Sample.value :=
  [Sample.Blank; Sample.Label SUBTOTAL; Sample.Whole 45].

(** Two books, then a row without a serial number. *)
Definition two_books_sheet : Pd.frame :=
  [title_row; header_cells; calculus_row; algebra_row; subtotal_row].

(** The serial numbers 1, 2, 4. *)
Definition gap_sheet : Pd.frame :=
  [title_row; header_cells; calculus_row; algebra_row;
   [Sample.Whole 4; Sample.Label PHYSICS; Sample.Whole 30]].

(** No record under the header. *)
Definition empty_table_sheet : Pd.frame :=
  [title_row; header_cells; subtotal_row].

(** The class is named on the last row. *)
Definition class_on_last_row_sheet : Pd.frame :=
  [[Sample.Label SUBTOTAL; Sample.Blank]; [Sample.Label CLASS_241; Sample.Blank]].

Lemma book_extraction_contract_witness :
  Reporter.process_book_excel Sample.occurs_in two_books_sheet CLASS_241
  = Return [BookInfo 1 (Sample.Label CALCULUS) 45%float;
            BookInfo 2 (Sample.Label ALGEBRA) 0%float]
  /\ Calculator.process_book_excel Sample.occurs_in two_books_sheet CLASS_241
     = Return [BookInfo 1 CALCULUS 45%float; BookInfo 2 ALGEBRA 0%float].
Proof.
  destruct (book_extraction_contract Sample.occurs_in two_books_sheet CLASS_241
              1 0 1 2 [calculus_row; algebra_row] [subtotal_row]
              [BookInfo 1 (Sample.Label CALCULUS) 45%float;
               BookInfo 2 (Sample.Label ALGEBRA) 0%float]
              None) as (_ & _ & Hreporter & Hcalculator).
  - vm_compute. reflexivity.
  - reflexivity.
  - constructor.
    + exists (Sample.Whole 1), (Sample.Label CALCULUS), (Sample.Whole 45), 45%float.
      repeat split; reflexivity.
    + constructor; [|constructor].
      exists (Sample.Whole 2), (Sample.Label ALGEBRA), Sample.Blank, 0%float.
      repeat split; reflexivity.
  - apply followed_by_blank with (sv := Sample.Blank); reflexivity.
  - split; [exact Hreporter|exact Hcalculator].
Defined.

(** The serial numbers 1, 2, 4 raise the error that names 3 and 4. *)
Example gap_is_reported :
  Reporter.process_book_excel Sample.occurs_in gap_sheet CLASS_241
  = Raise (Wrapped (NonContiguousSerial 3 4))
  /\ Calculator.process_book_excel Sample.occurs_in gap_sheet CLASS_241
     = Raise (NonContiguousSerial 3 4).
Proof. split; vm_compute; reflexivity. Qed.

Example empty_table_is_an_error :
  Reporter.process_book_excel Sample.occurs_in empty_table_sheet CLASS_241
  = Raise (Wrapped NoValidData)
  /\ Calculator.process_book_excel Sample.occurs_in empty_table_sheet CLASS_241
     = Raise NoValidData.
Proof. split; vm_compute; reflexivity. Qed.

Lemma header_check_past_last_row_witness :
  Reporter.process_book_excel Sample.occurs_in class_on_last_row_sheet CLASS_241
  = Raise (Wrapped IndexError)
  /\ Calculator.process_book_excel Sample.occurs_in class_on_last_row_sheet CLASS_241
     = Raise IndexError.
Proof.
  apply (header_check_past_last_row Sample.occurs_in class_on_last_row_sheet
           CLASS_241 1).
  - vm_compute. reflexivity.
  - reflexivity.
Defined.

(** ** Where the two programs agree

    The calculator departs from the reporter in two ways only: its Tier 2
    may not return, and its chain of [or] reads a stored price of zero as
    absent. When it returns and no book has a zero price, it computes what
    the reporter computes. *)

Section Agreement.
Variable isalnum : Z -> bool.

(** No price stored in the maps is zero. *)
Definition prices_truthy (pm : price_maps) : Prop :=
  (forall k p, raw_name pm !! k = Some p -> truthy p = true)
  /\ (forall k p, fmt1_name pm !! k = Some p -> truthy p = true)
  /\ (forall k p, fmt2_name pm !! k = Some p -> truthy p = true).

(** The record is resolved by the Tier-2 lookup alone. *)
Definition tier2_only (pm : price_maps) (stu : purchase) : bool :=
  let bname := strip (purchase_title stu) in
  match raw_name pm !! bname,
        fmt1_name pm !! Reporter.str_format_1 bname,
        fmt2_name pm !! Reporter.str_format_2 isalnum bname with
  | None, None, Some _ => true
  | _, _, _ => false
  end.

Lemma calculator_price_is_matched_price (pm : price_maps) (bname : pystr) :
  prices_truthy pm ->
  Calculator.price pm bname (Calculator.str_format_1 bname)
    (Reporter.str_format_2 isalnum bname)
  = Reporter.matched_price isalnum pm bname.
Proof.
  intros (Hraw & Hfmt1 & Hfmt2).
  unfold Calculator.price, Reporter.matched_price, or_. cbv zeta.
  change (Calculator.str_format_1 bname) with (Reporter.str_format_1 bname).
  destruct (raw_name pm !! bname) as [p|] eqn:E1.
  - cbn [truthy_opt]. rewrite (Hraw _ _ E1). cbn [truthy_opt].
    now rewrite (Hraw _ _ E1).
  - cbn [truthy_opt].
    destruct (fmt1_name pm !! Reporter.str_format_1 bname) as [p|] eqn:E2.
    + cbn [truthy_opt]. now rewrite (Hfmt1 _ _ E2).
    + reflexivity.
Qed.

Lemma calculator_greedy_is_tier2_only (pm : price_maps) (stu : purchase) :
  prices_truthy pm ->
  let bname := strip (purchase_title stu) in
  Calculator.greedy pm bname (Calculator.str_format_1 bname)
    (Reporter.str_format_2 isalnum bname)
  = tier2_only pm stu.
Proof.
  intros (Hraw & Hfmt1 & Hfmt2). cbv zeta.
  unfold Calculator.greedy, tier2_only. cbv zeta.
  change (Calculator.str_format_1 (strip (purchase_title stu)))
    with (Reporter.str_format_1 (strip (purchase_title stu))).
  destruct (raw_name pm !! _) as [p|] eqn:E1;
    destruct (fmt1_name pm !! _) as [q|] eqn:E2;
    destruct (fmt2_name pm !! _) as [r|] eqn:E3; cbn [truthy_opt];
    repeat match goal with
           | E : raw_name pm !! _ = Some _ |- _ => rewrite (Hraw _ _ E)
           | E : fmt1_name pm !! _ = Some _ |- _ => rewrite (Hfmt1 _ _ E)
           | E : fmt2_name pm !! _ = Some _ |- _ => rewrite (Hfmt2 _ _ E)
           end;
    cbn [andb negb]; rewrite ?andb_false_r; reflexivity.
Qed.

Lemma calculator_add_book_sound (fuel : nat) (pm pm' : price_maps) (b : book) :
  Calculator.add_book isalnum fuel pm b = Some pm' ->
  pm' = Reporter.add_book isalnum pm b.
Proof.
  unfold Calculator.add_book, Reporter.add_book. cbv zeta.
  destruct (Calculator.str_format_2 isalnum fuel _) as [fmt2|] eqn:E; [|discriminate].
  cbn. intros [= <-]. now rewrite (calculator_str_format_2_sound _ _ _ _ E).
Qed.

Lemma calculator_build_price_maps_sound (fuel : nat) (books : list book)
    (pm0 pm : price_maps) :
  Calculator.build_price_maps isalnum fuel books pm0 = Some pm ->
  pm = fold_left (Reporter.add_book isalnum) books pm0.
Proof.
  revert pm0. induction books as [|b books IH]; intros pm0; cbn.
  - now intros [= <-].
  - destruct (Calculator.add_book isalnum fuel pm0 b) as [pm1|] eqn:E; [|discriminate].
    cbn. intros H. apply IH in H.
    now rewrite (calculator_add_book_sound _ _ _ _ E) in H.
Qed.

Lemma add_book_truthy (pm : price_maps) (b : book) :
  prices_truthy pm -> truthy (book_price b) = true ->
  prices_truthy (Reporter.add_book isalnum pm b).
Proof.
  intros (Hraw & Hfmt1 & Hfmt2) Hb. unfold Reporter.add_book. cbv zeta.
  repeat split; cbn; intros k p Hk;
    apply lookup_insert_Some in Hk as [[_ <-]|[_ Hk]]; eauto.
Qed.

Lemma build_price_maps_truthy (books : list book) (pm0 : price_maps) :
  prices_truthy pm0 ->
  Forall (fun b => truthy (book_price b) = true) books ->
  prices_truthy (fold_left (Reporter.add_book isalnum) books pm0).
Proof.
  intros H0 Hbooks. revert pm0 H0.
  induction Hbooks as [|b books Hb _ IH]; intros pm0 H0; [exact H0|].
  cbn. apply IH. now apply add_book_truthy.
Qed.

Lemma no_prices_truthy : prices_truthy no_prices.
Proof. repeat split; cbn; intros k p Hk; now rewrite lookup_empty in Hk. Qed.

(** One run of the calculator's loop, read with the reporter's functions. *)
Lemma calculator_scan_all_sound (fuel : nat) (pm : price_maps)
    (students : list purchase) (st st' : Calculator.scan_state) :
  prices_truthy pm ->
  Calculator.scan_all isalnum fuel pm st students = Some st' ->
  Calculator.totals st'
  = tally (Calculator.totals st) (reporter_bought isalnum pm students)
  /\ length (Calculator.unmatched st')
     = (length (Calculator.unmatched st)
        + length (reporter_missing isalnum pm students))%nat
  /\ Calculator.flag_greedy st'
     = Calculator.flag_greedy st || existsb (tier2_only pm) students.
Proof.
  intros Hpm. revert st. induction students as [|stu students IH]; intros st.
  - cbn. intros [= <-]. rewrite orb_false_r. repeat split. lia.
  - cbn [Calculator.scan_all].
    destruct (Calculator.scan isalnum fuel pm st stu) as [st1|] eqn:E; [|discriminate].
    cbn [mbind option_bind]. intros Hrest. apply IH in Hrest as (Ht & Hu & Hf).
    unfold Calculator.scan in E. cbv zeta in E.
    destruct (Calculator.str_format_2 isalnum fuel _) as [fmt2|] eqn:E2; [|discriminate].
    cbn [mbind option_bind] in E.
    apply calculator_str_format_2_sound in E2. subst fmt2.
    rewrite (calculator_greedy_is_tier2_only pm stu Hpm) in E.
    rewrite (calculator_price_is_matched_price pm _ Hpm) in E.
    unfold reporter_bought, reporter_missing. cbn [omap list_omap existsb].
    fold (reporter_bought isalnum pm students).
    fold (reporter_missing isalnum pm students).
    unfold reporter_price at 1 2.
    destruct (Reporter.matched_price isalnum pm _) as [p|] eqn:Ep;
      injection E as <-; cbn in Ht, Hu, Hf |- *.
    + repeat split; [exact Ht|exact Hu|].
      rewrite Hf. now destruct (tier2_only pm stu), (Calculator.flag_greedy st).
    + repeat split; [exact Ht| |].
      * rewrite Hu, length_app. cbn. lia.
      * rewrite Hf. unfold tier2_only. cbv zeta.
        unfold Reporter.matched_price in Ep. cbv zeta in Ep.
        destruct (raw_name pm !! _); [discriminate|].
        destruct (fmt1_name pm !! _); [discriminate|].
        now rewrite Ep.
Qed.

(** X16. When no book has a zero price and the calculator returns totals, the
    reporter returns the same totals, and the calculator's flag says whether
    some record was resolved by Tier 2 alone. *)
Theorem calculator_agrees_with_reporter (fuel : nat) (books : list book)
    (students : list purchase) (pays : payments) (flag : bool) :
  Forall (fun b => truthy (book_price b) = true) books ->
  Calculator.calculate_student_payments isalnum fuel books students
  = Some (Return (pays, flag)) ->
  Reporter.calculate_student_payments isalnum books students = Return pays
  /\ flag = existsb (tier2_only (Reporter.build_price_maps isalnum books)) students.
Proof.
  intros Hbooks. unfold Calculator.calculate_student_payments.
  destruct (Calculator.build_price_maps isalnum fuel books no_prices) as [pm|] eqn:Epm;
    [|discriminate].
  cbn [mbind option_bind].
  apply calculator_build_price_maps_sound in Epm.
  fold (Reporter.build_price_maps isalnum books) in Epm. subst pm.
  set (pm := Reporter.build_price_maps isalnum books).
  assert (Hpm : prices_truthy pm)
    by (apply build_price_maps_truthy; [apply no_prices_truthy|exact Hbooks]).
  destruct (Calculator.scan_all isalnum fuel pm _ students) as [st|] eqn:Escan;
    [|discriminate].
  cbn [mbind option_bind].
  apply (calculator_scan_all_sound fuel pm students _ st Hpm) in Escan
    as (Ht & Hu & Hf).
  cbn in Ht, Hu, Hf.
  destruct (Calculator.unmatched st) eqn:Eu; [|discriminate].
  intros [= <- <-]. split; [|exact Hf].
  rewrite reporter_calculate_spec. cbv zeta. fold pm.
  destruct (reporter_missing isalnum pm students); [|discriminate Hu].
  now rewrite Ht, tally_spec, map_map.
Qed.

End Agreement.

(** ** The reporter and the agreement of the programs on concrete batches *)

Lemma sample_brackets_not_alnum : brackets_not_alnum Sample.isalnum.
Proof. repeat split; reflexivity. Qed.

Lemma sample_spaces_not_alnum : spaces_not_alnum Sample.isalnum.
Proof.
  intros c. unfold isspace, Sample.isalnum. intros Hc.
  repeat match goal with
         | |- context [?a <=? ?b] => destruct (Z.leb_spec a b); try lia
         | H : context [?a <=? ?b] |- _ => destruct (Z.leb_spec a b); try lia
         | H : context [?a =? ?b] |- _ => destruct (Z.eqb_spec a b); try lia
         end; try reflexivity; discriminate Hc.
Qed.

(** A free book "A": the record of "s" adds 0.0 to the total of "s". *)
Lemma reporter_raw_match_counts_witness :
  Reporter.scan Sample.isalnum
    (PriceMaps {[ [65] := 0%float ]} {[ [65] := 0%float ]} {[ [65] := 0%float ]})
    ([], []) (Purchase [115] [65])
  = ([([115], PrimFloat.add 0 0)], []).
Proof.
  apply (reporter_raw_match_counts Sample.isalnum
           (PriceMaps {[ [65] := 0%float ]} {[ [65] := 0%float ]} {[ [65] := 0%float ]})
           (Purchase [115] [65]) 0%float [] []).
  vm_compute. reflexivity.
Defined.

(** One book "A"; "s" buys "B", "t" buys "A", "u" buys "C": the error
    lists "s" with "B" and "u" with "C". *)
Lemma reporter_unmatched_aggregated_witness :
  exists lines,
    Reporter.calculate_student_payments Sample.isalnum [Book [65] 1%float]
      [Purchase [115] [66]; Purchase [116] [65]; Purchase [117] [67]]
    = Raise (Wrapped (UnmatchedPurchases lines))
    /\ lines = [Reporter.unmatched_line [115] [66]; Reporter.unmatched_line [117] [67]].
Proof.
  destruct (reporter_unmatched_aggregated Sample.isalnum [Book [65] 1%float]
              [Purchase [115] [66]; Purchase [116] [65]; Purchase [117] [67]]
              (Purchase [115] [66])) as (lines & Hraise & Hlines & _).
  - apply elem_of_cons. now left.
  - vm_compute. reflexivity.
  - exists lines. split; [exact Hraise|]. rewrite Hlines. vm_compute. reflexivity.
Defined.

(** "）（a(b)" goes to "a", and "a" to itself. *)
Lemma reporter_str_format_2_idempotent_witness :
  Reporter.str_format_2 Sample.isalnum
    (Reporter.str_format_2 Sample.isalnum [65289; 65288; 97; 40; 98; 41])
  = Reporter.str_format_2 Sample.isalnum [65289; 65288; 97; 40; 98; 41].
Proof.
  apply (reporter_str_format_2_idempotent Sample.isalnum
           [65289; 65288; 97; 40; 98; 41]).
  exact sample_brackets_not_alnum.
Defined.

(** A space, a full-width space and a tab. *)
Lemma reporter_str_format_2_blank_witness :
  Reporter.str_format_2 Sample.isalnum [32; 12288; 9] = [].
Proof.
  apply (reporter_str_format_2_blank Sample.isalnum [32; 12288; 9]).
  - exact sample_spaces_not_alnum.
  - repeat constructor.
Defined.

(** The loop for the ASCII brackets on "(a)b". *)
Lemma calculator_strip_spans_ends_or_not_witness :
  (forall fuel, (length [40; 97; 41; 98] < fuel)%nat ->
     Calculator.strip_spans fuel LPAREN RPAREN [40; 97; 41; 98]
     = Some (Reporter.strip_spans LPAREN RPAREN [40; 97; 41; 98]))
  \/ (forall fuel, Calculator.strip_spans fuel LPAREN RPAREN [40; 97; 41; 98] = None).
Proof.
  apply (calculator_strip_spans_ends_or_not LPAREN RPAREN [40; 97; 41; 98]).
  discriminate.
Defined.

(** One book "A(1)" at 2.5, bought by "s" as "A(2)": both programs charge
    2.5, and the flag is set. *)
Lemma calculator_agrees_with_reporter_witness :
  Reporter.calculate_student_payments Sample.isalnum [Book [65; 40; 49; 41] 2.5%float]
    [Purchase [115] [65; 40; 50; 41]]
  = Return [([115], 2.5%float)]
  /\ true
     = existsb (tier2_only Sample.isalnum
                  (Reporter.build_price_maps Sample.isalnum
                     [Book [65; 40; 49; 41] 2.5%float]))
         [Purchase [115] [65; 40; 50; 41]].
Proof.
  apply (calculator_agrees_with_reporter Sample.isalnum 2
           [Book [65; 40; 49; 41] 2.5%float] [Purchase [115] [65; 40; 50; 41]]
           [([115], 2.5%float)] true).
  - repeat constructor.
  - vm_compute. reflexivity.
Defined.

(** One book at 0.125 bought by "s", one at 19.995 bought twice by "t". *)
Lemma reporter_fee_is_rounded_sum_witness :
  let books := [Book [65] 0.125%float; Book [66] 19.995%float] in
  let students := [Purchase [115] [65]; Purchase [116] [66]; Purchase [116] [66]] in
  let fees := [([115], 0.12%float); ([116], 39.99%float)] in
  Reporter.calculate_student_payments Sample.isalnum books students = Return fees
  /\ Reporter.total_amount fees
     = fold_left PrimFloat.add [0.12%float; 39.99%float] 0%float.
Proof.
  apply (reporter_fee_is_rounded_sum Sample.isalnum
           [Book [65] 0.125%float; Book [66] 19.995%float]
           [Purchase [115] [65]; Purchase [116] [66]; Purchase [116] [66]]
           [0.125%float; 19.995%float; 19.995%float]).
  repeat constructor.
Defined.

(** "）a（": the closing bracket comes first. *)
Lemma reporter_strip_spans_unbalanced_witness :
  Reporter.strip_spans FW_LPAREN FW_RPAREN [65289; 97; 65288] = [65289; 97; 65288].
Proof.
  apply (reporter_strip_spans_unbalanced FW_LPAREN FW_RPAREN [65289; 97; 65288]).
  vm_compute. discriminate.
Defined.

(** * The rest of the two programs

    The functions that the statements above do not reach:
    [process_student_excel] of both programs, and what the functions
    modelled so far do on the inputs not looked at yet. *)

(** ** More of Python *)

(** [s.startswith(prefix)]. *)
Fixpoint startswith (s prefix : pystr) : bool :=
  match prefix, s with
  | [], _ => true
  | _ :: _, [] => false
  | a :: prefix', b :: s' => (a =? b) && startswith s' prefix'
  end.

(** [sub in s] for two strings. *)
Fixpoint str_in (sub s : pystr) : bool :=
  startswith s sub
  || match s with
     | [] => false
     | _ :: s' => str_in sub s'
     end.

(** Truth value of a string: false exactly for the empty one. *)
Definition nonempty (s : pystr) : bool :=
  match s with
  | [] => false
  | _ :: _ => true
  end.

(** ** The student sheet *)

Definition NAME : pystr := [22995; 21517].         (* "姓名" *)
Definition CLASS_TOKEN : pystr := [29677; 32423].  (* "班级" *)

(** The exceptions of [process_student_excel]. *)
Inductive student_exn : Type :=
| NameHeaderNotFound                     (* ValueError("未找到包含'姓名'的标题行") *)
| StudentColumnMissing (token : pystr)   (* ValueError(f"缺少必要列：'{col}'") *)
| NoStudentRecords (target_class : pystr)
                     (* ValueError(f"未找到班级 '{target_class}'的有效学生购书记录") *)
| StudentIndexError                      (* df.iloc[r, c] out of bounds *)
| StudentWrapped (cause : student_exn).  (* raise ValueError(f"处理学生Excel失败: {str(e)}") *)

Inductive student_result (A : Type) : Type :=
| Students (a : A)
| StudentRaise (e : student_exn).
Arguments Students {A} a.
Arguments StudentRaise {A} e.

#[global] Instance student_result_ret : MRet student_result := fun A a => Students a.
#[global] Instance student_result_bind : MBind student_result :=
  fun A B f r => match r with Students a => f a | StudentRaise e => StudentRaise e end.

(** [try: ... except Exception as e: raise ValueError(f"处理学生Excel失败: {str(e)}")]. *)
Definition student_rewrap {A : Type} (r : student_result A) : student_result A :=
  match r with
  | Students a => Students a
  | StudentRaise e => StudentRaise (StudentWrapped e)
  end.

(** The statements that the two versions of [process_student_excel]
    share. *)
Module Students.
Section Sheet.
Context {cell : Type} `{Cell cell}.
Variable str_contains : pystr -> pystr -> bool.

(** The loop
    [for i in range(len(df)):
         if df.iloc[i].astype(str).str.contains("姓名").any():
             header_row = i; break],
    on the rows from [i] on. *)
Fixpoint find_header (rows : list (list cell)) (i : nat) : option nat :=
  match rows with
  | [] => None
  | row :: rest =>
      if Pd.any (Pd.row_mask str_contains row NAME) then Some i
      else find_header rest (S i)
  end.

(** One entry of [required_columns], checked with [any] and located with
    [idxmax]. *)
Definition require_column (header : list cell) (token : pystr) : student_result nat :=
  let mask := Pd.row_mask str_contains header token in
  if Pd.any mask then Students (Pd.idxmax mask)
  else StudentRaise (StudentColumnMissing token).

(** The statements up to [col_indices]: the header row and the columns of
    the name, of the class and of the title. *)
Definition locate_columns (df : Pd.frame) : student_result (nat * (nat * nat * nat)) :=
  match find_header df 0 with
  | None => StudentRaise NameHeaderNotFound
  | Some header_row =>
      match df !! header_row with
      | None => StudentRaise StudentIndexError
      | Some header =>
          i_name ← require_column header NAME;
          i_class ← require_column header CLASS_TOKEN;
          i_title ← require_column header TITLE;
          Students (header_row, (i_name, i_class, i_title))
      end
  end.

Definition at_column (row : list cell) (c : nat) : student_result cell :=
  match row !! c with
  | Some x => Students x
  | None => StudentRaise StudentIndexError
  end.

(** The loop [for row in range(header_row + 1, len(df))], on the rows from
    [header_row + 1] on. *)
Fixpoint collect (cols : nat * nat * nat) (target_class : pystr)
    (rows : list (list cell)) (student_records : list purchase)
  : student_result (list purchase) :=
  match rows with
  | [] => Students student_records
  | row :: rest =>
      let '(i_name, i_class, i_title) := cols in
      c ← at_column row i_class;
      let student_class := strip (to_str c) in
      if str_in target_class student_class then
        n ← at_column row i_name;
        t ← at_column row i_title;
        let record := Purchase (strip (to_str n)) (strip (to_str t)) in
        if nonempty (student_name record) && nonempty (purchase_title record)
        then collect cols target_class rest (student_records ++ [record])
        else collect cols target_class rest student_records
      else collect cols target_class rest student_records
  end.

End Sheet.
End Students.

(** [process_student_excel] of textbook_fee_reporter.py. *)
Module ReporterRest.
Section Sheet.
Context {cell : Type} `{Cell cell}.
Variable str_contains : pystr -> pystr -> bool.

Definition process_student_excel (df : Pd.frame) (target_class : pystr)
  : student_result (list purchase) :=
  student_rewrap (
    '(header_row, cols) ← Students.locate_columns str_contains df;
    student_records ←
      Students.collect cols target_class (drop (S header_row) df) [];
    match student_records with
    | [] => StudentRaise (NoStudentRecords target_class)
    | _ :: _ => Students student_records
    end).

End Sheet.
End ReporterRest.

(** [process_student_excel] of TextbookPurchaseFeeCalculator.py: the same
    statements, outside any [try]. *)
Module CalculatorRest.
Section Sheet.
Context {cell : Type} `{Cell cell}.
Variable str_contains : pystr -> pystr -> bool.

Definition process_student_excel (df : Pd.frame) (target_class : pystr)
  : student_result (list purchase) :=
  '(header_row, cols) ← Students.locate_columns str_contains df;
  student_records ←
    Students.collect cols target_class (drop (S header_row) df) [];
  match student_records with
  | [] => StudentRaise (NoStudentRecords target_class)
  | _ :: _ => Students student_records
  end.

End Sheet.
End CalculatorRest.

(** ** Trimmed strings *)

Lemma lstrip_split (s : pystr) :
  exists w, s = w ++ lstrip s /\ List.Forall (fun x => isspace x = true) w.
Proof.
  induction s as [|x s (w & Hs & Hw)]; [exists []; split; [reflexivity|constructor]|].
  cbn. destruct (isspace x) eqn:Hx.
  - exists (x :: w). split; [cbn; congruence|constructor; assumption].
  - exists []. split; [reflexivity|constructor].
Qed.

Lemma lstrip_head (s : pystr) (x : Z) (t : pystr) :
  lstrip s = x :: t -> isspace x = false.
Proof.
  induction s as [|y s IH]; [discriminate|].
  cbn. destruct (isspace y) eqn:Hy; [exact IH|]. now intros [= <- _].
Qed.

Lemma lstrip_fixed (x : Z) (t : pystr) :
  isspace x = false -> lstrip (x :: t) = x :: t.
Proof. intros Hx. cbn. now rewrite Hx. Qed.

Lemma lstrip_idem (s : pystr) : lstrip (lstrip s) = lstrip s.
Proof.
  destruct (lstrip s) as [|x t] eqn:E; [reflexivity|].
  apply lstrip_fixed. eapply lstrip_head, E.
Qed.

(** A string without white space at either end. *)
Definition trimmed (s : pystr) : Prop := lstrip s = s /\ lstrip (rev s) = rev s.

Lemma strip_fixed (s : pystr) : trimmed s -> strip s = s.
Proof. intros [H1 H2]. unfold strip. now rewrite H1, H2, rev_involutive. Qed.

Lemma strip_trimmed (s : pystr) : trimmed (strip s).
Proof.
  unfold strip, trimmed. set (a := lstrip s). set (b := lstrip (rev a)).
  rewrite rev_involutive. split; [|apply lstrip_idem].
  destruct b as [|x t] eqn:Eb; [reflexivity|].
  destruct (lstrip_split (rev a)) as (w & Hw & _). fold b in Hw. rewrite Eb in Hw.
  assert (Ha : a = rev (x :: t) ++ rev w).
  { rewrite <- (rev_involutive a), Hw, rev_app_distr. reflexivity. }
  destruct (rev (x :: t)) as [|y r] eqn:Er.
  { apply (f_equal (@length Z)) in Er. rewrite length_rev in Er. discriminate. }
  apply lstrip_fixed. cbn in Ha. eapply lstrip_head. exact Ha.
Qed.

Lemma strip_idem (s : pystr) : strip (strip s) = strip s.
Proof. apply strip_fixed, strip_trimmed. Qed.

(** [sub in s] holds exactly when [sub] occurs in [s]. *)
Lemma startswith_spec (s prefix : pystr) :
  startswith s prefix = true <-> exists q, s = prefix ++ q.
Proof.
  revert s. induction prefix as [|a prefix IH]; intros s.
  - split; [intros _; now exists s|intros _; now destruct s].
  - destruct s as [|b s]; cbn.
    + split; [discriminate|]. intros (q & Hq). discriminate.
    + rewrite andb_true_iff, IH, Z.eqb_eq. split.
      * intros (-> & q & ->). now exists q.
      * intros (q & [= -> ->]). split; [reflexivity|now exists q].
Qed.

Lemma str_in_spec (sub s : pystr) :
  str_in sub s = true <-> exists p q, s = p ++ sub ++ q.
Proof.
  induction s as [|x s IH]; cbn [str_in]; rewrite orb_true_iff, startswith_spec.
  - split.
    + intros [(q & Hq)|]; [|discriminate]. exists [], q. exact Hq.
    + intros (p & q & Hpq). left. destruct p; [|discriminate].
      exists q. exact Hpq.
  - rewrite IH. split.
    + intros [(q & ->)|(p & q & ->)]; [now exists [], q|now exists (x :: p), q].
    + intros ([|y p] & q & Hpq).
      * left. exists q. exact Hpq.
      * right. injection Hpq as -> ->. now exists p, q.
Qed.

(** ** Extraction of the student records *)

(** Every row of the frame has the same number of cells. *)
Definition rectangular {cell : Type} (df : list (list cell)) : Prop :=
  exists width, List.Forall (fun row => length row = width) df.

Lemma idxmax_lt (mask : list bool) :
  Pd.any mask = true -> (Pd.idxmax mask < length mask)%nat.
Proof.
  unfold Pd.idxmax. intros Hany. rewrite Hany.
  induction mask as [|b mask IH]; [discriminate|].
  cbn in *. destruct b; [lia|]. cbn in Hany. specialize (IH Hany). lia.
Qed.

Lemma idxmax_true (mask : list bool) :
  Pd.any mask = true -> mask !! Pd.idxmax mask = Some true.
Proof.
  unfold Pd.idxmax. intros Hany. rewrite Hany.
  induction mask as [|b mask IH]; [discriminate|].
  cbn in *. destruct b; [reflexivity|]. cbn in Hany. exact (IH Hany).
Qed.

Lemma idxmax_first (mask : list bool) (j : nat) :
  Pd.any mask = true -> (j < Pd.idxmax mask)%nat -> mask !! j = Some false.
Proof.
  unfold Pd.idxmax. intros Hany. rewrite Hany. revert j.
  induction mask as [|b mask IH]; [discriminate|].
  intros j Hj. cbn in *. destruct b; [lia|]. cbn in Hany.
  destruct j as [|j]; [reflexivity|]. cbn. apply (IH Hany). lia.
Qed.

Section StudentFacts.
Context {cell : Type} `{Cell cell}.
Variable str_contains : pystr -> pystr -> bool.

(** Some cell of the row contains "姓名". *)
Definition names_header (row : list cell) : bool :=
  Pd.any (Pd.row_mask str_contains row NAME).

Lemma find_header_Some (rows : list (list cell)) (i h : nat) :
  Students.find_header str_contains rows i = Some h ->
  exists k row,
    h = (i + k)%nat /\ rows !! k = Some row /\ names_header row = true
    /\ List.Forall (fun r => names_header r = false) (take k rows).
Proof.
  revert i. induction rows as [|row rows IH]; intros i; [discriminate|].
  cbn [Students.find_header]. fold (names_header row).
  destruct (names_header row) eqn:E.
  - intros [= <-]. exists 0%nat, row. repeat split; [lia|exact E|constructor].
  - intros Hh. destruct (IH _ Hh) as (k & r & -> & Hr & Hn & Hbefore).
    exists (S k), r. repeat split; [lia|exact Hr|exact Hn|].
    cbn. constructor; assumption.
Qed.

Lemma find_header_None (rows : list (list cell)) (i : nat) :
  Students.find_header str_contains rows i = None <->
  List.Forall (fun r => names_header r = false) rows.
Proof.
  revert i. induction rows as [|row rows IH]; intros i; cbn [Students.find_header].
  - split; [constructor|reflexivity].
  - fold (names_header row). destruct (names_header row) eqn:E.
    + split; [discriminate|]. intros Hall. inversion Hall; congruence.
    + rewrite IH. split; [now constructor|]. intros Hall. now inversion Hall.
Qed.

Lemma find_header_skip (pre rows : list (list cell)) (i : nat) :
  List.Forall (fun r => names_header r = false) pre ->
  Students.find_header str_contains (pre ++ rows) i
  = Students.find_header str_contains rows (i + length pre).
Proof.
  intros Hpre. revert i. induction Hpre as [|r pre Hr _ IH]; intros i.
  - cbn. f_equal. lia.
  - cbn [app Students.find_header length]. fold (names_header r). rewrite Hr, IH.
    f_equal. lia.
Qed.

Lemma find_header_shift (rows : list (list cell)) (i : nat) :
  Students.find_header str_contains rows (S i)
  = S <$> Students.find_header str_contains rows i.
Proof.
  revert i. induction rows as [|row rows IH]; intros i; [reflexivity|].
  cbn [Students.find_header]. destruct (Pd.any _); [reflexivity|]. apply IH.
Qed.

(** What one row below the header adds to the records. *)
Definition record_of (cols : nat * nat * nat) (target_class : pystr)
    (row : list cell) : option purchase :=
  let '(i_name, i_class, i_title) := cols in
  c ← row !! i_class;
  n ← row !! i_name;
  t ← row !! i_title;
  let name := strip (to_str n) in
  let title_ := strip (to_str t) in
  if str_in target_class (strip (to_str c)) && nonempty name && nonempty title_
  then Some (Purchase name title_) else None.

(** The row has a cell in each of the three columns. *)
Definition has_columns (cols : nat * nat * nat) (row : list cell) : Prop :=
  let '(i_name, i_class, i_title) := cols in
  is_Some (row !! i_name) /\ is_Some (row !! i_class) /\ is_Some (row !! i_title).

Lemma collect_omap (cols : nat * nat * nat) (target_class : pystr)
    (rows : list (list cell)) (acc : list purchase) :
  List.Forall (has_columns cols) rows ->
  Students.collect cols target_class rows acc
  = Students (acc ++ omap (record_of cols target_class) rows).
Proof.
  destruct cols as [[i_name i_class] i_title].
  intros Hrows. revert acc. induction Hrows as [|row rows Hrow _ IH]; intros acc.
  - cbn. now rewrite app_nil_r.
  - destruct Hrow as ([n Hn] & [c Hc] & [t Ht]).
    cbn [Students.collect omap list_omap]. unfold Students.at_column, record_of.
    rewrite Hc, Hn, Ht. cbn [mbind student_result_bind option_bind].
    destruct (str_in target_class (strip (to_str c))); cbn [andb].
    + cbn [student_name purchase_title].
      destruct (nonempty (strip (to_str n)) && nonempty (strip (to_str t)));
        rewrite IH; [now rewrite <- app_assoc|reflexivity].
    + apply IH.
Qed.

Lemma collect_raises (cols : nat * nat * nat) (target_class : pystr)
    (rows : list (list cell)) (acc : list purchase) (e : student_exn) :
  Students.collect cols target_class rows acc = StudentRaise e ->
  e = StudentIndexError.
Proof.
  destruct cols as [[i_name i_class] i_title].
  revert acc. induction rows as [|row rows IH]; intros acc; [discriminate|].
  cbn [Students.collect]. unfold Students.at_column.
  destruct (row !! i_class) as [c|]; cbn [mbind student_result_bind];
    [|now intros [= <-]].
  destruct (str_in target_class (strip (to_str c))); [|apply IH].
  destruct (row !! i_name) as [n|]; cbn [mbind student_result_bind];
    [|now intros [= <-]].
  destruct (row !! i_title) as [t|]; cbn [mbind student_result_bind];
    [|now intros [= <-]].
  destruct (_ && _); apply IH.
Qed.

(** A record that [collect] adds is never empty in a field, and both its
    fields are trimmed. *)
Definition well_formed_record (r : purchase) : Prop :=
  student_name r <> [] /\ purchase_title r <> []
  /\ strip (student_name r) = student_name r
  /\ strip (purchase_title r) = purchase_title r.

Lemma collect_well_formed (cols : nat * nat * nat) (target_class : pystr)
    (rows : list (list cell)) (acc out : list purchase) :
  List.Forall well_formed_record acc ->
  Students.collect cols target_class rows acc = Students out ->
  List.Forall well_formed_record out.
Proof.
  destruct cols as [[i_name i_class] i_title].
  revert acc. induction rows as [|row rows IH]; intros acc Hacc;
    [now intros [= <-]|].
  cbn [Students.collect]. unfold Students.at_column.
  destruct (row !! i_class) as [c|]; cbn [mbind student_result_bind]; [|discriminate].
  destruct (str_in target_class (strip (to_str c))); [|now apply IH].
  destruct (row !! i_name) as [n|]; cbn [mbind student_result_bind]; [|discriminate].
  destruct (row !! i_title) as [t|]; cbn [mbind student_result_bind]; [|discriminate].
  cbn [student_name purchase_title].
  destruct (nonempty (strip (to_str n))) eqn:En;
    destruct (nonempty (strip (to_str t))) eqn:Et; cbn [andb]; try now apply IH.
  apply IH. apply Forall_app. split; [exact Hacc|]. constructor; [|constructor].
  repeat split; cbn; try apply strip_idem.
  - intros E. now rewrite E in En.
  - intros E. now rewrite E in Et.
Qed.

End StudentFacts.

Section StudentTheorems.
Context {cell : Type} `{Cell cell}.
Variable str_contains : pystr -> pystr -> bool.

Lemma find_header_plus (rows : list (list cell)) (i n : nat) :
  Students.find_header str_contains rows (n + i)
  = (fun h => (n + h)%nat) <$> Students.find_header str_contains rows i.
Proof.
  induction n as [|n IH]; cbn [Nat.add].
  - now destruct (Students.find_header str_contains rows i).
  - rewrite find_header_shift, IH.
    now destruct (Students.find_header str_contains rows i).
Qed.

(** The reporter returns what the calculator returns, inside its own
    error. *)
Lemma reporter_process_student_excel_wraps (df : Pd.frame) (target_class : pystr) :
  ReporterRest.process_student_excel str_contains df target_class
  = student_rewrap (CalculatorRest.process_student_excel str_contains df target_class).
Proof. reflexivity. Qed.

Lemma locate_columns_post (df : Pd.frame) (header_row : nat) (cols : nat * nat * nat) :
  Students.locate_columns str_contains df = Students (header_row, cols) ->
  exists header,
    df !! header_row = Some header
    /\ names_header str_contains header = true
    /\ List.Forall (fun r => names_header str_contains r = false) (take header_row df)
    /\ let '(i_name, i_class, i_title) := cols in
       (i_name < length header)%nat /\ (i_class < length header)%nat
       /\ (i_title < length header)%nat.
Proof.
  unfold Students.locate_columns.
  destruct (Students.find_header str_contains df 0) as [h|] eqn:Eh; [|discriminate].
  destruct (find_header_Some str_contains df 0 h Eh) as (k & row & -> & Hrow & Hn & Hb).
  cbn [Nat.add]. unfold Pd.frame in *. rewrite Hrow.
  unfold Students.require_column.
  destruct (Pd.any (Pd.row_mask str_contains row NAME)) eqn:E1;
    cbn [mbind student_result_bind]; [|discriminate].
  destruct (Pd.any (Pd.row_mask str_contains row CLASS_TOKEN)) eqn:E2;
    cbn [mbind student_result_bind]; [|discriminate].
  destruct (Pd.any (Pd.row_mask str_contains row TITLE)) eqn:E3;
    cbn [mbind student_result_bind]; [|discriminate].
  intros [= <- <-]. exists row. repeat split; try assumption.
  all: match goal with
       | E : Pd.any ?m = true |- (Pd.idxmax ?m < _)%nat =>
           pose proof (idxmax_lt m E) as Hlt;
           unfold Pd.row_mask in Hlt; now rewrite length_map in Hlt
       end.
Qed.

Lemma calculator_student_records_post (df : Pd.frame) (target_class : pystr)
    (student_records : list purchase) :
  CalculatorRest.process_student_excel str_contains df target_class
  = Students student_records ->
  student_records <> [] /\ List.Forall well_formed_record student_records.
Proof.
  intros Hret. unfold CalculatorRest.process_student_excel in Hret.
  destruct (Students.locate_columns str_contains df) as [[hdr cols]|];
    cbn [mbind student_result_bind] in Hret; [|discriminate].
  destruct (Students.collect cols target_class (drop (S hdr) df) [])
    as [rs|] eqn:Ecollect; cbn [mbind student_result_bind] in Hret; [|discriminate].
  destruct rs as [|r rs]; [discriminate|]. injection Hret as <-.
  split; [discriminate|].
  eapply collect_well_formed; [|exact Ecollect]. constructor.
Qed.

(** X20. The records of [process_student_excel]: when it returns, the list
    is not empty, no record has an empty name or an empty title, and the
    name and the title of every record are trimmed, so that the [strip] of
    [calculate_student_payments] leaves them as they are. *)
Theorem student_records_are_well_formed (df : Pd.frame) (target_class : pystr)
    (student_records : list purchase) :
  CalculatorRest.process_student_excel str_contains df target_class
  = Students student_records ->
  ReporterRest.process_student_excel str_contains df target_class
  = Students student_records
  /\ student_records <> []
  /\ List.Forall well_formed_record student_records.
Proof.
  intros Hret. rewrite reporter_process_student_excel_wraps, Hret.
  split; [reflexivity|]. now apply (calculator_student_records_post df target_class).
Qed.

(** X21. The rows that count. Once the header row and the three columns
    are located in a frame whose rows reach these columns, the records are
    those of the rows below the header, in sheet order, whose class cell,
    trimmed, contains the target class as a substring and whose trimmed name
    and title are both non-empty; the other rows are dropped silently; no
    such row is the error that names the class. *)
Theorem student_records_by_row (df : Pd.frame) (target_class : pystr)
    (header_row : nat) (cols : nat * nat * nat) :
  Students.locate_columns str_contains df = Students (header_row, cols) ->
  List.Forall (has_columns cols) (drop (S header_row) df) ->
  let kept := omap (record_of cols target_class) (drop (S header_row) df) in
  let outcome :=
    match kept with
    | [] => StudentRaise (NoStudentRecords target_class)
    | _ :: _ => Students kept
    end in
  CalculatorRest.process_student_excel str_contains df target_class = outcome
  /\ ReporterRest.process_student_excel str_contains df target_class
     = student_rewrap outcome.
Proof.
  intros Hloc Hrows kept outcome.
  assert (Hc : CalculatorRest.process_student_excel str_contains df target_class
               = outcome).
  { unfold CalculatorRest.process_student_excel. rewrite Hloc.
    cbn [mbind student_result_bind]. rewrite (collect_omap _ _ _ _ Hrows).
    cbn [mbind student_result_bind app]. reflexivity. }
  split; [exact Hc|]. now rewrite reporter_process_student_excel_wraps, Hc.
Qed.

(** X22. The ways [process_student_excel] ends on a rectangular frame: it
    returns a non-empty list, or no row has a cell with "姓名", or the
    header row lacks "班级", or it has "班级" and lacks "教材名称", or no
    record is kept. The error of a missing "姓名" column is never raised (the
    header row is found by this very token), nor is an index error. *)
Theorem student_extraction_outcomes (df : Pd.frame) (target_class : pystr) :
  rectangular df ->
  match CalculatorRest.process_student_excel str_contains df target_class with
  | Students student_records => student_records <> []
  | StudentRaise e =>
      (e = NameHeaderNotFound
       /\ List.Forall (fun r => names_header str_contains r = false) df)
      \/ e = StudentColumnMissing CLASS_TOKEN
      \/ e = StudentColumnMissing TITLE
      \/ e = NoStudentRecords target_class
  end.
Proof.
  intros (width & Hwidth).
  destruct (CalculatorRest.process_student_excel str_contains df target_class)
    as [rs|e] eqn:E.
  { now destruct (calculator_student_records_post df target_class rs E). }
  unfold CalculatorRest.process_student_excel in E.
  destruct (Students.locate_columns str_contains df) as [[hdr cols]|e'] eqn:Eloc;
    cbn [mbind student_result_bind] in E.
  - destruct (locate_columns_post df hdr cols Eloc) as (header & Hh & _ & _ & Hcols).
    assert (Hw : length header = width).
    { apply list_elem_of_lookup_2 in Hh. rewrite List.Forall_forall in Hwidth.
      apply Hwidth. now apply list_elem_of_In. }
    assert (Hrows : List.Forall (has_columns cols) (drop (S hdr) df)).
    { eapply List.Forall_impl; [|apply (Forall_drop _ (S hdr) _ Hwidth)].
      cbn beta. intros row Hlen.
      destruct cols as [[i_name i_class] i_title]. cbn [has_columns].
      rewrite !lookup_lt_is_Some. lia. }
    rewrite (collect_omap _ _ _ _ Hrows) in E.
    cbn [mbind student_result_bind app] in E.
    destruct (omap _ _); [|discriminate]. injection E as <-. auto.
  - injection E as <-. unfold Students.locate_columns in Eloc.
    destruct (Students.find_header str_contains df 0) as [h|] eqn:Eh.
    + destruct (find_header_Some str_contains df 0 h Eh)
        as (k & row & -> & Hrow & Hn & _).
      cbn [Nat.add] in Eloc. unfold Pd.frame in *. rewrite Hrow in Eloc.
      unfold Students.require_column in Eloc.
      unfold names_header in Hn. rewrite Hn in Eloc.
      cbn [mbind student_result_bind] in Eloc.
      destruct (Pd.any (Pd.row_mask str_contains row CLASS_TOKEN));
        cbn [mbind student_result_bind] in Eloc; [|injection Eloc as <-; auto].
      destruct (Pd.any (Pd.row_mask str_contains row TITLE));
        cbn [mbind student_result_bind] in Eloc; [discriminate|].
      injection Eloc as <-. auto.
    + injection Eloc as <-. left. split; [reflexivity|].
      now apply (find_header_None str_contains df 0).
Qed.

(** X23. Rows above the header do not count: rows without "姓名" put in
    front of a frame change nothing in what [process_student_excel]
    returns or raises, even when they name the target class. *)
Theorem rows_above_header_are_ignored (pre df : Pd.frame) (target_class : pystr) :
  List.Forall (fun r => names_header str_contains r = false) pre ->
  CalculatorRest.process_student_excel str_contains (pre ++ df) target_class
  = CalculatorRest.process_student_excel str_contains df target_class
  /\ ReporterRest.process_student_excel str_contains (pre ++ df) target_class
     = ReporterRest.process_student_excel str_contains df target_class.
Proof.
  intros Hpre.
  assert (Hc : CalculatorRest.process_student_excel str_contains (pre ++ df) target_class
               = CalculatorRest.process_student_excel str_contains df target_class).
  { unfold CalculatorRest.process_student_excel, Students.locate_columns.
    rewrite (find_header_skip str_contains pre df 0 Hpre). cbn [Nat.add].
    rewrite <- (Nat.add_0_r (length pre)), find_header_plus.
    destruct (Students.find_header str_contains df 0) as [h|] eqn:Eh; [|reflexivity].
    cbn [fmap option_fmap option_map]. unfold Pd.frame in *.
    rewrite lookup_app_r by lia.
    replace (length pre + h - length pre)%nat with h by lia.
    destruct (df !! h) as [header|]; [|reflexivity].
    destruct (Students.require_column str_contains header NAME);
      cbn [mbind student_result_bind]; [|reflexivity].
    destruct (Students.require_column str_contains header CLASS_TOKEN);
      cbn [mbind student_result_bind]; [|reflexivity].
    destruct (Students.require_column str_contains header TITLE);
      cbn [mbind student_result_bind]; [|reflexivity].
    rewrite drop_app_ge by lia.
    replace (S (length pre + h) - length pre)%nat with (S h) by lia.
    reflexivity. }
  split; [exact Hc|]. now rewrite !reporter_process_student_excel_wraps, Hc.
Qed.

End StudentTheorems.

(** ** The price maps, read off the list of books *)

Section PriceMapFacts.
Variable isalnum : Z -> bool.

(** The keys under which [calculate_student_payments] stores a book. *)
Definition raw_key (b : book) : pystr := strip (book_title b).

Definition fmt1_key (b : book) : pystr :=
  Reporter.str_format_1 (strip (book_title b)).

Definition fmt2_key (b : book) : pystr :=
  Reporter.str_format_2 isalnum (strip (book_title b)).

(** The price of the last book of the list whose key is [k]. *)
Definition last_listed (key : book -> pystr) (k : pystr) (books : list book)
  : option float :=
  book_price <$> list.last (List.filter (fun b => bool_decide (key b = k)) books).

Lemma build_price_maps_snoc (books : list book) (b : book) :
  Reporter.build_price_maps isalnum (books ++ [b])
  = Reporter.add_book isalnum (Reporter.build_price_maps isalnum books) b.
Proof. unfold Reporter.build_price_maps. now rewrite fold_left_app. Qed.

Lemma last_listed_snoc (key : book -> pystr) (k : pystr) (books : list book)
    (b : book) :
  last_listed key k (books ++ [b])
  = if bool_decide (key b = k) then Some (book_price b) else last_listed key k books.
Proof.
  unfold last_listed. rewrite List.filter_app. cbn [List.filter].
  case_bool_decide.
  - now rewrite last_snoc.
  - now rewrite app_nil_r.
Qed.

Lemma last_listed_None (key : book -> pystr) (k : pystr) (books : list book) :
  last_listed key k books = None <-> List.Forall (fun b => key b <> k) books.
Proof.
  induction books as [|b books IH] using rev_ind.
  - split; [constructor|reflexivity].
  - rewrite last_listed_snoc, List.Forall_app. case_bool_decide as Hk.
    + split; [discriminate|]. intros [_ Hb]. inversion Hb; contradiction.
    + rewrite IH. split; [|tauto]. intros Hbooks. split; [exact Hbooks|].
      now constructor.
Qed.

Lemma last_listed_at (key : book -> pystr) (k : pystr)
    (before after : list book) (b : book) :
  key b = k -> List.Forall (fun b' => key b' <> k) after ->
  last_listed key k (before ++ b :: after) = Some (book_price b).
Proof.
  intros Hb. induction after as [|b' after IH] using rev_ind; intros Hafter.
  - now rewrite last_listed_snoc, bool_decide_eq_true_2.
  - apply List.Forall_app in Hafter as [Hafter Hb']. inversion Hb'; subst.
    change (before ++ b :: after ++ [b']) with (before ++ (b :: after) ++ [b']).
    rewrite app_assoc, last_listed_snoc, bool_decide_eq_false_2 by assumption.
    now apply IH.
Qed.

Lemma build_price_maps_lookup (books : list book) (k : pystr) :
  let pm := Reporter.build_price_maps isalnum books in
  raw_name pm !! k = last_listed raw_key k books
  /\ fmt1_name pm !! k = last_listed fmt1_key k books
  /\ fmt2_name pm !! k = last_listed fmt2_key k books.
Proof.
  cbv zeta. induction books as [|b books (IH0 & IH1 & IH2)] using rev_ind.
  - unfold Reporter.build_price_maps, last_listed. cbn.
    now rewrite !lookup_empty.
  - rewrite build_price_maps_snoc, !last_listed_snoc.
    unfold Reporter.add_book. cbv zeta. cbn [raw_name fmt1_name fmt2_name].
    fold (raw_key b) (fmt1_key b) (fmt2_key b).
    repeat split; case_bool_decide as Hk;
      try (subst k; now rewrite lookup_insert_eq);
      rewrite lookup_insert_ne by assumption; assumption.
Qed.

End PriceMapFacts.

Section ResolutionFacts.
Variable isalnum : Z -> bool.

(** X9. Insert and lookup in the three price maps: the price found under
    a key is the price of the last book of the list stored under this key,
    at each tier; a later book with the same key overwrites an earlier one.
    The maps of the calculator, when it builds them, are the same. *)
Theorem price_maps_last_write_wins (books : list book) (k : pystr) :
  let stored (pm : price_maps) :=
    raw_name pm !! k = last_listed raw_key k books
    /\ fmt1_name pm !! k = last_listed fmt1_key k books
    /\ fmt2_name pm !! k = last_listed (fmt2_key isalnum) k books in
  stored (Reporter.build_price_maps isalnum books)
  /\ forall fuel pm,
       Calculator.build_price_maps isalnum fuel books no_prices = Some pm ->
       stored pm.
Proof.
  cbv zeta. split; [apply build_price_maps_lookup|].
  intros fuel pm Hpm. apply calculator_build_price_maps_sound in Hpm. subst pm.
  apply build_price_maps_lookup.
Qed.

(** X10. A purchase whose trimmed title is the trimmed title of a listed
    book is never unmatched in the reporter: it is charged the price of the
    last such book of the list, a price of zero included, whatever the
    other books are and whatever they match at Tier 1 or Tier 2. *)
Theorem exact_title_is_charged_last_listed_price (before after : list book)
    (b : book) (stu : purchase) :
  strip (book_title b) = strip (purchase_title stu) ->
  List.Forall (fun b' => strip (book_title b') <> strip (purchase_title stu)) after ->
  reporter_price isalnum
    (Reporter.build_price_maps isalnum (before ++ b :: after)) stu
  = Some (book_price b).
Proof.
  intros Hb Hafter.
  unfold reporter_price, Reporter.matched_price. cbv zeta.
  destruct (build_price_maps_lookup isalnum (before ++ b :: after)
              (strip (purchase_title stu))) as (-> & _ & _).
  now rewrite (last_listed_at raw_key _ before after b Hb Hafter).
Qed.

(** X11. A purchase is unmatched in the reporter exactly when no book of
    the list has its Tier-1 key or its Tier-2 key; with an empty list of
    books every purchase is unmatched. *)
Theorem unmatched_iff_no_book_shares_a_key (books : list book) (stu : purchase) :
  let book_name := strip (purchase_title stu) in
  reporter_price isalnum (Reporter.build_price_maps isalnum books) stu = None
  <-> List.Forall
        (fun b => fmt1_key b <> Reporter.str_format_1 book_name
                  /\ fmt2_key isalnum b <> Reporter.str_format_2 isalnum book_name)
        books.
Proof.
  cbv zeta. unfold reporter_price, Reporter.matched_price. cbv zeta.
  set (book_name := strip (purchase_title stu)).
  destruct (build_price_maps_lookup isalnum books book_name) as (-> & _ & _).
  destruct (build_price_maps_lookup isalnum books (Reporter.str_format_1 book_name))
    as (_ & -> & _).
  destruct (build_price_maps_lookup isalnum books
              (Reporter.str_format_2 isalnum book_name)) as (_ & _ & ->).
  pose proof (last_listed_None raw_key book_name books) as H0.
  pose proof (last_listed_None fmt1_key (Reporter.str_format_1 book_name) books) as H1.
  pose proof (last_listed_None (fmt2_key isalnum)
                (Reporter.str_format_2 isalnum book_name) books) as H2.
  rewrite List.Forall_forall in H0, H1, H2. rewrite List.Forall_forall.
  split.
  - intros Hnone b Hb.
    destruct (last_listed raw_key book_name books); [discriminate|].
    destruct (last_listed fmt1_key _ books); [discriminate|].
    split; [now apply H1|now apply H2].
  - intros Hkeys.
    assert (E1 : last_listed fmt1_key (Reporter.str_format_1 book_name) books = None)
      by (apply H1; intros b Hb; now apply Hkeys).
    assert (E2 : last_listed (fmt2_key isalnum)
                   (Reporter.str_format_2 isalnum book_name) books = None)
      by (apply H2; intros b Hb; now apply Hkeys).
    assert (E0 : last_listed raw_key book_name books = None).
    { apply H0. intros b Hb Hraw. apply (proj1 (Hkeys b Hb)).
      unfold fmt1_key. unfold raw_key in Hraw. now rewrite Hraw. }
    now rewrite E0, E1, E2.
Qed.

End ResolutionFacts.

(** ** Titles up to surrounding white space, and the rows of the result *)

(** The same books and the same records, up to the white space around the
    titles. *)
Definition same_book (b b' : book) : Prop :=
  strip (book_title b) = strip (book_title b') /\ book_price b = book_price b'.

Definition same_purchase (s s' : purchase) : Prop :=
  student_name s = student_name s'
  /\ strip (purchase_title s) = strip (purchase_title s').

Lemma fold_left_Forall2 {A B : Type} (f : A -> B -> A) (l l' : list B) (a : A) :
  Forall2 (fun x x' => forall a, f a x = f a x') l l' ->
  fold_left f l a = fold_left f l' a.
Proof.
  intros Hl. revert a. induction Hl as [|x x' l l' Hx _ IH]; intros a; [reflexivity|].
  cbn. now rewrite Hx, IH.
Qed.

Section TrimFacts.
Variable isalnum : Z -> bool.

Lemma reporter_build_same (books books' : list book) :
  Forall2 same_book books books' ->
  Reporter.build_price_maps isalnum books = Reporter.build_price_maps isalnum books'.
Proof.
  intros Hb. apply fold_left_Forall2.
  eapply Forall2_impl; [|exact Hb]. intros b b' [Ht Hp] pm.
  unfold Reporter.add_book. cbv zeta. now rewrite Ht, Hp.
Qed.

Lemma calculator_build_same (fuel : nat) (books books' : list book)
    (pm : price_maps) :
  Forall2 same_book books books' ->
  Calculator.build_price_maps isalnum fuel books pm
  = Calculator.build_price_maps isalnum fuel books' pm.
Proof.
  intros Hb. revert pm. induction Hb as [|b b' books books' [Ht Hp] _ IH]; intros pm;
    [reflexivity|].
  cbn [Calculator.build_price_maps]. unfold Calculator.add_book. cbv zeta.
  rewrite Ht, Hp.
  destruct (Calculator.str_format_2 isalnum fuel _); [|reflexivity].
  cbn [mbind option_bind]. apply IH.
Qed.

Lemma calculator_scan_all_same (fuel : nat) (pm : price_maps)
    (students students' : list purchase) (st : Calculator.scan_state) :
  Forall2 same_purchase students students' ->
  Calculator.scan_all isalnum fuel pm st students
  = Calculator.scan_all isalnum fuel pm st students'.
Proof.
  intros Hs. revert st. induction Hs as [|s s' students students' [Hn Ht] _ IH];
    intros st; [reflexivity|].
  cbn [Calculator.scan_all]. unfold Calculator.scan. cbv zeta.
  rewrite Hn, Ht.
  destruct (Calculator.str_format_2 isalnum fuel _); [|reflexivity].
  cbn [mbind option_bind]. destruct (Calculator.price _ _ _ _); apply IH.
Qed.

Lemma reporter_calculate_same (books books' : list book)
    (students students' : list purchase) :
  Forall2 same_book books books' ->
  Forall2 same_purchase students students' ->
  Reporter.calculate_student_payments isalnum books students
  = Reporter.calculate_student_payments isalnum books' students'.
Proof.
  intros Hb Hs. unfold Reporter.calculate_student_payments. cbv zeta.
  rewrite (reporter_build_same _ _ Hb).
  rewrite (fold_left_Forall2 _ students students'); [reflexivity|].
  eapply Forall2_impl; [|exact Hs]. intros s s' [Hn Ht] st.
  unfold Reporter.scan. cbv zeta. now rewrite Hn, Ht.
Qed.

(** X15. White space around a title never matters to either program: two
    lists of books with the same prices and the same titles up to leading
    and trailing white space, and two lists of records with the same names
    and the same titles up to such white space, give the same result, be it
    the fees or the error with its lines. *)
Theorem white_space_around_titles_is_ignored (books books' : list book)
    (students students' : list purchase) :
  Forall2 same_book books books' ->
  Forall2 same_purchase students students' ->
  Reporter.calculate_student_payments isalnum books students
  = Reporter.calculate_student_payments isalnum books' students'
  /\ forall fuel,
       Calculator.calculate_student_payments isalnum fuel books students
       = Calculator.calculate_student_payments isalnum fuel books' students'.
Proof.
  intros Hb Hs. split; [now apply reporter_calculate_same|].
  intros fuel. unfold Calculator.calculate_student_payments.
  rewrite (calculator_build_same fuel _ _ _ Hb).
  destruct (Calculator.build_price_maps isalnum fuel books' no_prices) as [pm|];
    [|reflexivity].
  cbn [mbind option_bind]. now rewrite (calculator_scan_all_same fuel pm _ _ _ Hs).
Qed.

Lemma reporter_bought_names (pm : price_maps) (students : list purchase) :
  reporter_missing isalnum pm students = [] ->
  map fst (reporter_bought isalnum pm students) = map student_name students.
Proof.
  induction students as [|stu students IH]; [reflexivity|].
  unfold reporter_missing, reporter_bought. cbn [omap list_omap].
  fold (reporter_missing isalnum pm students).
  fold (reporter_bought isalnum pm students).
  destruct (reporter_price isalnum pm stu); [|discriminate].
  cbn [mbind option_bind map fst]. intros Hm. now rewrite IH.
Qed.

(** The loop of the calculator, whatever the prices: the totals are those
    of the records it priced, and a run that lists no unmatched record has
    priced them all. *)
Lemma calculator_scan_all_tally (fuel : nat) (pm : price_maps)
    (students : list purchase) (st st' : Calculator.scan_state) :
  Calculator.scan_all isalnum fuel pm st students = Some st' ->
  exists (b : bought) (lines : list pystr),
    Calculator.totals st' = tally (Calculator.totals st) b
    /\ Calculator.unmatched st' = Calculator.unmatched st ++ lines
    /\ (lines = [] -> map fst b = map student_name students).
Proof.
  revert st. induction students as [|stu students IH]; intros st.
  - cbn. intros [= <-]. exists [], []. now rewrite app_nil_r.
  - cbn [Calculator.scan_all].
    destruct (Calculator.scan isalnum fuel pm st stu) as [st1|] eqn:E; [|discriminate].
    cbn [mbind option_bind]. intros Hrest.
    apply IH in Hrest as (b & lines & Ht & Hu & Hb).
    unfold Calculator.scan in E. cbv zeta in E.
    destruct (Calculator.str_format_2 isalnum fuel _) as [fmt2|]; [|discriminate].
    cbn [mbind option_bind] in E.
    destruct (Calculator.price pm _ _ fmt2) as [p|]; injection E as <-;
      cbn [Calculator.totals Calculator.unmatched] in Ht, Hu.
    + exists ((student_name stu, p) :: b), lines. repeat split; [exact Ht|exact Hu|].
      intros Hl. cbn [map fst]. now rewrite (Hb Hl).
    + eexists b, (_ :: lines). repeat split; [exact Ht| |discriminate].
      rewrite Hu, <- app_assoc. reflexivity.
Qed.

(** X14. One row per student. When either program returns fees, the names
    of the rows are the names of the records in the order of their first
    appearance, each once: no student of the records is left out and no
    name is repeated. *)
Theorem one_row_per_student (books : list book) (students : list purchase)
    (fees : payments) :
  Reporter.calculate_student_payments isalnum books students = Return fees
  \/ (exists fuel flag,
        Calculator.calculate_student_payments isalnum fuel books students
        = Some (Return (fees, flag))) ->
  map fst fees = first_seen (map student_name students)
  /\ NoDup (map fst fees)
  /\ forall stu, stu ∈ students -> student_name stu ∈ map fst fees.
Proof.
  intros Hret.
  assert (Hnames : map fst fees = first_seen (map student_name students)).
  { destruct Hret as [Hr|(fuel & flag & Hc)].
    - rewrite reporter_calculate_spec in Hr. cbv zeta in Hr.
      destruct (reporter_missing isalnum _ students) eqn:Hm; [|discriminate].
      injection Hr as <-. rewrite map_map. cbn [fst]. rewrite map_id.
      now rewrite (reporter_bought_names _ _ Hm).
    - unfold Calculator.calculate_student_payments in Hc.
      destruct (Calculator.build_price_maps isalnum fuel books no_prices) as [pm|];
        [|discriminate].
      cbn [mbind option_bind] in Hc.
      destruct (Calculator.scan_all isalnum fuel pm _ students) as [st|] eqn:Escan;
        [|discriminate].
      cbn [mbind option_bind] in Hc.
      apply calculator_scan_all_tally in Escan as (b & lines & Ht & Hu & Hb).
      cbn [Calculator.totals Calculator.unmatched app] in Ht, Hu.
      destruct (Calculator.unmatched st); [|discriminate].
      injection Hc as <- _. rewrite Ht, tally_spec, !map_map. cbn [fst].
      rewrite map_id. now rewrite (Hb (eq_sym Hu)). }
  rewrite Hnames. split; [reflexivity|]. split; [apply first_seen_NoDup|].
  intros stu Hstu. apply first_seen_elem, list_elem_of_fmap. now exists stu.
Qed.

End TrimFacts.

(** ** What the bracket loops remove *)

Lemma cut_sublist (s : pystr) (i j : nat) :
  (i <= j)%nat -> sublist (take i s ++ drop j s) s.
Proof.
  intros Hij. rewrite <- (take_drop i s) at 3.
  apply sublist_app; [reflexivity|].
  replace j with (i + (j - i))%nat by lia.
  rewrite <- drop_drop. apply sublist_drop.
Qed.

Lemma filter_sublist_mono {A : Type} (f : A -> bool) (r s : list A) :
  sublist r s -> sublist (List.filter f r) (List.filter f s).
Proof.
  induction 1 as [|x r s _ IH|x r s _ IH]; cbn.
  - constructor.
  - destruct (f x); [now constructor|exact IH].
  - destruct (f x); [now constructor|exact IH].
Qed.

Lemma filter_sublist_weaken {A : Type} (f g : A -> bool) (s : list A) :
  (forall x, f x = true -> g x = true) ->
  sublist (List.filter f s) (List.filter g s).
Proof.
  intros Hfg. induction s as [|x s IH]; cbn; [constructor|].
  destruct (f x) eqn:Ef.
  - rewrite (Hfg x Ef). now constructor.
  - destruct (g x); [now constructor|exact IH].
Qed.

Lemma filter_sublist_self {A : Type} (f : A -> bool) (s : list A) :
  sublist (List.filter f s) s.
Proof.
  induction s as [|x s IH]; cbn; [constructor|].
  destruct (f x); now constructor.
Qed.

(** One round of the loop cuts the string from the first opening bracket
    to the first closing one. *)
Lemma cut_first_span (o c : Z) (p m q : pystr) :
  o <> c ->
  contains o p = false -> contains c p = false -> contains c m = false ->
  let s := p ++ o :: m ++ c :: q in
  contains o s && contains c s = true
  /\ (find s o <? find s c) = true
  /\ slice_to s (find s o) ++ slice_from s (find s c + 1) = p ++ q.
Proof.
  intros Hoc Hop Hcp Hcm s.
  assert (Ho : find s o = Z.of_nat (length p)) by now apply find_split.
  assert (Hc : find s c = Z.of_nat (length (p ++ o :: m))).
  { subst s. replace (p ++ o :: m ++ c :: q) with ((p ++ o :: m) ++ c :: q)
      by now rewrite <- app_assoc.
    apply find_split. rewrite contains_app, Hcp. cbn.
    destruct (Z.eqb_spec c o); [congruence|exact Hcm]. }
  split; [|split].
  - apply andb_true_iff. split; [apply contains_here|].
    subst s. replace (p ++ o :: m ++ c :: q) with ((p ++ o :: m) ++ c :: q)
      by now rewrite <- app_assoc.
    apply contains_here.
  - apply Z.ltb_lt. rewrite Ho, Hc, length_app. cbn [length]. lia.
  - rewrite Ho, Hc. unfold slice_to, slice_from, index_of_slice.
    destruct (Z.ltb_spec (Z.of_nat (length p)) 0); [lia|].
    destruct (Z.ltb_spec (Z.of_nat (length (p ++ o :: m)) + 1) 0); [lia|].
    rewrite Nat2Z.id.
    replace (Z.to_nat (Z.of_nat (length (p ++ o :: m)) + 1))
      with (length ((p ++ o :: m) ++ [c]))
      by (rewrite (length_app _ [c]); cbn [length]; lia).
    subst s. rewrite take_app_length.
    replace (p ++ o :: m ++ c :: q) with (((p ++ o :: m) ++ [c]) ++ q)
      by now rewrite <- !app_assoc.
    now rewrite drop_app_length.
Qed.

Lemma reporter_strip_spans_sublist (o c : Z) (s : pystr) :
  sublist (Reporter.strip_spans o c s) s.
Proof.
  remember (length s) as n eqn:Hn. revert s Hn.
  induction n as [n IH] using lt_wf_ind. intros s Hn.
  rewrite reporter_strip_spans_unfold.
  destruct (contains o s && contains c s) eqn:Hin; [|reflexivity].
  destruct (find s o <? find s c) eqn:Hlt; [|reflexivity].
  pose proof (cut_span_shorter o c s Hin Hlt) as Hshort.
  etransitivity; [eapply IH; [|reflexivity]; lia|].
  apply andb_true_iff in Hin as [Ho Hc]. apply Z.ltb_lt in Hlt.
  pose proof (find_bounds o s Ho). pose proof (find_bounds c s Hc).
  unfold slice_to, slice_from, index_of_slice.
  destruct (Z.ltb_spec (find s o) 0); [lia|].
  destruct (Z.ltb_spec (find s c + 1) 0); [lia|].
  apply cut_sublist. lia.
Qed.

Lemma reporter_strip_spans_stops (o c : Z) (s : pystr) :
  let r := Reporter.strip_spans o c s in
  contains o r && contains c r = true -> find r c <= find r o.
Proof.
  cbv zeta. remember (length s) as n eqn:Hn. revert s Hn.
  induction n as [n IH] using lt_wf_ind. intros s Hn.
  rewrite reporter_strip_spans_unfold.
  destruct (contains o s && contains c s) eqn:Hin; [|congruence].
  destruct (find s o <? find s c) eqn:Hlt.
  - pose proof (cut_span_shorter o c s Hin Hlt) as Hshort.
    eapply IH; [|reflexivity]. lia.
  - intros _. apply Z.ltb_ge in Hlt. exact Hlt.
Qed.

(** X4. What the bracket loop of the reporter's [str_format_2] leaves:
    a subsequence of its input in which no opening bracket comes before the
    first closing one, and on which the loop changes nothing more. The loop
    only deletes; it never reorders or adds a character. *)
Theorem reporter_bracket_loop_result (o c : Z) (s : pystr) :
  let r := Reporter.strip_spans o c s in
  sublist r s
  /\ (contains o r && contains c r = false \/ find r c <= find r o)
  /\ Reporter.strip_spans o c r = r.
Proof.
  cbv zeta. split; [apply reporter_strip_spans_sublist|].
  pose proof (reporter_strip_spans_stops o c s) as Hstop. cbv zeta in Hstop.
  destruct (contains o (Reporter.strip_spans o c s)
            && contains c (Reporter.strip_spans o c s)) eqn:Hin.
  - split; [right; now apply Hstop|].
    apply reporter_strip_spans_unbalanced. now apply Hstop.
  - split; [now left|]. now apply reporter_strip_spans_absent.
Qed.

(** X5. The first span goes with its content. When the first opening
    bracket comes before the first closing one, one round of the loop
    removes both and all that lies between them, further opening brackets
    included, and the loop goes on with the rest: in both programs. *)
Theorem first_span_is_removed (o c : Z) (p m q : pystr) :
  o <> c ->
  contains o p = false -> contains c p = false -> contains c m = false ->
  Reporter.strip_spans o c (p ++ o :: m ++ c :: q) = Reporter.strip_spans o c (p ++ q)
  /\ forall fuel,
       Calculator.strip_spans (S fuel) o c (p ++ o :: m ++ c :: q)
       = Calculator.strip_spans fuel o c (p ++ q).
Proof.
  intros Hoc Hop Hcp Hcm.
  destruct (cut_first_span o c p m q Hoc Hop Hcp Hcm) as (Hin & Hlt & Hcut).
  cbv zeta in Hin, Hlt, Hcut. split.
  - rewrite reporter_strip_spans_unfold at 1. now rewrite Hin, Hlt, Hcut.
  - intros fuel. cbn [Calculator.strip_spans]. now rewrite Hin, Hcut.
Qed.

(** X6. Nested brackets. Of a span nested in another the loop removes
    the text from the outer opening bracket to the inner closing one; the
    text between the two closing brackets and the outer closing bracket
    stay in the string. *)
Theorem nested_span_leaves_its_tail (o c : Z) (p m1 m2 m3 q : pystr) :
  o <> c ->
  contains o p = false -> contains c p = false ->
  contains c m1 = false -> contains c m2 = false ->
  contains o m3 = false -> contains o q = false ->
  let s := p ++ o :: m1 ++ o :: m2 ++ c :: m3 ++ c :: q in
  Reporter.strip_spans o c s = p ++ m3 ++ c :: q
  /\ forall fuel,
       Calculator.strip_spans (S (S fuel)) o c s = Some (p ++ m3 ++ c :: q).
Proof.
  intros Hoc Hop Hcp Hcm1 Hcm2 Hom3 Hoq s.
  assert (Hcm : contains c (m1 ++ o :: m2) = false).
  { rewrite contains_app, Hcm1. cbn.
    destruct (Z.eqb_spec c o); [congruence|exact Hcm2]. }
  destruct (cut_first_span o c p (m1 ++ o :: m2) (m3 ++ c :: q) Hoc Hop Hcp Hcm)
    as (Hin & Hlt & Hcut).
  cbv zeta in Hin, Hlt, Hcut.
  assert (Hs : s = p ++ o :: (m1 ++ o :: m2) ++ c :: m3 ++ c :: q)
    by (subst s; now rewrite <- app_assoc).
  assert (Hno : contains o (p ++ m3 ++ c :: q) = false).
  { rewrite !contains_app, Hop, Hom3. cbn.
    destruct (Z.eqb_spec o c); [contradiction|exact Hoq]. }
  split.
  - rewrite Hs, reporter_strip_spans_unfold, Hin, Hlt, Hcut.
    apply reporter_strip_spans_absent. now rewrite Hno.
  - intros fuel. rewrite Hs. cbn [Calculator.strip_spans].
    now rewrite Hin, Hcut, Hno.
Qed.

Section TierOrder.
Variable isalnum : Z -> bool.

Lemma tier2_keeps_tier1 (x : Z) :
  brackets_not_alnum isalnum -> tier2_keeps isalnum x = true -> tier1_keeps x = true.
Proof.
  intros (Hl & Hr & Hfl & Hfr) Hx.
  pose proof (tier2_keeps_no_bracket isalnum x LPAREN Hl ltac:(auto) Hx).
  pose proof (tier2_keeps_no_bracket isalnum x RPAREN Hr ltac:(auto) Hx).
  pose proof (tier2_keeps_no_bracket isalnum x FW_LPAREN Hfl ltac:(auto) Hx).
  pose proof (tier2_keeps_no_bracket isalnum x FW_RPAREN Hfr ltac:(auto) Hx).
  unfold tier2_keeps in Hx.
  apply andb_true_iff in Hx as [Hx Hi]. apply andb_true_iff in Hx as [_ Hsp].
  unfold tier1_keeps. rewrite Hsp, Hi. cbn [andb].
  repeat match goal with
         | |- context [x =? ?b] => destruct (Z.eqb_spec x b); [contradiction|]
         end.
  reflexivity.
Qed.

(** X7. The tiers only delete, and Tier 2 deletes at least what Tier 1
    does: the Tier-2 key of the reporter is a subsequence of the Tier-1 key,
    which is a subsequence of the title; it holds word characters and CJK
    ideographs only, and no space. *)
Theorem tiers_only_delete (s : pystr) :
  brackets_not_alnum isalnum ->
  sublist (Reporter.str_format_2 isalnum s) (Reporter.str_format_1 s)
  /\ sublist (Reporter.str_format_1 s) s
  /\ List.Forall
       (fun x => keep_word_or_cjk isalnum x = true
                 /\ x <> SPACE /\ x <> IDEOGRAPHIC_SPACE)
       (Reporter.str_format_2 isalnum s).
Proof.
  intros Hb. rewrite str_format_1_filter.
  unfold Reporter.str_format_2. cbv zeta. rewrite tier2_tail_filter.
  split; [|split].
  - etransitivity.
    + apply filter_sublist_mono. etransitivity; apply reporter_strip_spans_sublist.
    + apply filter_sublist_weaken. intros x. now apply tier2_keeps_tier1.
  - apply filter_sublist_self.
  - eapply List.Forall_impl; [|apply filter_kept]. cbn beta. intros x Hx.
    unfold tier2_keeps in Hx.
    apply andb_true_iff in Hx as [Hx Hi]. apply andb_true_iff in Hx as [Hw Hsp].
    split; [exact Hw|].
    split; intros ->; discriminate.
Qed.

End TierOrder.

(** ** What the extraction of the books returns and how it fails *)

Section BookExtractionFacts.
Context {cell : Type} `{Cell cell}.
Variable str_contains : pystr -> pystr -> bool.

Ltac read_books_step IH row i_serial i_title i_price e :=
  let sv := fresh "sv" in
  let n := fresh "n" in
  let t := fresh "t" in
  let x := fresh "x" in
  let p := fresh "p" in
  cbn [Reporter.read_books Calculator.read_books];
  unfold Reporter.at_column, Calculator.at_column;
  destruct (row !! i_serial) as [sv|] eqn:Hsv;
  cbn [mbind result_bind]; [|discriminate];
  destruct (isna sv) eqn:Hna;
  [ intros [= <-]
  | destruct (to_int sv) as [n|] eqn:Hint; [|discriminate];
    destruct (Z.eqb_spec n e) as [->|Hne]; cbn [negb]; [|discriminate];
    destruct (row !! i_title) as [t|] eqn:Ht;
    cbn [mbind result_bind]; [|discriminate];
    destruct (row !! i_price) as [x|] eqn:Hx;
    cbn [mbind result_bind]; [|discriminate];
    unfold Reporter.price_of, Calculator.price_of;
    destruct (if isna x then Some 0%float else to_float x) as [p|] eqn:Hp;
    [|destruct (isna x); [discriminate|rewrite Hp; discriminate]];
    replace (if isna x then Return 0%float
             else match to_float x with
                  | Some p => Return p
                  | None => Raise ConversionError
                  end) with (Return (A:=float) p)
      by (destruct (isna x); [now injection Hp as <-|now rewrite Hp]);
    cbn [mbind result_bind]; intros Hrest; apply IH in Hrest ].

Lemma reporter_read_books_returns (i_serial i_title i_price : nat)
    (rows : list (list cell)) (e : Z) (acc out : list (book_info cell)) :
  Reporter.read_books (i_serial, i_title, i_price) rows e acc = Return out ->
  exists rs rest bs,
    rows = rs ++ rest
    /\ listed (fun t => t) i_serial i_title i_price e rs bs
    /\ followed_by i_serial (e + Z.of_nat (length rs)) rest None
    /\ out = acc ++ bs.
Proof.
  revert e acc. induction rows as [|row rows IH]; intros e acc.
  - cbn. intros [= <-]. exists [], [], [].
    split; [reflexivity|]. split; [constructor|].
    split; [apply followed_by_end|now rewrite app_nil_r].
  - read_books_step IH row i_serial i_title i_price e.
    + exists [], (row :: rows), []. rewrite Z.add_0_r.
      split; [reflexivity|]. split; [constructor|].
      split; [|now rewrite app_nil_r].
      now apply (followed_by_blank _ _ row rows sv).
    + destruct Hrest as (rs & rest & bs & -> & Hl & Hf & ->).
      exists (row :: rs), rest, (BookInfo e t p :: bs).
      rewrite <- app_assoc. repeat split.
      * constructor; [|exact Hl]. now exists sv, t, x, p.
      * cbn [length]. now replace (e + Z.of_nat (S (length rs)))
          with (e + 1 + Z.of_nat (length rs)) by lia.
Qed.

Lemma calculator_read_books_returns (i_serial i_title i_price : nat)
    (rows : list (list cell)) (e : Z) (acc out : list (book_info pystr)) :
  Calculator.read_books (i_serial, i_title, i_price) rows e acc = Return out ->
  exists rs rest bs,
    rows = rs ++ rest
    /\ listed (fun t => strip (to_str t)) i_serial i_title i_price e rs bs
    /\ followed_by i_serial (e + Z.of_nat (length rs)) rest None
    /\ out = acc ++ bs.
Proof.
  revert e acc. induction rows as [|row rows IH]; intros e acc.
  - cbn. intros [= <-]. exists [], [], [].
    split; [reflexivity|]. split; [constructor|].
    split; [apply followed_by_end|now rewrite app_nil_r].
  - read_books_step IH row i_serial i_title i_price e.
    + exists [], (row :: rows), []. rewrite Z.add_0_r.
      split; [reflexivity|]. split; [constructor|].
      split; [|now rewrite app_nil_r].
      now apply (followed_by_blank _ _ row rows sv).
    + destruct Hrest as (rs & rest & bs & -> & Hl & Hf & ->).
      exists (row :: rs), rest, (BookInfo e (strip (to_str t)) p :: bs).
      rewrite <- app_assoc. repeat split.
      * constructor; [|exact Hl]. now exists sv, t, x, p.
      * cbn [length]. now replace (e + Z.of_nat (S (length rs)))
          with (e + 1 + Z.of_nat (length rs)) by lia.
Qed.

(** The books a run of [process_book_excel] returns. *)
Definition returned_from {T : Type} (conv : cell -> T) (df : Pd.frame)
    (target_class : pystr) (bs : list (book_info T)) : Prop :=
  bs <> []
  /\ map serial bs = map Z.of_nat (seq 1 (length bs))
  /\ exists header_row i_serial i_title i_price rows rest,
       Reporter.locate_table str_contains df target_class
       = Return (header_row, (i_serial, i_title, i_price))
       /\ drop (S header_row) df = rows ++ rest
       /\ listed conv i_serial i_title i_price 1 rows bs
       /\ followed_by i_serial (1 + Z.of_nat (length rows)) rest None.

(** X17. What [process_book_excel] returns, when it returns: a list that
    is not empty, numbered 1, 2, ... without a gap, holding one book per row
    from the row below the header down to the end of the sheet or to the
    first row with an empty serial cell, and nothing of the rows below
    it. *)
Theorem returned_books_are_the_listed_rows (df : Pd.frame) (target_class : pystr) :
  (forall bs,
     Reporter.process_book_excel str_contains df target_class = Return bs ->
     returned_from (fun t => t) df target_class bs)
  /\ (forall bs,
        Calculator.process_book_excel str_contains df target_class = Return bs ->
        returned_from (fun t => strip (to_str t)) df target_class bs).
Proof.
  split; intros bs Hret.
  - unfold Reporter.process_book_excel in Hret.
    destruct (Reporter.locate_table str_contains df target_class)
      as [[h [[i_serial i_title] i_price]]|] eqn:Hloc; [|discriminate].
    cbn [mbind result_bind] in Hret.
    destruct (Reporter.read_books _ _ 1 []) as [out|] eqn:Hread; [|discriminate].
    cbn [mbind result_bind] in Hret. destruct out as [|b out]; [discriminate|].
    cbn [rewrap] in Hret. injection Hret as <-.
    apply reporter_read_books_returns in Hread
      as (rs & rest & bs & Hrows & Hl & Hf & Hout).
    cbn [app] in Hout. subst bs. split; [discriminate|]. split.
    + rewrite (listed_serials _ _ _ _ _ _ _ Hl), (listed_length _ _ _ _ _ _ _ Hl).
      rewrite <- seq_shift, map_map. apply map_ext. intros i. lia.
    + now exists h, i_serial, i_title, i_price, rs, rest.
  - unfold Calculator.process_book_excel in Hret.
    rewrite locate_table_same in Hret.
    destruct (Reporter.locate_table str_contains df target_class)
      as [[h [[i_serial i_title] i_price]]|] eqn:Hloc; [|discriminate].
    cbn [mbind result_bind] in Hret.
    destruct (Calculator.read_books _ _ 1 []) as [out|] eqn:Hread; [|discriminate].
    cbn [mbind result_bind] in Hret. destruct out as [|b out]; [discriminate|].
    injection Hret as <-.
    apply calculator_read_books_returns in Hread
      as (rs & rest & bs & Hrows & Hl & Hf & Hout).
    cbn [app] in Hout. subst bs. split; [discriminate|]. split.
    + rewrite (listed_serials _ _ _ _ _ _ _ Hl), (listed_length _ _ _ _ _ _ _ Hl).
      rewrite <- seq_shift, map_map. apply map_ext. intros i. lia.
    + now exists h, i_serial, i_title, i_price, rs, rest.
Qed.

End BookExtractionFacts.

(** The value of a result, changed by [f]. *)
Definition result_map {A B : Type} (f : A -> B) (r : result A) : result B :=
  match r with
  | Return a => Return (f a)
  | Raise e => Raise e
  end.

Section BookExtractionOutcomes.
Context {cell : Type} `{Cell cell}.
Variable str_contains : pystr -> pystr -> bool.

Lemma read_books_retitle (cols : nat * nat * nat) (rows : list (list cell)) (e : Z)
    (acc : list (book_info cell)) :
  Calculator.read_books cols rows e (map retitle acc)
  = result_map (map retitle) (Reporter.read_books cols rows e acc).
Proof.
  destruct cols as [[i_serial i_title] i_price].
  revert e acc. induction rows as [|row rows IH]; intros e acc; [reflexivity|].
  cbn [Reporter.read_books Calculator.read_books].
  unfold Reporter.at_column, Calculator.at_column,
    Reporter.price_of, Calculator.price_of.
  destruct (row !! i_serial) as [sv|]; cbn [mbind result_bind result_map];
    [|reflexivity].
  destruct (isna sv); [reflexivity|].
  destruct (to_int sv) as [n|]; [|reflexivity].
  destruct (negb (n =? e)); [reflexivity|].
  destruct (row !! i_title) as [t|]; cbn [mbind result_bind result_map];
    [|reflexivity].
  destruct (row !! i_price) as [x|]; cbn [mbind result_bind result_map];
    [|reflexivity].
  destruct (isna x); [|destruct (to_float x)];
    cbn [mbind result_bind result_map]; try reflexivity;
    rewrite <- IH, map_app; reflexivity.
Qed.

(** The reporter's extraction, read off the calculator's. *)
Lemma reporter_extraction_by_calculator (df : Pd.frame) (target_class : pystr) :
  match Calculator.process_book_excel str_contains df target_class with
  | Return books =>
      exists book_data,
        Reporter.process_book_excel str_contains df target_class = Return book_data
        /\ books = map retitle book_data
  | Raise e =>
      Reporter.process_book_excel str_contains df target_class = Raise (Wrapped e)
  end.
Proof.
  unfold Calculator.process_book_excel, Reporter.process_book_excel.
  rewrite locate_table_same.
  destruct (Reporter.locate_table str_contains df target_class) as [[h cols]|];
    [|reflexivity].
  cbn [mbind result_bind].
  pose proof (read_books_retitle cols (drop (S h) df) 1 []) as E.
  cbn [map] in E. rewrite E.
  destruct (Reporter.read_books cols (drop (S h) df) 1 []) as [[|b bs]|];
    cbn [result_map mbind result_bind rewrap map]; try reflexivity.
  now exists (b :: bs).
Qed.

(** X18. The two programs extract the same books from every sheet: the
    calculator returns the records of the reporter with each title turned
    into a trimmed string, and fails where the reporter fails, with the
    error that the reporter wraps. *)
Theorem calculator_extracts_what_the_reporter_does (df : Pd.frame)
    (target_class : pystr) :
  rewrap (Calculator.process_book_excel str_contains df target_class)
  = result_map (map retitle)
      (Reporter.process_book_excel str_contains df target_class).
Proof.
  unfold Calculator.process_book_excel, Reporter.process_book_excel.
  rewrite locate_table_same.
  destruct (Reporter.locate_table str_contains df target_class) as [[h cols]|];
    [|reflexivity].
  cbn [mbind result_bind].
  pose proof (read_books_retitle cols (drop (S h) df) 1 []) as E.
  cbn [map] in E. rewrite E.
  destruct (Reporter.read_books cols (drop (S h) df) 1 []) as [[|b bs]|];
    reflexivity.
Qed.






End BookExtractionOutcomes.

(** * The report and the whole run *)

(** [d[k].append(v)] on a [defaultdict(list)], in insertion order: a
    missing key is first inserted, at the end, with the empty list. *)
Fixpoint lappend (d : list (pystr * list pystr)) (k v : pystr)
  : list (pystr * list pystr) :=
  match d with
  | [] => [(k, [v])]
  | (k', vs) :: d' =>
      if bool_decide (k' = k) then (k', vs ++ [v]) :: d'
      else (k', vs) :: lappend d' k v
  end.

(** [student_books_map] of [generate_report], and [stu_map] of
    [MainWindow.run_calculation]:
    [for record in student_records:
         student_books_map[record['姓名']].append(record['教材名称'])]. *)
Definition student_books_map (student_records : list purchase)
  : list (pystr * list pystr) :=
  fold_left (fun d record => lappend d (student_name record) (purchase_title record))
    student_records [].

(** The titles of the records of one student, in the order of the
    records. *)
Definition titles_of (name : pystr) (student_records : list purchase) : list pystr :=
  map purchase_title
    (List.filter (fun r => bool_decide (student_name r = name)) student_records).

(** The value of a book's ['教材名称'] as [calculate_student_payments] reads
    it, [str(book['教材名称'])]: of a cell in the reporter, of a string
    in the calculator. *)
Definition as_book {cell : Type} `{Cell cell} (b : book_info cell) : book :=
  Book (to_str (title b)) (discount_price b).

Definition as_book_str (b : book_info pystr) : book :=
  Book (title b) (discount_price b).

(** How a run of the three steps ends: with their data, or at the step
    that raised. *)
Inductive run (A : Type) : Type :=
| Finished (a : A)
| BooksFailed (e : exn)
| StudentsFailed (e : student_exn)
| PaymentsFailed (e : exn).
Arguments Finished {A} a.
Arguments BooksFailed {A} e.
Arguments StudentsFailed {A} e.
Arguments PaymentsFailed {A} e.

(** The [try] block of [main] of textbook_fee_reporter.py, on the two
    frames read from the files:
    [book_data = process_book_excel(..); student_records =
     process_student_excel(..); student_payments =
     calculate_student_payments(book_data, student_records)];
    the value is the data [generate_report] prints, or the error whose
    message [main] prints. *)
Module ReporterMain.
Section Run.
Context {cell : Type} `{Cell cell}.
Variable str_contains : pystr -> pystr -> bool.
Variable isalnum : Z -> bool.

Definition main (book_df student_df : Pd.frame) (target_class : pystr)
  : run (list (book_info cell) * list purchase * payments) :=
  match Reporter.process_book_excel str_contains book_df target_class with
  | Raise e => BooksFailed e
  | Return book_data =>
      match ReporterRest.process_student_excel str_contains student_df target_class with
      | StudentRaise e => StudentsFailed e
      | Students student_records =>
          match Reporter.calculate_student_payments isalnum
                  (map as_book book_data) student_records with
          | Raise e => PaymentsFailed e
          | Return student_payments =>
              Finished (book_data, student_records, student_payments)
          end
      end
  end.

End Run.
End ReporterMain.

(** The statements
    [books = process_book_excel(..); students = process_student_excel(..);
     payments, flag_greedy = calculate_student_payments(books, students)]
    of the [try] block of [MainWindow.run_calculation] of
    TextbookPurchaseFeeCalculator.py, which the method reaches once its
    three fields are filled in, on the two frames read from the files and
    the trimmed text of the class field; the value is the data the method
    shows, or the error whose message it shows; [None] when [fuel] rounds do
    not suffice for a call of [str_format_2]. *)
Module CalculatorMain.
Section Run.
Context {cell : Type} `{Cell cell}.
Variable str_contains : pystr -> pystr -> bool.
Variable isalnum : Z -> bool.

Definition run_calculation (fuel : nat) (book_df student_df : Pd.frame)
    (cls_name : pystr)
  : option (run (list (book_info pystr) * list purchase * (payments * bool))) :=
  match Calculator.process_book_excel str_contains book_df cls_name with
  | Raise e => Some (BooksFailed e)
  | Return books =>
      match CalculatorRest.process_student_excel str_contains student_df cls_name with
      | StudentRaise e => Some (StudentsFailed e)
      | Students students =>
          r ← Calculator.calculate_student_payments isalnum fuel
                 (map as_book_str books) students;
          match r with
          | Raise e => Some (PaymentsFailed e)
          | Return result => Some (Finished (books, students, result))
          end
      end
  end.

End Run.
End CalculatorMain.

(** ** The records grouped by student *)

Lemma lappend_known (f : pystr -> list pystr) (ns : list pystr) (n v : pystr) :
  NoDup ns -> n ∈ ns ->
  lappend (map (fun m => (m, f m)) ns) n v =
  map (fun m => (m, if bool_decide (n = m) then f m ++ [v] else f m)) ns.
Proof.
  induction 1 as [|a ns Ha Hns IH]; intros Hn; [now apply elem_of_nil in Hn|].
  cbn. destruct (decide (a = n)) as [->|Hne].
  - rewrite !bool_decide_eq_true_2 by reflexivity. f_equal.
    apply map_ext_in. intros m Hm. apply list_elem_of_In in Hm.
    rewrite bool_decide_eq_false_2; [reflexivity|]. now intros <-.
  - rewrite (bool_decide_eq_false_2 (a = n)) by assumption.
    rewrite (bool_decide_eq_false_2 (n = a)) by congruence.
    f_equal. apply IH. apply elem_of_cons in Hn as [->|Hn]; [contradiction|exact Hn].
Qed.

Lemma lappend_new (f : pystr -> list pystr) (ns : list pystr) (n v : pystr) :
  n ∉ ns ->
  lappend (map (fun m => (m, f m)) ns) n v = map (fun m => (m, f m)) ns ++ [(n, [v])].
Proof.
  induction ns as [|a ns IH]; intros Hn; [reflexivity|].
  cbn. rewrite bool_decide_eq_false_2.
  - f_equal. apply IH. intros Hin. apply Hn. now right.
  - intros ->. apply Hn. left.
Qed.

Lemma titles_of_snoc (m : pystr) (rs : list purchase) (r : purchase) :
  titles_of m (rs ++ [r])
  = if bool_decide (student_name r = m) then titles_of m rs ++ [purchase_title r]
    else titles_of m rs.
Proof.
  unfold titles_of. rewrite List.filter_app, map_app. cbn.
  case_bool_decide; [reflexivity|apply app_nil_r].
Qed.

Lemma titles_of_nobody (n : pystr) (rs : list purchase) :
  n ∉ map student_name rs -> titles_of n rs = [].
Proof.
  intros Hn. unfold titles_of. induction rs as [|r rs IH]; [reflexivity|].
  cbn in *. case_bool_decide as Hr.
  - exfalso. apply Hn. rewrite Hr. left.
  - apply IH. intros Hin. apply Hn. now right.
Qed.

Lemma student_books_map_spec (rs : list purchase) :
  student_books_map rs
  = map (fun n => (n, titles_of n rs)) (first_seen (map student_name rs)).
Proof.
  induction rs as [|r rs IH] using rev_ind; [reflexivity|].
  unfold student_books_map in *. rewrite fold_left_app, IH. cbn [fold_left].
  rewrite map_app. cbn [map]. rewrite first_seen_snoc.
  case_bool_decide as Hn.
  - rewrite lappend_known by (try apply first_seen_NoDup; assumption).
    apply map_ext. intros m. now rewrite titles_of_snoc.
  - rewrite lappend_new by assumption. rewrite map_app. cbn [map]. f_equal.
    + apply map_ext_in. intros m Hm. apply list_elem_of_In in Hm.
      rewrite titles_of_snoc, bool_decide_eq_false_2; [reflexivity|].
      intros <-. contradiction.
    + rewrite titles_of_snoc, bool_decide_eq_true_2 by reflexivity.
      rewrite titles_of_nobody; [reflexivity|]. now rewrite <- first_seen_elem.
Qed.

Lemma titles_of_length (names : list pystr) (rs : list purchase) :
  NoDup names -> (forall r, r ∈ rs -> student_name r ∈ names) ->
  length (concat (map (fun n => titles_of n rs) names)) = length rs.
Proof.
  intros Hnd. induction rs as [|r rs IH] using rev_ind; intros Hin.
  - clear Hin Hnd. induction names as [|n names IHn]; [reflexivity|exact IHn].
  - rewrite length_app. cbn [length]. rewrite <- IH.
    2:{ intros r' Hr'. apply Hin. apply elem_of_app. now left. }
    assert (Hr : student_name r ∈ names)
      by (apply Hin; apply elem_of_app; right; left).
    clear IH Hin. induction Hnd as [|n names Hn Hnd IHn];
      [now apply elem_of_nil in Hr|].
    cbn [map concat]. rewrite !length_app, titles_of_snoc.
    apply elem_of_cons in Hr as [Hr|Hr].
    + rewrite bool_decide_eq_true_2 by congruence. rewrite length_app. cbn [length].
      assert (Hsame : map (fun n => titles_of n (rs ++ [r])) names
                      = map (fun n => titles_of n rs) names).
      { apply map_ext_in. intros m Hm. apply list_elem_of_In in Hm.
        rewrite titles_of_snoc, bool_decide_eq_false_2; [reflexivity|].
        intros E. apply Hn. congruence. }
      rewrite Hsame. lia.
    + rewrite bool_decide_eq_false_2.
      * rewrite (IHn Hr). lia.
      * intros E. apply Hn. congruence.
Qed.

Section ReportFacts.
Variable isalnum : Z -> bool.

(** X24. The listing of the records in the report: one line per student,
    in the order of first appearance, with the titles of the student's
    records in the order of the records; no record is lost or listed twice.
    When the reporter returns fees, the lines of the listing and the lines
    of the fees name the same students in the same order. *)
Theorem report_groups_records_by_student (books : list book)
    (student_records : list purchase) (fees : payments) :
  Reporter.calculate_student_payments isalnum books student_records = Return fees ->
  let listing := student_books_map student_records in
  listing
  = map (fun n => (n, titles_of n student_records))
      (first_seen (map student_name student_records))
  /\ length (concat (map snd listing)) = length student_records
  /\ map fst listing = map fst fees.
Proof.
  intros Hret listing. subst listing. rewrite student_books_map_spec.
  split; [reflexivity|]. rewrite !map_map. cbn [fst snd]. split.
  - apply titles_of_length; [apply first_seen_NoDup|].
    intros r Hr. apply first_seen_elem, list_elem_of_fmap. now exists r.
  - rewrite map_id. rewrite reporter_calculate_spec in Hret. cbv zeta in Hret.
    destruct (reporter_missing isalnum _ student_records) eqn:Hm; [|discriminate].
    injection Hret as <-. rewrite map_map. cbn [fst]. rewrite map_id.
    now rewrite (reporter_bought_names _ _ _ Hm).
Qed.

End ReportFacts.

(** ** The two programs on the same two sheets *)

Section EndToEnd.
Context {cell : Type} `{Cell cell}.
Variable str_contains : pystr -> pystr -> bool.
Variable isalnum : Z -> bool.

Lemma retitle_same_book (book_data : list (book_info cell)) :
  Forall2 same_book (map as_book book_data) (map as_book_str (map retitle book_data)).
Proof.
  induction book_data as [|b book_data IH]; cbn [map]; constructor; [|exact IH].
  split; [|reflexivity]. cbn. symmetry. apply strip_idem.
Qed.

Lemma same_purchase_refl (students : list purchase) :
  Forall2 same_purchase students students.
Proof. induction students; constructor; [now split|assumption]. Qed.

(** Under prices that are not zero, what the calculator's
    [calculate_student_payments] gives is what the reporter's gives: the
    same fees, or an error for as many unmatched records. *)
Lemma calculator_outcome_by_reporter (fuel : nat) (books : list book)
    (students : list purchase) (r : result (payments * bool)) :
  Forall (fun b => truthy (book_price b) = true) books ->
  Calculator.calculate_student_payments isalnum fuel books students = Some r ->
  match r with
  | Return (pays, _) =>
      Reporter.calculate_student_payments isalnum books students = Return pays
  | Raise e =>
      exists lines lines',
        e = UnmatchedPurchases lines
        /\ Reporter.calculate_student_payments isalnum books students
           = Raise (Wrapped (UnmatchedPurchases lines'))
        /\ length lines = length lines'
  end.
Proof.
  intros Hbooks. unfold Calculator.calculate_student_payments.
  destruct (Calculator.build_price_maps isalnum fuel books no_prices) as [pm|] eqn:Epm;
    [|discriminate].
  cbn [mbind option_bind].
  apply calculator_build_price_maps_sound in Epm.
  fold (Reporter.build_price_maps isalnum books) in Epm. subst pm.
  set (pm := Reporter.build_price_maps isalnum books).
  assert (Hpm : prices_truthy pm)
    by (apply build_price_maps_truthy; [apply no_prices_truthy|exact Hbooks]).
  destruct (Calculator.scan_all isalnum fuel pm _ students) as [st|] eqn:Escan;
    [|discriminate].
  cbn [mbind option_bind].
  apply (calculator_scan_all_sound isalnum fuel pm students _ st Hpm) in Escan
    as (Ht & Hu & _).
  cbn [Calculator.totals Calculator.unmatched length Nat.add] in Ht, Hu.
  rewrite reporter_calculate_spec. cbv zeta. fold pm.
  destruct (Calculator.unmatched st) as [|l ls] eqn:Eu; intros [= <-].
  - destruct (reporter_missing isalnum pm students); [|discriminate Hu].
    now rewrite Ht, tally_spec, map_map.
  - destruct (reporter_missing isalnum pm students) as [|l' ls'] eqn:Em;
      [discriminate Hu|].
    exists (l :: ls), (l' :: ls'). repeat split. exact Hu.
Qed.

(** X25. The two programs on the same two sheets and the same class, when
    no extracted book has a zero price. Where the calculator finishes, the
    reporter finishes with the same records and the same fees, its books
    being those of the calculator before their titles are trimmed; where
    the calculator fails at a step, the reporter fails at this step, with
    the same error inside its own for the two extractions, and with a list
    of as many unmatched records for the calculation. *)
Theorem programs_agree_on_a_run (fuel : nat) (book_df student_df : Pd.frame)
    (cls_name : pystr) :
  (forall books,
     Calculator.process_book_excel str_contains book_df cls_name = Return books ->
     List.Forall (fun b => truthy (discount_price b) = true) books) ->
  let reporter := ReporterMain.main str_contains isalnum book_df student_df cls_name in
  match CalculatorMain.run_calculation str_contains isalnum fuel
          book_df student_df cls_name with
  | None => True
  | Some (Finished (books, students, (payments_, flag_greedy))) =>
      exists book_data,
        reporter = Finished (book_data, students, payments_)
        /\ books = map retitle book_data
  | Some (BooksFailed e) => reporter = BooksFailed (Wrapped e)
  | Some (StudentsFailed e) => reporter = StudentsFailed (StudentWrapped e)
  | Some (PaymentsFailed e) =>
      exists lines lines',
        e = UnmatchedPurchases lines
        /\ reporter = PaymentsFailed (Wrapped (UnmatchedPurchases lines'))
        /\ length lines = length lines'
  end.
Proof.
  intros Hprices reporter. subst reporter.
  unfold CalculatorMain.run_calculation, ReporterMain.main.
  pose proof (reporter_extraction_by_calculator str_contains book_df cls_name)
    as Hbooks.
  rewrite (reporter_process_student_excel_wraps str_contains student_df cls_name).
  destruct (Calculator.process_book_excel str_contains book_df cls_name)
    as [books|e] eqn:Ec; [|now rewrite Hbooks].
  destruct Hbooks as (book_data & -> & ->). specialize (Hprices _ eq_refl).
  destruct (CalculatorRest.process_student_excel str_contains student_df cls_name)
    as [students|e]; cbn [student_rewrap]; [|reflexivity].
  assert (Htruthy : Forall (fun b => truthy (book_price b) = true)
                      (map as_book_str (map retitle book_data))).
  { apply List.Forall_map, List.Forall_map. rewrite List.Forall_map in Hprices.
    exact Hprices. }
  rewrite (reporter_calculate_same isalnum _ _ _ _
             (retitle_same_book book_data) (same_purchase_refl students)).
  destruct (Calculator.calculate_student_payments isalnum fuel _ students)
    as [[[pays flag]|e]|] eqn:Ecalc; cbn [mbind option_bind]; [| |exact I].
  - apply (calculator_outcome_by_reporter fuel _ _ _ Htruthy) in Ecalc.
    cbn beta iota in Ecalc. rewrite Ecalc. now exists book_data.
  - apply (calculator_outcome_by_reporter fuel _ _ _ Htruthy) in Ecalc
      as (lines & lines' & -> & -> & Hlen).
    now exists lines, lines'.
Qed.

End EndToEnd.

(** ** Where the calculator's Tier 2 returns *)

Lemma calculator_strip_spans_by_reporter (o c : Z) (s : pystr) :
  o <> c ->
  let r := Reporter.strip_spans o c s in
  if contains o r && contains c r
  then forall fuel, Calculator.strip_spans fuel o c s = None
  else forall fuel, (length s < fuel)%nat -> Calculator.strip_spans fuel o c s = Some r.
Proof.
  intros Hoc. cbv zeta. remember (length s) as n eqn:Hn. revert s Hn.
  induction n as [n IH] using lt_wf_ind. intros s Hn.
  rewrite reporter_strip_spans_unfold.
  destruct (contains o s && contains c s) eqn:Hin.
  - destruct (Z.ltb_spec (find s o) (find s c)) as [Hlt|Hge].
    + pose proof (cut_span_shorter o c s Hin (proj2 (Z.ltb_lt _ _) Hlt)) as Hshort.
      set (s' := slice_to s (find s o) ++ slice_from s (find s c + 1)) in *.
      specialize (IH (length s') ltac:(lia) s' eq_refl).
      destruct (contains o (Reporter.strip_spans o c s')
                && contains c (Reporter.strip_spans o c s')).
      * intros [|fuel]; [reflexivity|]. cbn. rewrite Hin. apply IH.
      * intros [|fuel] Hfuel; [lia|]. cbn. rewrite Hin. apply IH. fold s'. lia.
    + rewrite Hin. intros fuel. apply calculator_strip_spans_crossed; [assumption|].
      pose proof (find_distinct o c s Hoc Hin).
      apply crossed_intro; [assumption|lia].
  - rewrite Hin. intros [|fuel] Hfuel; [lia|]. cbn. now rewrite Hin.
Qed.

Section Tier2Returns.
Variable isalnum : Z -> bool.

(** X8. Where the calculator's Tier 2 returns. Let the reporter's loops
    run on the title, first for the full-width brackets, then for the ASCII
    ones. If one of them stops with both brackets of its style still in the
    string, that is with a closing bracket before the first opening one, the
    calculator's [str_format_2] never returns on this title; if not, it
    returns the reporter's Tier-2 key, each of its loops making at most as
    many rounds as the title has characters. *)
Theorem calculator_tier2_returns_exactly (s : pystr) :
  let s1 := Reporter.strip_spans FW_LPAREN FW_RPAREN s in
  let s2 := Reporter.strip_spans LPAREN RPAREN s1 in
  if (contains FW_LPAREN s1 && contains FW_RPAREN s1)
     || (contains LPAREN s2 && contains RPAREN s2)
  then forall fuel, Calculator.str_format_2 isalnum fuel s = None
  else forall fuel, (length s < fuel)%nat ->
         Calculator.str_format_2 isalnum fuel s
         = Some (Reporter.str_format_2 isalnum s).
Proof.
  cbv zeta.
  pose proof (calculator_strip_spans_by_reporter FW_LPAREN FW_RPAREN s
                ltac:(discriminate)) as H1.
  pose proof (calculator_strip_spans_by_reporter LPAREN RPAREN
                (Reporter.strip_spans FW_LPAREN FW_RPAREN s)
                ltac:(discriminate)) as H2.
  cbv zeta in H1, H2.
  pose proof (sublist_length _ _ (reporter_strip_spans_sublist FW_LPAREN FW_RPAREN s))
    as Hlen.
  set (s1 := Reporter.strip_spans FW_LPAREN FW_RPAREN s) in *.
  destruct (contains FW_LPAREN s1 && contains FW_RPAREN s1); cbn [orb].
  - intros fuel. unfold Calculator.str_format_2. now rewrite H1.
  - destruct (contains LPAREN (Reporter.strip_spans LPAREN RPAREN s1)
              && contains RPAREN (Reporter.strip_spans LPAREN RPAREN s1)).
    + intros fuel. unfold Calculator.str_format_2.
      destruct (Calculator.strip_spans fuel FW_LPAREN FW_RPAREN s) as [r|] eqn:E;
        [|reflexivity].
      apply calculator_strip_spans_sound in E; [|discriminate]. fold s1 in E. subst r.
      cbn [mbind option_bind]. now rewrite H2.
    + intros fuel Hfuel. unfold Calculator.str_format_2, Reporter.str_format_2.
      cbv zeta. fold s1. rewrite (H1 fuel Hfuel). cbn [mbind option_bind].
      rewrite (H2 fuel) by lia. reflexivity.
Qed.

End Tier2Returns.

(** * The statements above on sample sheets and batches *)

Definition ZHANG_SAN : pystr := [24352; 19977].   (* "张三" *)
Definition LI_SI : pystr := [26446; 22235].       (* "李四" *)
Definition CLASS_242 : pystr := [30005; 27668; 50; 52; 50].   (* "电气242" *)

(** A sheet of the registrar, read with [keep_default_na=False]: an empty
    cell is the empty string. *)
Definition export_note_row : list Sample.value :=
  [Sample.Label (CLASS_241 ++ [29677]); Sample.Label []; Sample.Label []].
Definition student_header : list Sample.value :=
  [Sample.Label NAME; Sample.Label CLASS_TOKEN; Sample.Label TITLE].
Definition zhang_calculus : list Sample.value :=
  [Sample.Label ZHANG_SAN; Sample.Label (CLASS_241 ++ [29677]);
   Sample.Label ([32] ++ CALCULUS ++ [32])].
Definition li_algebra_other_class : list Sample.value :=
  [Sample.Label LI_SI; Sample.Label CLASS_242; Sample.Label ALGEBRA].
Definition nameless_algebra : list Sample.value :=
  [Sample.Label []; Sample.Label CLASS_241; Sample.Label ALGEBRA].
Definition zhang_algebra : list Sample.value :=
  [Sample.Label ZHANG_SAN; Sample.Label CLASS_241; Sample.Label ALGEBRA].

Definition student_sheet : Pd.frame :=
  [student_header; zhang_calculus; li_algebra_other_class; nameless_algebra;
   zhang_algebra].

(** Two books, both with a price. *)
Definition priced_sheet : Pd.frame :=
  [title_row; header_cells; calculus_row;
   [Sample.Whole 2; Sample.Label ALGEBRA; Sample.Whole 30]; subtotal_row].


Example student_sheet_records :
  CalculatorRest.process_student_excel Sample.occurs_in student_sheet CLASS_241
  = Students [Purchase ZHANG_SAN CALCULUS; Purchase ZHANG_SAN ALGEBRA].
Proof. vm_compute. reflexivity. Qed.

Lemma student_records_are_well_formed_witness :
  ReporterRest.process_student_excel Sample.occurs_in student_sheet CLASS_241
  = Students [Purchase ZHANG_SAN CALCULUS; Purchase ZHANG_SAN ALGEBRA]
  /\ [Purchase ZHANG_SAN CALCULUS; Purchase ZHANG_SAN ALGEBRA] <> []
  /\ List.Forall well_formed_record
       [Purchase ZHANG_SAN CALCULUS; Purchase ZHANG_SAN ALGEBRA].
Proof.
  apply (student_records_are_well_formed Sample.occurs_in student_sheet CLASS_241
           [Purchase ZHANG_SAN CALCULUS; Purchase ZHANG_SAN ALGEBRA]).
  vm_compute. reflexivity.
Defined.

Lemma student_records_by_row_witness :
  CalculatorRest.process_student_excel Sample.occurs_in student_sheet CLASS_241
  = Students [Purchase ZHANG_SAN CALCULUS; Purchase ZHANG_SAN ALGEBRA]
  /\ ReporterRest.process_student_excel Sample.occurs_in student_sheet CLASS_241
     = student_rewrap
         (Students [Purchase ZHANG_SAN CALCULUS; Purchase ZHANG_SAN ALGEBRA]).
Proof.
  assert (Hloc : Students.locate_columns Sample.occurs_in student_sheet
                 = Students (0, (0, 1, 2))%nat) by (vm_compute; reflexivity).
  assert (Hrows : List.Forall (has_columns (0, 1, 2)%nat) (drop 1 student_sheet))
    by (repeat constructor; eexists; reflexivity).
  exact (student_records_by_row Sample.occurs_in student_sheet CLASS_241
           0 (0, 1, 2)%nat Hloc Hrows).
Defined.

Lemma student_extraction_outcomes_witness :
  match CalculatorRest.process_student_excel Sample.occurs_in student_sheet CLASS_241 with
  | Students student_records => student_records <> []
  | StudentRaise e =>
      (e = NameHeaderNotFound
       /\ List.Forall (fun r => names_header Sample.occurs_in r = false) student_sheet)
      \/ e = StudentColumnMissing CLASS_TOKEN
      \/ e = StudentColumnMissing TITLE
      \/ e = NoStudentRecords CLASS_241
  end.
Proof.
  apply (student_extraction_outcomes Sample.occurs_in student_sheet CLASS_241).
  exists 3%nat. repeat constructor.
Defined.

Lemma rows_above_header_are_ignored_witness :
  CalculatorRest.process_student_excel Sample.occurs_in
    ([export_note_row] ++ student_sheet) CLASS_241
  = CalculatorRest.process_student_excel Sample.occurs_in student_sheet CLASS_241
  /\ ReporterRest.process_student_excel Sample.occurs_in
       ([export_note_row] ++ student_sheet) CLASS_241
     = ReporterRest.process_student_excel Sample.occurs_in student_sheet CLASS_241.
Proof.
  apply (rows_above_header_are_ignored Sample.occurs_in [export_note_row]
           student_sheet CLASS_241).
  repeat constructor.
Defined.

(** "A" at 1.0, then " A " for free, then "(A)" at 3.0: a record of "A"
    is charged 0.0. *)
Lemma exact_title_is_charged_last_listed_price_witness :
  reporter_price Sample.isalnum
    (Reporter.build_price_maps Sample.isalnum
       ([Book [65] 1%float] ++ Book [32; 65; 32] 0%float :: [Book [40; 65; 41] 3%float]))
    (Purchase [115] [65])
  = Some 0%float.
Proof.
  apply (exact_title_is_charged_last_listed_price Sample.isalnum
           [Book [65] 1%float] [Book [40; 65; 41] 3%float]
           (Book [32; 65; 32] 0%float) (Purchase [115] [65])).
  - reflexivity.
  - constructor; [vm_compute; discriminate|constructor].
Defined.

(** " A" and "A " for the book, "A  " and " A" for the record. *)
Lemma white_space_around_titles_is_ignored_witness :
  Reporter.calculate_student_payments Sample.isalnum
    [Book [32; 65] 1%float] [Purchase [115] [65; 32; 32]]
  = Reporter.calculate_student_payments Sample.isalnum
      [Book [65; 32] 1%float] [Purchase [115] [32; 65]]
  /\ forall fuel,
       Calculator.calculate_student_payments Sample.isalnum fuel
         [Book [32; 65] 1%float] [Purchase [115] [65; 32; 32]]
       = Calculator.calculate_student_payments Sample.isalnum fuel
           [Book [65; 32] 1%float] [Purchase [115] [32; 65]].
Proof.
  apply (white_space_around_titles_is_ignored Sample.isalnum
           [Book [32; 65] 1%float] [Book [65; 32] 1%float]
           [Purchase [115] [65; 32; 32]] [Purchase [115] [32; 65]]).
  - repeat constructor.
  - repeat constructor.
Defined.

(** "s", "t", "s" again: two rows, "s" then "t". *)
Lemma one_row_per_student_witness :
  let students := [Purchase [115] [65]; Purchase [116] [65]; Purchase [115] [65]] in
  let fees := [([115], 2%float); ([116], 1%float)] in
  map fst fees = first_seen (map student_name students)
  /\ NoDup (map fst fees)
  /\ forall stu, stu ∈ students -> student_name stu ∈ map fst fees.
Proof.
  apply (one_row_per_student Sample.isalnum [Book [65] 1%float]
           [Purchase [115] [65]; Purchase [116] [65]; Purchase [115] [65]]
           [([115], 2%float); ([116], 1%float)]).
  left. vm_compute. reflexivity.
Defined.

(** "a(b(c)d": the span "(b(c)" goes. *)
Lemma first_span_is_removed_witness :
  Reporter.strip_spans LPAREN RPAREN ([97] ++ 40 :: [98; 40; 99] ++ 41 :: [100])
  = Reporter.strip_spans LPAREN RPAREN ([97] ++ [100])
  /\ forall fuel,
       Calculator.strip_spans (S fuel) LPAREN RPAREN
         ([97] ++ 40 :: [98; 40; 99] ++ 41 :: [100])
       = Calculator.strip_spans fuel LPAREN RPAREN ([97] ++ [100]).
Proof.
  apply (first_span_is_removed LPAREN RPAREN [97] [98; 40; 99] [100]).
  - discriminate.
  - reflexivity.
  - reflexivity.
  - reflexivity.
Defined.

(** "A((B)C)D" goes to "AC)D". *)
Lemma nested_span_leaves_its_tail_witness :
  let s := [65] ++ 40 :: [] ++ 40 :: [66] ++ 41 :: [67] ++ 41 :: [68] in
  Reporter.strip_spans LPAREN RPAREN s = [65] ++ [67] ++ 41 :: [68]
  /\ forall fuel,
       Calculator.strip_spans (S (S fuel)) LPAREN RPAREN s
       = Some ([65] ++ [67] ++ 41 :: [68]).
Proof.
  apply (nested_span_leaves_its_tail LPAREN RPAREN [65] [] [66] [67] [68]).
  - discriminate.
  - reflexivity.
  - reflexivity.
  - reflexivity.
  - reflexivity.
  - reflexivity.
  - reflexivity.
Defined.

(** Tier 2 on "A((B)C)D" keeps the "C". *)
Example tier2_on_nested_brackets :
  Reporter.str_format_2 Sample.isalnum [65; 40; 40; 66; 41; 67; 41; 68] = [65; 67; 68].
Proof. vm_compute. reflexivity. Qed.

(** "高等数学 (上册)". *)
Lemma tiers_only_delete_witness :
  let s := [39640; 31561; 25968; 23398; 32; 40; 19978; 20876; 41] in
  sublist (Reporter.str_format_2 Sample.isalnum s) (Reporter.str_format_1 s)
  /\ sublist (Reporter.str_format_1 s) s
  /\ List.Forall
       (fun x => keep_word_or_cjk Sample.isalnum x = true
                 /\ x <> SPACE /\ x <> IDEOGRAPHIC_SPACE)
       (Reporter.str_format_2 Sample.isalnum s).
Proof.
  apply (tiers_only_delete Sample.isalnum
           [39640; 31561; 25968; 23398; 32; 40; 19978; 20876; 41]).
  exact sample_brackets_not_alnum.
Defined.


(** The listing of the records of the student sheet, priced with the two
    books of the priced sheet. *)
Lemma report_groups_records_by_student_witness :
  let books := [Book CALCULUS 45%float; Book ALGEBRA 30%float] in
  let student_records := [Purchase ZHANG_SAN CALCULUS; Purchase LI_SI ALGEBRA;
                          Purchase ZHANG_SAN ALGEBRA] in
  let fees := [(ZHANG_SAN, 75%float); (LI_SI, 30%float)] in
  let listing := student_books_map student_records in
  listing
  = map (fun n => (n, titles_of n student_records))
      (first_seen (map student_name student_records))
  /\ length (concat (map snd listing)) = length student_records
  /\ map fst listing = map fst fees.
Proof.
  apply (report_groups_records_by_student Sample.isalnum
           [Book CALCULUS 45%float; Book ALGEBRA 30%float]
           [Purchase ZHANG_SAN CALCULUS; Purchase LI_SI ALGEBRA;
            Purchase ZHANG_SAN ALGEBRA]
           [(ZHANG_SAN, 75%float); (LI_SI, 30%float)]).
  vm_compute. reflexivity.
Defined.

Example listing_of_the_sample_records :
  student_books_map [Purchase ZHANG_SAN CALCULUS; Purchase LI_SI ALGEBRA;
                     Purchase ZHANG_SAN ALGEBRA]
  = [(ZHANG_SAN, [CALCULUS; ALGEBRA]); (LI_SI, [ALGEBRA])].
Proof. vm_compute. reflexivity. Qed.

(** The priced sheet and the student sheet: both programs charge 张三
    75.0. *)
Example run_on_the_sample_sheets :
  CalculatorMain.run_calculation Sample.occurs_in Sample.isalnum 5
    priced_sheet student_sheet CLASS_241
  = Some (Finished ([BookInfo 1 CALCULUS 45%float; BookInfo 2 ALGEBRA 30%float],
                    [Purchase ZHANG_SAN CALCULUS; Purchase ZHANG_SAN ALGEBRA],
                    ([(ZHANG_SAN, 75%float)], false)))
  /\ ReporterMain.main Sample.occurs_in Sample.isalnum
       priced_sheet student_sheet CLASS_241
     = Finished ([BookInfo 1 (Sample.Label CALCULUS) 45%float;
                  BookInfo 2 (Sample.Label ALGEBRA) 30%float],
                 [Purchase ZHANG_SAN CALCULUS; Purchase ZHANG_SAN ALGEBRA],
                 [(ZHANG_SAN, 75%float)]).
Proof. split; vm_compute; reflexivity. Qed.

Lemma programs_agree_on_a_run_witness :
  let reporter :=
    ReporterMain.main Sample.occurs_in Sample.isalnum
      priced_sheet student_sheet CLASS_241 in
  match CalculatorMain.run_calculation Sample.occurs_in Sample.isalnum 5
          priced_sheet student_sheet CLASS_241 with
  | None => True
  | Some (Finished (books, students, (payments_, flag_greedy))) =>
      exists book_data,
        reporter = Finished (book_data, students, payments_)
        /\ books = map retitle book_data
  | Some (BooksFailed e) => reporter = BooksFailed (Wrapped e)
  | Some (StudentsFailed e) => reporter = StudentsFailed (StudentWrapped e)
  | Some (PaymentsFailed e) =>
      exists lines lines',
        e = UnmatchedPurchases lines
        /\ reporter = PaymentsFailed (Wrapped (UnmatchedPurchases lines'))
        /\ length lines = length lines'
  end.
Proof.
  apply (programs_agree_on_a_run Sample.occurs_in Sample.isalnum 5
           priced_sheet student_sheet CLASS_241).
  intros books Hret. vm_compute in Hret. injection Hret as <-.
  repeat constructor.
Defined.
